(** * pgcontents: the query layer ([pgcontents/query.py]) over a relational store

    A shallow embedding of the functions of [query.py].  The SQL tables are
    lists of rows kept in insertion order, a statement is a function on the
    store, and a Python function that may raise returns a [result] together
    with the store it leaves behind. *)

From Stdlib Require Import ZArith List String Ascii Bool Lia.
From Stdlib Require Import Sorting.Sorted Sorting.Permutation.
From Stdlib Require OrderedTypeEx.
Import ListNotations.

Local Open Scope Z_scope.
Local Open Scope list_scope.

(** ** Exceptions and results *)

(** The exception classes imported from [.error], plus the library and builtin
    exceptions the functions let through. *)
Inductive exn : Type :=
| DirectoryNotEmpty (api_path : string)
| FileExists (api_path : string)
| FileTooLarge
| NoSuchCheckpoint (api_path checkpoint_id : string)
| NoSuchDirectory (api_path : string)
| NoSuchFile (api_path : option string)
| IntegrityError (pgcode : string)
| ValueError
| AssertionError.

Inductive result (A : Type) : Type :=
| Return (a : A)
| Raise (e : exn).
Arguments Return {A} a.
Arguments Raise {A} e.

(** [psycopg2.errorcodes] *)
Definition FOREIGN_KEY_VIOLATION : string := "23503".
Definition UNIQUE_VIOLATION : string := "23505".
Definition NOT_NULL_VIOLATION : string := "23502".

(** ** Rows and tables *)

Record directories_row : Type := mk_directory {
  dir_user_id : string;
  dir_name : string;
  dir_parent_user_id : option string;
  dir_parent_name : option string
}.

Record files_row : Type := mk_file {
  file_id : Z;
  file_name : string;
  file_user_id : string;
  file_parent_name : string;
  file_content : string;
  file_created_at : Z
}.

Record checkpoints_row : Type := mk_checkpoint {
  checkpoint_id : Z;
  checkpoint_file_id : option Z;
  checkpoint_created_at : Z
}.

Record remote_checkpoints_row : Type := mk_remote_checkpoint {
  remote_id : Z;
  remote_user_id : string;
  remote_path : string;
  remote_content : string;
  remote_last_modified : Z
}.

(** The store: the five tables, the three serial sequences and the clock
    read by [func.now()] and by the [created_at] / [last_modified]
    defaults. *)
Record database : Type := mk_database {
  users : list string;
  directories : list directories_row;
  files : list files_row;
  checkpoints : list checkpoints_row;
  remote_checkpoints : list remote_checkpoints_row;
  files_id_seq : Z;
  checkpoints_id_seq : Z;
  remote_checkpoints_id_seq : Z;
  now : Z
}.

Definition empty_database (t : Z) : database :=
  mk_database [] [] [] [] [] 1 1 1 t.

(** The passage of time between two requests. *)
Definition at_time (t : Z) (db : database) : database :=
  mk_database (users db) (directories db) (files db) (checkpoints db)
    (remote_checkpoints db) (files_id_seq db) (checkpoints_id_seq db)
    (remote_checkpoints_id_seq db) t.

Definition with_users (db : database) (l : list string) : database :=
  mk_database l (directories db) (files db) (checkpoints db)
    (remote_checkpoints db) (files_id_seq db) (checkpoints_id_seq db)
    (remote_checkpoints_id_seq db) (now db).

Definition with_directories (db : database) (l : list directories_row)
  : database :=
  mk_database (users db) l (files db) (checkpoints db)
    (remote_checkpoints db) (files_id_seq db) (checkpoints_id_seq db)
    (remote_checkpoints_id_seq db) (now db).

Definition with_files (db : database) (l : list files_row) : database :=
  mk_database (users db) (directories db) l (checkpoints db)
    (remote_checkpoints db) (files_id_seq db) (checkpoints_id_seq db)
    (remote_checkpoints_id_seq db) (now db).

Definition with_checkpoints (db : database) (l : list checkpoints_row)
  : database :=
  mk_database (users db) (directories db) (files db) l
    (remote_checkpoints db) (files_id_seq db) (checkpoints_id_seq db)
    (remote_checkpoints_id_seq db) (now db).

Definition with_remote_checkpoints (db : database)
  (l : list remote_checkpoints_row) : database :=
  mk_database (users db) (directories db) (files db) (checkpoints db)
    l (files_id_seq db) (checkpoints_id_seq db)
    (remote_checkpoints_id_seq db) (now db).

Definition next_files_id (db : database) : database :=
  mk_database (users db) (directories db) (files db) (checkpoints db)
    (remote_checkpoints db) (files_id_seq db + 1) (checkpoints_id_seq db)
    (remote_checkpoints_id_seq db) (now db).

Definition next_checkpoints_id (db : database) : database :=
  mk_database (users db) (directories db) (files db) (checkpoints db)
    (remote_checkpoints db) (files_id_seq db) (checkpoints_id_seq db + 1)
    (remote_checkpoints_id_seq db) (now db).

Definition next_remote_checkpoints_id (db : database) : database :=
  mk_database (users db) (directories db) (files db) (checkpoints db)
    (remote_checkpoints db) (files_id_seq db) (checkpoints_id_seq db)
    (remote_checkpoints_id_seq db + 1) (now db).

(** ** Calls that run against the store *)

(** What a call leaves: its result and the store after it. *)
Definition outcome (A : Type) : Type := (result A * database)%type.

Definition bind {A B : Type} (c : outcome A)
  (k : A -> database -> outcome B) : outcome B :=
  match c with
  | (Return a, db') => k a db'
  | (Raise e, db') => (Raise e, db')
  end.

Notation "'let*' ( x , db ) := c 'in' k" :=
  (bind c (fun x db => k))
  (at level 10, x name, db name, c at level 100, k at level 200,
   only parsing).

(** Python truthiness of an integer: [not n] holds of 0 only. *)
Definition py_not (n : Z) : bool := n =? 0.

Definition option_eqb (o : option string) (s : string) : bool :=
  match o with
  | Some x => String.eqb x s
  | None => false
  end.

Definition option_Z_eqb (o : option Z) (n : Z) : bool :=
  match o with
  | Some x => x =? n
  | None => false
  end.

Definition count {A : Type} (p : A -> bool) (l : list A) : Z :=
  Z.of_nat (List.length (filter p l)).

(** ** ORDER BY, DISTINCT ON, LIMIT *)

Section OrderBy.
Context {A : Type}.

(** One ORDER BY: how two rows compare. *)
Definition ordering : Type := A -> A -> comparison.

Definition asc {K : Type} (cmp : K -> K -> comparison) (col : A -> K)
  : ordering := fun r1 r2 => cmp (col r1) (col r2).

Definition desc {K : Type} (cmp : K -> K -> comparison) (col : A -> K)
  : ordering := fun r1 r2 => cmp (col r2) (col r1).

(** Several ORDER BY columns: the first that tells the rows apart. *)
Definition then_by (o1 o2 : ordering) : ordering :=
  fun r1 r2 => match o1 r1 r2 with
               | Eq => o2 r1 r2
               | c => c
               end.

Fixpoint insert_row (o : ordering) (x : A) (l : list A) : list A :=
  match l with
  | [] => [x]
  | y :: l' =>
      match o x y with
      | Gt => y :: insert_row o x l'
      | _ => x :: l
      end
  end.

(** The sort is stable: rows that compare equal stay in table order. *)
Definition order_by (o : ordering) (l : list A) : list A :=
  fold_right (insert_row o) [] l.

(** DISTINCT ON (key): the first row of each set of rows with equal key. *)
Fixpoint distinct_on {K : Type} (eqb : K -> K -> bool) (key : A -> K)
  (l : list A) : list A :=
  match l with
  | [] => []
  | x :: l' =>
      x :: filter (fun y => negb (eqb (key x) (key y)))
             (distinct_on eqb key l')
  end.

Definition limit (n : option nat) (l : list A) : list A :=
  match n with
  | Some k => firstn k l
  | None => l
  end.

(** [ResultProxy.first()] *)
Definition first (l : list A) : option A := hd_error l.
End OrderBy.

(** ** What [query.py] imports from the rest of the package *)

(** [.constants], [.api_utils] and [.schema] are not part of this file, and
    [int] is the Python builtin.  Paths reach this layer already validated,
    so the three path functions are total; [py_int] is [None] where [int()]
    raises [ValueError]; [checkpoints_file_id_nullable] says whether the
    schema lets [checkpoints.file_id] be NULL. *)
Class Environment : Type := {
  UNLIMITED : Z;
  from_api_dirname : string -> string;
  from_api_filename : string -> string;
  split_api_filepath : string -> string * string;
  py_int : string -> option Z;
  checkpoints_file_id_nullable : bool
}.

(** ** The statements, as the backing store runs them *)

Module Store.

(** Modelled from the spec: the table definitions ([schema.py]) are
    missing.  The constraints are those of the spec's data model and
    relational schema: [users.id] unique; [directories (user_id, name)]
    unique; the parent of a directory and the parent of a file reference
    [directories (user_id, name)]; [checkpoints.file_id] references
    [files.id] and a checkpoint goes with the version row it references;
    [files.id], [checkpoints.id] and [remote_checkpoints.id] are serial;
    [created_at] and [last_modified] default to the clock. *)

Definition directory_is (user_id name : string) (d : directories_row)
  : bool :=
  String.eqb (dir_user_id d) user_id && String.eqb (dir_name d) name.

Definition has_directory (db : database) (user_id name : string) : bool :=
  existsb (directory_is user_id name) (directories db).

Definition users_insert (id : string) (db : database) : outcome unit :=
  if existsb (String.eqb id) (users db)
  then (Raise (IntegrityError UNIQUE_VIOLATION), db)
  else (Return tt, with_users db (users db ++ [id])).

Definition parent_present (db : database) (row : directories_row) : bool :=
  match dir_parent_user_id row, dir_parent_name row with
  | Some u, Some n => has_directory db u n
  | _, _ => true
  end.

Definition directories_insert (row : directories_row) (db : database)
  : outcome unit :=
  if has_directory db (dir_user_id row) (dir_name row)
  then (Raise (IntegrityError UNIQUE_VIOLATION), db)
  else if negb (parent_present db row)
  then (Raise (IntegrityError FOREIGN_KEY_VIOLATION), db)
  else (Return tt, with_directories db (directories db ++ [row])).

(** A directory row is referenced by the files in it and by the
    directories that stay and name it as parent. *)
Definition referenced (db : database) (where_ : directories_row -> bool)
  (d : directories_row) : bool :=
  existsb (fun f => String.eqb (file_user_id f) (dir_user_id d)
                    && String.eqb (file_parent_name f) (dir_name d))
          (files db)
  || existsb (fun c => negb (where_ c)
                       && option_eqb (dir_parent_user_id c) (dir_user_id d)
                       && option_eqb (dir_parent_name c) (dir_name d))
             (directories db).

Definition directories_delete (where_ : directories_row -> bool)
  (db : database) : outcome Z :=
  if existsb (referenced db where_) (filter where_ (directories db))
  then (Raise (IntegrityError FOREIGN_KEY_VIOLATION), db)
  else (Return (count where_ (directories db)),
        with_directories db
          (filter (fun d => negb (where_ d)) (directories db))).

(** A rejected insert has already drawn its id from the sequence. *)
Definition files_insert (name user_id parent_name content : string)
  (db : database) : outcome unit :=
  if negb (has_directory db user_id parent_name)
  then (Raise (IntegrityError FOREIGN_KEY_VIOLATION), next_files_id db)
  else (Return tt,
        next_files_id
          (with_files db
             (files db ++ [mk_file (files_id_seq db) name user_id
                             parent_name content (now db)]))).

Definition files_update (where_ : files_row -> bool)
  (set : files_row -> files_row) (db : database) : outcome Z :=
  (Return (count where_ (files db)),
   with_files db
     (map (fun f => if where_ f then set f else f) (files db))).

Definition files_delete (where_ : files_row -> bool) (db : database)
  : outcome Z :=
  let gone := map file_id (filter where_ (files db)) in
  (Return (count where_ (files db)),
   with_checkpoints
     (with_files db (filter (fun f => negb (where_ f)) (files db)))
     (filter (fun c => negb (existsb (option_Z_eqb (checkpoint_file_id c))
                                gone))
        (checkpoints db))).

(** INSERT INTO checkpoints (file_id) VALUES ((subquery)) RETURNING ...:
    a scalar subquery without rows is NULL. *)
Definition checkpoints_insert {E : Environment} {A : Type}
  (file_id_subquery : database -> list Z)
  (returning : checkpoints_row -> A) (db : database) : outcome (list A) :=
  let row := mk_checkpoint (checkpoints_id_seq db)
               (first (file_id_subquery db)) (now db) in
  match checkpoint_file_id row with
  | None =>
      if checkpoints_file_id_nullable
      then (Return [returning row],
            next_checkpoints_id
              (with_checkpoints db (checkpoints db ++ [row])))
      else (Raise (IntegrityError NOT_NULL_VIOLATION),
            next_checkpoints_id db)
  | Some id =>
      if existsb (fun f => file_id f =? id) (files db)
      then (Return [returning row],
            next_checkpoints_id
              (with_checkpoints db (checkpoints db ++ [row])))
      else (Raise (IntegrityError FOREIGN_KEY_VIOLATION),
            next_checkpoints_id db)
  end.

Definition remote_checkpoints_insert {A : Type}
  (user_id path content : string)
  (returning : remote_checkpoints_row -> A) (db : database)
  : outcome (option A) :=
  let row := mk_remote_checkpoint (remote_checkpoints_id_seq db) user_id
               path content (now db) in
  (Return (Some (returning row)),
   next_remote_checkpoints_id
     (with_remote_checkpoints db (remote_checkpoints db ++ [row]))).

Definition remote_checkpoints_delete
  (where_ : remote_checkpoints_row -> bool) (db : database) : outcome Z :=
  (Return (count where_ (remote_checkpoints db)),
   with_remote_checkpoints db
     (filter (fun r => negb (where_ r)) (remote_checkpoints db))).

Definition remote_checkpoints_update
  (where_ : remote_checkpoints_row -> bool)
  (set : remote_checkpoints_row -> remote_checkpoints_row)
  (db : database) : outcome Z :=
  (Return (count where_ (remote_checkpoints db)),
   with_remote_checkpoints db
     (map (fun r => if where_ r then set r else r)
        (remote_checkpoints db))).

(** No entity outlives its tenant: the rows of the directories, of the
    files and of the snapshots reference their user, and a user that still
    has such a row is not deleted. *)
Definition has_rows (db : database) (user_id : string) : bool :=
  existsb (fun d => String.eqb (dir_user_id d) user_id) (directories db)
  || existsb (fun f => String.eqb (file_user_id f) user_id) (files db)
  || existsb (fun r => String.eqb (remote_user_id r) user_id)
       (remote_checkpoints db).

Definition users_delete (where_ : string -> bool) (db : database)
  : outcome Z :=
  if existsb (has_rows db) (filter where_ (users db))
  then (Raise (IntegrityError FOREIGN_KEY_VIOLATION), db)
  else (Return (count where_ (users db)),
        with_users db (filter (fun u => negb (where_ u)) (users db))).

Definition checkpoints_delete (where_ : checkpoints_row -> bool)
  (db : database) : outcome Z :=
  (Return (count where_ (checkpoints db)),
   with_checkpoints db
     (filter (fun c => negb (where_ c)) (checkpoints db))).

(** files JOIN checkpoints ON files.id = checkpoints.file_id *)
Definition files_join_checkpoints (db : database)
  : list (files_row * checkpoints_row) :=
  flat_map
    (fun f => map (pair f)
                (filter (fun c => option_Z_eqb (checkpoint_file_id c)
                                    (file_id f))
                   (checkpoints db)))
    (files db).

End Store.

(** ** [query.py] *)

(** What [to_dict] builds from the default file fields, with the content
    when it was selected. *)
Record file_dict : Type := mk_file_dict {
  dict_file_name : string;
  dict_created_at : Z;
  dict_parent_name : string;
  dict_content : option string
}.

Record directory_dict : Type := mk_directory_dict {
  dict_name : string;
  dict_files : option (list file_dict);
  dict_subdirs : option (list string)
}.

Record checkpoint_dict : Type := mk_checkpoint_dict {
  dict_checkpoint_id : Z;
  dict_checkpoint_created_at : Z
}.

(** [latest_remote_checkpoints] selects the id and the path. *)
Record remote_checkpoint_dict : Type := mk_remote_checkpoint_dict {
  dict_remote_id : Z;
  dict_remote_path : string
}.

(** Python string helpers used by [create_directory]. *)
Fixpoint rindex_from (c : ascii) (s : string) (i : nat) : option nat :=
  match s with
  | EmptyString => None
  | String a s' =>
      match rindex_from c s' (S i) with
      | Some j => Some j
      | None => if Ascii.eqb a c then Some i else None
      end
  end.

(** [s.rindex(c, 0, -1)]: the last [c] before the last character, [None]
    where Python raises [ValueError]. *)
Definition rindex_0_m1 (c : ascii) (s : string) : option nat :=
  rindex_from c (substring 0 (String.length s - 1) s) 0.

(** The columns of DISTINCT ON in [files_in_directory]. *)
Definition file_key (f : files_row) : string * string * string :=
  (file_user_id f, file_parent_name f, file_name f).

Definition file_key_eqb (k1 k2 : string * string * string) : bool :=
  let '(u1, p1, n1) := k1 in
  let '(u2, p2, n2) := k2 in
  String.eqb u1 u2 && String.eqb p1 p2 && String.eqb n1 n2.

Section Query.
Context {E : Environment}.

(** *** Users *)

(** Modelled from the spec: [ignore_unique_violation] comes from
    [db_utils], which is missing.  A uniqueness violation raised inside
    the block is swallowed, any other exception propagates unmodified. *)
Definition ignore_unique_violation (body : outcome unit) : outcome unit :=
  match body with
  | (Raise (IntegrityError pgcode), db') =>
      if String.eqb pgcode UNIQUE_VIOLATION
      then (Return tt, db')
      else (Raise (IntegrityError pgcode), db')
  | other => other
  end.

Definition ensure_db_user (db : database) (user_id : string)
  : outcome unit :=
  ignore_unique_violation (Store.users_insert user_id db).

(** *** Directories *)

Definition create_directory (db : database) (user_id api_path : string)
  : outcome unit :=
  let name := from_api_dirname api_path in
  if String.eqb name "/"
  then
    Store.directories_insert (mk_directory user_id name None None) db
  else
    match rindex_0_m1 "/"%char name with
    | None => (Raise ValueError, db)
    | Some i =>
        let parent_name := substring 0 (i + 1) name in
        let parent_user_id := user_id in
        Store.directories_insert
          (mk_directory user_id name (Some parent_user_id)
             (Some parent_name)) db
    end.

Definition ensure_directory (db : database) (user_id api_path : string)
  : outcome unit :=
  ignore_unique_violation (create_directory db user_id api_path).

(** The clause is shared by the two tables that have [parent_name] and
    [user_id] columns. *)
Definition _is_in_directory {R : Type} (c_parent_name : R -> option string)
  (c_user_id : R -> string) (user_id db_dirname : string) : R -> bool :=
  fun row => option_eqb (c_parent_name row) db_dirname
             && String.eqb (c_user_id row) user_id.

(** The body of [delete_directory] from the point where [db.execute]
    has returned a result or raised. *)
Definition delete_directory_after (api_path : string)
  (executed : outcome Z) : outcome Z :=
  match executed with
  | (Raise (IntegrityError pgcode), db') =>
      if negb (String.eqb pgcode FOREIGN_KEY_VIOLATION)
      then (Raise (IntegrityError pgcode), db')
      else (Raise (DirectoryNotEmpty api_path), db')
  | (Raise e, db') => (Raise e, db')
  | (Return rowcount, db') =>
      if py_not rowcount
      then (Raise (NoSuchDirectory api_path), db')
      else (Return rowcount, db')
  end.

Definition delete_directory (db : database) (user_id api_path : string)
  : outcome Z :=
  let db_dirname := from_api_dirname api_path in
  delete_directory_after api_path
    (Store.directories_delete
       (fun d => String.eqb (dir_user_id d) user_id
                 && String.eqb (dir_name d) db_dirname) db).

Definition _dir_exists (db : database) (user_id db_dirname : string)
  : bool :=
  negb (count (fun d => String.eqb (dir_user_id d) user_id
                        && String.eqb (dir_name d) db_dirname)
          (directories db) =? 0).

Definition dir_exists (db : database) (user_id api_dirname : string)
  : bool :=
  _dir_exists db user_id (from_api_dirname api_dirname).

(** *** Files *)

Definition _file_where (user_id api_path : string) : files_row -> bool :=
  let (directory, name) := split_api_filepath api_path in
  fun f => String.eqb (file_name f) name
           && String.eqb (file_user_id f) user_id
           && String.eqb (file_parent_name f) directory.

Definition _file_creation_order : @ordering files_row :=
  desc Z.compare file_created_at.

Definition _select_file {A : Type} (user_id api_path : string)
  (fields : files_row -> A) (limit_ : option nat) (db : database)
  : list A :=
  let query :=
    order_by _file_creation_order
      (filter (_file_where user_id api_path) (files db)) in
  map fields (limit limit_ query).

Definition _file_default_fields (f : files_row) : file_dict :=
  mk_file_dict (file_name f) (file_created_at f) (file_parent_name f) None.

Definition _file_fields (include_content : bool) (f : files_row)
  : file_dict :=
  if include_content
  then mk_file_dict (file_name f) (file_created_at f) (file_parent_name f)
         (Some (file_content f))
  else _file_default_fields f.

Definition files_in_directory (db : database) (user_id db_dirname : string)
  : list file_dict :=
  let fields := _file_default_fields in
  let rows :=
    distinct_on file_key_eqb file_key
      (order_by
         (then_by (asc String.compare file_user_id)
            (then_by (asc String.compare file_parent_name)
               (then_by (asc String.compare file_name)
                  (asc Z.compare file_created_at))))
         (filter
            (_is_in_directory (fun f => Some (file_parent_name f))
               file_user_id user_id db_dirname)
            (files db))) in
  map fields rows.

Definition directories_in_directory (db : database)
  (user_id db_dirname : string) : list string :=
  map dir_name
    (filter (_is_in_directory dir_parent_name dir_user_id user_id
               db_dirname)
       (directories db)).

Definition get_directory (db : database) (user_id api_dirname : string)
  (content_ : bool) : outcome directory_dict :=
  let db_dirname := from_api_dirname api_dirname in
  if negb (_dir_exists db user_id db_dirname)
  then (Raise (NoSuchDirectory api_dirname), db)
  else
    if content_
    then (Return (mk_directory_dict db_dirname
                    (Some (files_in_directory db user_id db_dirname))
                    (Some (directories_in_directory db user_id
                             db_dirname))), db)
    else (Return (mk_directory_dict db_dirname None None), db).

Definition get_file (db : database) (user_id api_path : string)
  (include_content : bool) : outcome file_dict :=
  let query_fields := _file_fields include_content in
  let result_ :=
    first (_select_file user_id api_path query_fields (Some 1%nat) db) in
  match result_ with
  | None => (Raise (NoSuchFile (Some api_path)), db)
  | Some row => (Return row, db)
  end.

Definition delete_file (db : database) (user_id api_path : string)
  : outcome Z :=
  let* (rowcount, db') :=
    Store.files_delete (_file_where user_id api_path) db in
  if py_not rowcount
  then (Raise (NoSuchFile (Some api_path)), db')
  else (Return rowcount, db').

Definition file_exists (db : database) (user_id path : string)
  : outcome bool :=
  match get_file db user_id path false with
  | (Return _, db') => (Return true, db')
  | (Raise (NoSuchFile _), db') => (Return false, db')
  | (Raise e, db') => (Raise e, db')
  end.

Definition rename_file (db : database)
  (user_id old_api_path new_api_path : string) : outcome unit :=
  let (old_dir, old_name) := split_api_filepath old_api_path in
  let (new_dir, new_name) := split_api_filepath new_api_path in
  if negb (String.eqb old_dir new_dir)
  then (Raise ValueError, db)
  else
    let* (exists_, db1) := file_exists db user_id new_api_path in
    if exists_ : bool
    then (Raise (FileExists new_api_path), db1)
    else
      let* (_rows, db2) :=
        Store.files_update
          (fun f => String.eqb (file_user_id f) user_id
                    && String.eqb (file_parent_name f) new_dir)
          (fun f => mk_file (file_id f) new_name (file_user_id f)
                      (file_parent_name f) (file_content f)
                      (file_created_at f))
          db1 in
      (Return tt, db2).

Definition check_content (content_ : string) (max_size_bytes : Z)
  : result unit :=
  if negb (max_size_bytes =? UNLIMITED)
     && (Z.of_nat (String.length content_) >? max_size_bytes)
  then Raise FileTooLarge
  else Return tt.

Definition save_file (db : database) (user_id path content_ : string)
  (max_size_bytes : Z) : outcome unit :=
  match check_content content_ max_size_bytes with
  | Raise e => (Raise e, db)
  | Return _ =>
      let (directory, name) := split_api_filepath path in
      Store.files_insert name user_id directory content_ db
  end.

(** *** Checkpoints *)

Definition _checkpoint_default_fields (c : checkpoints_row)
  : checkpoint_dict :=
  mk_checkpoint_dict (checkpoint_id c) (checkpoint_created_at c).

Definition create_checkpoint (db : database) (user_id api_path : string)
  : outcome checkpoint_dict :=
  let latest_version :=
    _select_file user_id api_path file_id (Some 1%nat) in
  let return_fields := _checkpoint_default_fields in
  let* (results, db') :=
    Store.checkpoints_insert latest_version return_fields db in
  match results with
  | [] => (Raise (NoSuchFile (Some api_path)), db')
  | [r] => (Return r, db')
  | _ :: _ :: _ => (Raise AssertionError, db')
  end.

(** UPDATE files SET created_at = now() FROM checkpoints WHERE ...: a
    version row is touched when some checkpoint row joins with it. *)
Definition restore_checkpoint (db : database) (user_id api_path : string)
  (checkpoint_id_ : Z) : outcome unit :=
  let* (rowcount, db') :=
    Store.files_update
      (fun f =>
         existsb (fun c => (checkpoint_id c =? checkpoint_id_)
                           && option_Z_eqb (checkpoint_file_id c)
                                (file_id f))
           (checkpoints db)
         && _file_where user_id api_path f)
      (fun f => mk_file (file_id f) (file_name f) (file_user_id f)
                  (file_parent_name f) (file_content f) (now db))
      db in
  if py_not rowcount
  then (Raise (NoSuchFile None), db')
  else (Return tt, db').

(** *** Checkpoints (PostgresCheckpoints) *)

Definition delete_single_remote_checkpoint (db : database)
  (user_id api_path checkpoint_id_ : string) : outcome unit :=
  let db_path := from_api_filename api_path in
  match py_int checkpoint_id_ with
  | None => (Raise ValueError, db)
  | Some n =>
      let* (rowcount, db') :=
        Store.remote_checkpoints_delete
          (fun r => String.eqb (remote_user_id r) user_id
                    && String.eqb (remote_path r) db_path
                    && (remote_id r =? n)) db in
      if py_not rowcount
      then (Raise (NoSuchCheckpoint api_path checkpoint_id_), db')
      else (Return tt, db')
  end.

Definition delete_remote_checkpoints (db : database)
  (user_id api_path : string) : outcome unit :=
  let db_path := from_api_filename api_path in
  let* (_rows, db') :=
    Store.remote_checkpoints_delete
      (fun r => String.eqb (remote_user_id r) user_id
                && String.eqb (remote_path r) db_path) db in
  (Return tt, db').

Definition move_single_remote_checkpoint (db : database)
  (user_id src_api_path dest_api_path checkpoint_id_ : string)
  : outcome unit :=
  let src_db_path := from_api_filename src_api_path in
  let dest_db_path := from_api_filename dest_api_path in
  match py_int checkpoint_id_ with
  | None => (Raise ValueError, db)
  | Some n =>
      let* (rowcount, db') :=
        Store.remote_checkpoints_update
          (fun r => String.eqb (remote_user_id r) user_id
                    && String.eqb (remote_path r) src_db_path
                    && (remote_id r =? n))
          (fun r => mk_remote_checkpoint (remote_id r) (remote_user_id r)
                      dest_db_path (remote_content r)
                      (remote_last_modified r)) db in
      if py_not rowcount
      then (Raise (NoSuchCheckpoint src_api_path checkpoint_id_), db')
      else (Return tt, db')
  end.

Definition move_remote_checkpoints (db : database)
  (user_id src_api_path dest_api_path : string) : outcome unit :=
  let src_db_path := from_api_filename src_api_path in
  let dest_db_path := from_api_filename dest_api_path in
  let* (_rows, db') :=
    Store.remote_checkpoints_update
      (fun r => String.eqb (remote_user_id r) user_id
                && String.eqb (remote_path r) src_db_path)
      (fun r => mk_remote_checkpoint (remote_id r) (remote_user_id r)
                  dest_db_path (remote_content r)
                  (remote_last_modified r)) db in
  (Return tt, db').

Definition save_remote_checkpoint (db : database)
  (user_id api_path content_ : string) : outcome (option (Z * Z)) :=
  Store.remote_checkpoints_insert user_id (from_api_filename api_path)
    content_ (fun r => (remote_id r, remote_last_modified r)) db.

Definition purge_remote_checkpoints (db : database) (user_id : string)
  : outcome unit :=
  let* (_rows, db') :=
    Store.remote_checkpoints_delete
      (fun r => String.eqb (remote_user_id r) user_id) db in
  (Return tt, db').

Definition latest_remote_checkpoints (db : database) (user_id : string)
  : list remote_checkpoint_dict :=
  let query_fields :=
    fun r => mk_remote_checkpoint_dict (remote_id r) (remote_path r) in
  let results :=
    distinct_on String.eqb remote_path
      (order_by
         (then_by (asc String.compare remote_path)
            (desc Z.compare remote_last_modified))
         (filter (fun r => String.eqb (remote_user_id r) user_id)
            (remote_checkpoints db))) in
  map query_fields results.
End Query.

(** ** [query.py], the remaining calls *)

Section QueryMore.
Context {E : Environment}.

Definition purge_user (db : database) (user_id : string) : outcome unit :=
  let* (_files, db1) :=
    Store.files_delete (fun f => String.eqb (file_user_id f) user_id) db in
  let* (_directories, db2) :=
    Store.directories_delete
      (fun d => String.eqb (dir_user_id d) user_id) db1 in
  let* (_users, db3) :=
    Store.users_delete (fun id => String.eqb id user_id) db2 in
  (Return tt, db3).

(** [_select_file] with the checkpoint fields, selected from the join of
    the versions with their checkpoints. *)
Definition list_checkpoints (db : database) (user_id api_path : string)
  : list checkpoint_dict :=
  let query_fields := _checkpoint_default_fields in
  let query :=
    order_by (desc Z.compare (fun fc => file_created_at (fst fc)))
      (filter (fun fc => _file_where user_id api_path (fst fc))
         (Store.files_join_checkpoints db)) in
  map (fun fc => query_fields (snd fc)) (limit None query).

(** DELETE FROM checkpoints USING files WHERE ... *)
Definition delete_checkpoint (db : database) (user_id api_path : string)
  (checkpoint_id_ : Z) : outcome unit :=
  let (directory, name) := split_api_filepath api_path in
  let* (rowcount, db') :=
    Store.checkpoints_delete
      (fun c =>
         existsb (fun f => String.eqb (file_user_id f) user_id
                           && String.eqb (file_name f) name
                           && String.eqb (file_parent_name f) directory
                           && (checkpoint_id c =? checkpoint_id_)
                           && option_Z_eqb (checkpoint_file_id c)
                                (file_id f))
           (files db))
      db in
  if py_not rowcount
  then (Raise (NoSuchFile None), db')
  else (Return tt, db').

Definition _remote_checkpoint_default_fields (r : remote_checkpoints_row)
  : Z * Z :=
  (remote_id r, remote_last_modified r).

Definition list_remote_checkpoints (db : database)
  (user_id api_path : string) : list (Z * Z) :=
  let db_path := from_api_filename api_path in
  let fields := _remote_checkpoint_default_fields in
  map fields
    (order_by (asc Z.compare remote_last_modified)
       (filter (fun r => String.eqb (remote_user_id r) user_id
                         && String.eqb (remote_path r) db_path)
          (remote_checkpoints db))).

Definition get_remote_checkpoint (db : database)
  (user_id api_path checkpoint_id_ : string) : outcome string :=
  let db_path := from_api_filename api_path in
  match py_int checkpoint_id_ with
  | None => (Raise ValueError, db)
  | Some n =>
      let result_ :=
        first
          (map remote_content
             (filter (fun r => String.eqb (remote_user_id r) user_id
                               && String.eqb (remote_path r) db_path
                               && (remote_id r =? n))
                (remote_checkpoints db))) in
      match result_ with
      | None => (Raise (NoSuchCheckpoint api_path checkpoint_id_), db)
      | Some content_ => (Return content_, db)
      end
  end.
End QueryMore.

(** ** A concrete environment *)

Module Posix.

(** Modelled from the spec: the path codec ([api_utils.py]) and the
    constants are missing.  A directory name is separator-terminated and
    the root is the separator alone; a file path is split into its
    separator-terminated parent and its bare name.  Paths are taken
    without [.] or [..] segments and without doubled separators. *)

Fixpoint lstrip (s : string) : string :=
  match s with
  | String "/" s' => lstrip s'
  | _ => s
  end.

Fixpoint rstrip (s : string) : string :=
  match s with
  | EmptyString => EmptyString
  | String a s' =>
      match rstrip s' with
      | EmptyString => if Ascii.eqb a "/" then EmptyString
                       else String a EmptyString
      | t => String a t
      end
  end.

Definition strip (s : string) : string := rstrip (lstrip s).

Definition from_api_dirname (api_dirname : string) : string :=
  match strip api_dirname with
  | EmptyString => "/"
  | normalized => ("/" ++ normalized ++ "/")%string
  end.

Definition from_api_filename (api_path : string) : string :=
  ("/" ++ strip api_path)%string.

Definition split_api_filepath (path : string) : string * string :=
  match rindex_from "/" path 0 with
  | None => (from_api_dirname "/", path)
  | Some i =>
      (from_api_dirname (substring 0 i path ++ "/")%string,
       substring (i + 1) (String.length path - (i + 1)) path)
  end.

Definition digit (a : ascii) : option Z :=
  let n := Z.of_nat (nat_of_ascii a) in
  if (48 <=? n) && (n <=? 57) then Some (n - 48) else None.

Fixpoint digits (s : string) (acc : Z) : option Z :=
  match s with
  | EmptyString => Some acc
  | String a s' =>
      match digit a with
      | Some d => digits s' (10 * acc + d)
      | None => None
      end
  end.

(** [int()] on a plain run of decimal digits. *)
Definition py_int (s : string) : option Z :=
  match s with
  | EmptyString => None
  | _ => digits s 0
  end.

Definition environment (nullable : bool) : Environment :=
  Build_Environment 0 from_api_dirname from_api_filename
    split_api_filepath py_int nullable.

End Posix.

(** ** The keys of the store *)

(** The snapshots of a user at a path. *)
Definition snapshot_is (user_id db_path : string)
  (r : remote_checkpoints_row) : bool :=
  String.eqb (remote_user_id r) user_id && String.eqb (remote_path r) db_path.

(** What the primary keys, the serial sequences and the unique constraints
    maintain: ids are unique and below their sequence, a user and a
    directory are stored once. *)
Definition well_formed (db : database) : Prop :=
  NoDup (map file_id (files db))
  /\ (forall f, In f (files db) -> file_id f < files_id_seq db)
  /\ NoDup (map checkpoint_id (checkpoints db))
  /\ (forall c, In c (checkpoints db) ->
                checkpoint_id c < checkpoints_id_seq db)
  /\ (forall user_id name_,
        count (Store.directory_is user_id name_) (directories db) <= 1)
  /\ (forall user_id, count (String.eqb user_id) (users db) <= 1).

Definition remote_well_formed (db : database) : Prop :=
  NoDup (map remote_id (remote_checkpoints db))
  /\ (forall r, In r (remote_checkpoints db) ->
                remote_id r < remote_checkpoints_id_seq db).

Definition keys_ok (db : database) : Prop :=
  well_formed db /\ remote_well_formed db.

Section Calls.
Context {E : Environment}.

(** One call of [query.py] that may change the store, or the clock moving
    on; the store a call leaves is the one it leaves when it raises,
    too. *)
Inductive call : database -> database -> Prop :=
| call_at_time db t :
    call db (at_time t db)
| call_ensure_db_user db user_id :
    call db (snd (ensure_db_user db user_id))
| call_purge_user db user_id :
    call db (snd (purge_user db user_id))
| call_create_directory db user_id api_path :
    call db (snd (create_directory db user_id api_path))
| call_ensure_directory db user_id api_path :
    call db (snd (ensure_directory db user_id api_path))
| call_delete_directory db user_id api_path :
    call db (snd (delete_directory db user_id api_path))
| call_delete_file db user_id api_path :
    call db (snd (delete_file db user_id api_path))
| call_rename_file db user_id old_api_path new_api_path :
    call db (snd (rename_file db user_id old_api_path new_api_path))
| call_save_file db user_id path content_ max_size_bytes :
    call db (snd (save_file db user_id path content_ max_size_bytes))
| call_create_checkpoint db user_id api_path :
    call db (snd (create_checkpoint db user_id api_path))
| call_restore_checkpoint db user_id api_path checkpoint_id_ :
    call db (snd (restore_checkpoint db user_id api_path checkpoint_id_))
| call_delete_checkpoint db user_id api_path checkpoint_id_ :
    call db (snd (delete_checkpoint db user_id api_path checkpoint_id_))
| call_delete_single_remote_checkpoint db user_id api_path checkpoint_id_ :
    call db (snd (delete_single_remote_checkpoint db user_id api_path
                    checkpoint_id_))
| call_delete_remote_checkpoints db user_id api_path :
    call db (snd (delete_remote_checkpoints db user_id api_path))
| call_move_single_remote_checkpoint db user_id src_api_path dest_api_path
    checkpoint_id_ :
    call db (snd (move_single_remote_checkpoint db user_id src_api_path
                    dest_api_path checkpoint_id_))
| call_move_remote_checkpoints db user_id src_api_path dest_api_path :
    call db (snd (move_remote_checkpoints db user_id src_api_path
                    dest_api_path))
| call_save_remote_checkpoint db user_id api_path content_ :
    call db (snd (save_remote_checkpoint db user_id api_path content_))
| call_purge_remote_checkpoints db user_id :
    call db (snd (purge_remote_checkpoints db user_id)).

(** The stores that calls build from the empty store. *)
Inductive reachable : database -> Prop :=
| reachable_empty t : reachable (empty_database t)
| reachable_call db db' : reachable db -> call db db' -> reachable db'.
End Calls.

(** ** Scenarios the statements below talk about *)

Section Scenarios.
Context {E : Environment}.

(** Saving the contents of [saves] one after the other, each at its own
    time; [None] as soon as one save raises. *)
Fixpoint save_all (db : database) (user_id path : string)
  (max_size_bytes : Z) (saves : list (Z * string)) : option database :=
  match saves with
  | [] => Some db
  | (t, content_) :: rest =>
      match save_file (at_time t db) user_id path content_
              max_size_bytes with
      | (Return _, db') => save_all db' user_id path max_size_bytes rest
      | (Raise _, _) => None
      end
  end.

(** [f] is a version of [api_path] and no version of it is more
    recent. *)
Definition latest_version (db : database) (user_id api_path : string)
  (f : files_row) : Prop :=
  In f (files db)
  /\ _file_where user_id api_path f = true
  /\ forall f', In f' (files db) ->
                _file_where user_id api_path f' = true ->
                file_created_at f' <= file_created_at f.

(** [f] is a version of [api_path] that checkpoint [checkpoint_id_]
    references. *)
Definition checkpointed (db : database) (user_id api_path : string)
  (checkpoint_id_ : Z) (f : files_row) : Prop :=
  In f (files db)
  /\ _file_where user_id api_path f = true
  /\ exists c, In c (checkpoints db)
               /\ checkpoint_id c = checkpoint_id_
               /\ checkpoint_file_id c = Some (file_id f).

(** The domain error for a duplicate: [FileExists] is the one class of
    that kind that [query.py] imports. *)
Definition already_exists (e : exn) : Prop :=
  exists api_path, e = FileExists api_path.

(** [restore_checkpoint] sets [created_at] and nothing else. *)
Definition touch (t : Z) (f : files_row) : files_row :=
  mk_file (file_id f) (file_name f) (file_user_id f) (file_parent_name f)
    (file_content f) t.
End Scenarios.

(** ** A small store *)

Module Example.

(** The schema with [checkpoints.file_id] NOT NULL, and with it
    nullable. *)
Definition strict : Environment := Posix.environment false.
Definition lax : Environment := Posix.environment true.

Section Stores.
Context {E : Environment}.

Definition then_ {A : Type} (c : outcome A) : database := snd c.

(** User [u] with the root directory and the directory [/a/]. *)
Definition home : database :=
  let db := then_ (ensure_db_user (empty_database 0) "u") in
  let db := then_ (create_directory db "u" "") in
  then_ (create_directory db "u" "a").

(** [a/b.txt] saved at time 1 and again at time 2. *)
Definition two_versions : database :=
  let db := then_ (save_file (at_time 1 home) "u" "a/b.txt" "v1" 0) in
  then_ (save_file (at_time 2 db) "u" "a/b.txt" "v2" 0).

(** ... and [a/c.txt] saved at time 3. *)
Definition two_files : database :=
  then_ (save_file (at_time 3 two_versions) "u" "a/c.txt" "w" 0).

(** [a/b.txt] checkpointed at time 3, saved again at time 4; the time
    is now 5. *)
Definition checkpointed_then_saved : database :=
  let db := then_ (create_checkpoint (at_time 3 two_versions) "u"
                     "a/b.txt") in
  at_time 5 (then_ (save_file (at_time 4 db) "u" "a/b.txt" "v3" 0)).

(** Three snapshots of two paths. *)
Definition snapshots : database :=
  let db := then_ (save_remote_checkpoint (at_time 1 home) "u" "a/b.txt"
                     "s1") in
  let db := then_ (save_remote_checkpoint (at_time 2 db) "u" "a/c.txt"
                     "s2") in
  then_ (save_remote_checkpoint (at_time 3 db) "u" "a/b.txt" "s3").
End Stores.

End Example.

(** ** Two calls at one time *)

Module SameTime.

Section Stores.
Context {E : Environment}.

(** [a/b.txt] saved twice while the clock reads 1. *)
Definition saved_twice : database :=
  let db := Example.then_ (save_file (at_time 1 Example.home) "u" "a/b.txt"
                             "v1" 0) in
  Example.then_ (save_file (at_time 1 db) "u" "a/b.txt" "v2" 0).

(** [a/b.txt] saved and checkpointed at time 1, saved and checkpointed
    again at time 2; at time 3 the first checkpoint has been restored, and
    the clock still reads 3. *)
Definition restored_once : database :=
  let db := Example.then_ (save_file (at_time 1 Example.home) "u" "a/b.txt"
                             "v1" 0) in
  let db := Example.then_ (create_checkpoint db "u" "a/b.txt") in
  let db := Example.then_ (save_file (at_time 2 db) "u" "a/b.txt" "v2" 0) in
  let db := Example.then_ (create_checkpoint db "u" "a/b.txt") in
  Example.then_ (restore_checkpoint (at_time 3 db) "u" "a/b.txt" 1).
End Stores.

End SameTime.

(** * Facts about ORDER BY and DISTINCT ON *)

(** A column comparison that is a total preorder. *)
Class Comparator {A : Type} (o : A -> A -> comparison) : Prop := {
  compare_antisym : forall x y, o x y = CompOpp (o y x);
  compare_lt_trans : forall x y z, o x y = Lt -> o y z = Lt -> o x z = Lt;
  compare_eq_left : forall x y z, o x y = Eq -> o x z = o y z
}.

Definition before {A : Type} (o : A -> A -> comparison) (x y : A) : Prop :=
  o x y <> Gt.

Section ComparatorFacts.
Context {A : Type} (o : A -> A -> comparison) {C : Comparator o}.

Lemma compare_refl x : o x x = Eq.
Proof.
  pose proof (compare_antisym x x) as H.
  destruct (o x x); simpl in H; congruence.
Qed.

Lemma compare_eq_right x y z : o x y = Eq -> o z x = o z y.
Proof.
  intros H. rewrite (compare_antisym z x), (compare_antisym z y).
  f_equal. now apply compare_eq_left.
Qed.

Lemma before_refl x : before o x x.
Proof. unfold before. rewrite compare_refl. discriminate. Qed.

Lemma before_total x y : o x y = Gt -> before o y x.
Proof.
  unfold before. intros H. rewrite compare_antisym, H. discriminate.
Qed.

Lemma before_trans x y z : before o x y -> before o y z -> before o x z.
Proof.
  unfold before. intros Hxy Hyz.
  destruct (o x y) eqn:Exy; try congruence.
  - now rewrite (compare_eq_left _ _ z Exy).
  - destruct (o y z) eqn:Eyz; try congruence.
    + rewrite <- (compare_eq_right _ _ x Eyz), Exy. discriminate.
    + rewrite (compare_lt_trans _ _ _ Exy Eyz). discriminate.
Qed.
End ComparatorFacts.

#[export] Instance Z_Comparator : Comparator Z.compare.
Proof.
  split.
  - intros x y. apply Z.compare_antisym.
  - intros x y z. rewrite !Z.compare_lt_iff. lia.
  - intros x y z H. apply Z.compare_eq in H. now subst.
Qed.

#[export] Instance string_Comparator : Comparator String.compare.
Proof.
  split.
  - apply String.compare_antisym.
  - intros x y z Hxy Hyz.
    apply OrderedTypeEx.String_as_OT.cmp_lt.
    apply OrderedTypeEx.String_as_OT.lt_trans with y;
      now apply OrderedTypeEx.String_as_OT.cmp_lt.
  - intros x y z H. apply String.compare_eq_iff in H. now subst.
Qed.

#[export] Instance asc_Comparator {A K : Type} (cmp : K -> K -> comparison)
  (col : A -> K) {C : Comparator cmp} : Comparator (asc cmp col).
Proof.
  unfold asc. split; intros.
  - apply compare_antisym.
  - eapply compare_lt_trans; eassumption.
  - now apply compare_eq_left.
Qed.

#[export] Instance desc_Comparator {A K : Type} (cmp : K -> K -> comparison)
  (col : A -> K) {C : Comparator cmp} : Comparator (desc cmp col).
Proof.
  unfold desc. split; intros.
  - apply compare_antisym.
  - eapply compare_lt_trans; eassumption.
  - symmetry. now apply compare_eq_right.
Qed.

#[export] Instance then_by_Comparator {A : Type} (o1 o2 : @ordering A)
  {C1 : Comparator o1} {C2 : Comparator o2} : Comparator (then_by o1 o2).
Proof.
  unfold then_by. split.
  - intros x y. rewrite (compare_antisym (o:=o1) x y).
    destruct (o1 y x); simpl; auto. apply compare_antisym.
  - intros x y z.
    destruct (o1 x y) eqn:Exy; try discriminate;
      destruct (o1 y z) eqn:Eyz; try discriminate; intros Hxy Hyz.
    + rewrite (compare_eq_left _ _ z Exy), Eyz.
      eapply compare_lt_trans; eassumption.
    + now rewrite (compare_eq_left _ _ z Exy), Eyz.
    + now rewrite <- (compare_eq_right o1 _ _ x Eyz), Exy.
    + now rewrite (compare_lt_trans _ _ _ Exy Eyz).
  - intros x y z.
    destruct (o1 x y) eqn:Exy; try discriminate. intros H.
    rewrite (compare_eq_left _ _ z Exy).
    destruct (o1 y z); auto. now apply compare_eq_left.
Qed.

Section OrderByFacts.
Context {A : Type} (o : @ordering A).

Lemma insert_row_perm x l : Permutation (insert_row o x l) (x :: l).
Proof.
  induction l as [|y l IH]; simpl; auto.
  destruct (o x y); auto.
  rewrite IH. apply perm_swap.
Qed.

Lemma order_by_perm l : Permutation (order_by o l) l.
Proof.
  induction l as [|x l IH]; simpl; auto.
  rewrite insert_row_perm. now constructor.
Qed.

Lemma order_by_In x l : In x (order_by o l) <-> In x l.
Proof.
  split; apply Permutation_in;
    [apply order_by_perm | symmetry; apply order_by_perm].
Qed.

Context {C : Comparator o}.

Lemma insert_row_sorted x l :
  StronglySorted (before o) l ->
  StronglySorted (before o) (insert_row o x l).
Proof.
  induction 1 as [|y l Hl IH Hy]; simpl.
  - repeat constructor.
  - destruct (o x y) eqn:Exy.
    + constructor; [now constructor|].
      constructor; [unfold before; congruence|].
      rewrite Forall_forall in *. intros z Hz.
      apply before_trans with y; auto. unfold before; congruence.
    + constructor; [now constructor|].
      constructor; [unfold before; congruence|].
      rewrite Forall_forall in *. intros z Hz.
      apply before_trans with y; auto. unfold before; congruence.
    + constructor; auto.
      rewrite Forall_forall in *. intros z Hz.
      apply (Permutation_in _ (insert_row_perm x l)) in Hz.
      destruct Hz as [<-|Hz]; auto. now apply before_total.
Qed.

Lemma order_by_sorted l : StronglySorted (before o) (order_by o l).
Proof.
  induction l; simpl; [constructor | now apply insert_row_sorted].
Qed.

(** The first row after ORDER BY comes before every row. *)
Lemma first_order_by l r :
  first (order_by o l) = Some r ->
  In r l /\ forall r', In r' l -> before o r r'.
Proof.
  intros H. pose proof (order_by_sorted l) as S.
  unfold first in H.
  destruct (order_by o l) as [|x s] eqn:Es; simpl in H; [discriminate|].
  injection H as ->.
  assert (Hin : forall z, In z l <-> In z (r :: s))
    by (intro z; rewrite <- Es; symmetry; apply order_by_In).
  split; [apply Hin; now left|].
  intros r' Hr'. apply Hin in Hr'. inversion S as [|? ? _ Hall]; subst.
  destruct Hr' as [<-|Hr']; [apply before_refl; auto|].
  rewrite Forall_forall in Hall. auto.
Qed.

Lemma first_order_by_None l : first (order_by o l) = None <-> l = [].
Proof.
  split; [|now intros ->].
  intros H. destruct l as [|x l]; auto.
  assert (Hin : In x (order_by o (x :: l)))
    by (apply order_by_In; now left).
  unfold first in H. destruct (order_by o (x :: l)); [destruct Hin|].
  discriminate.
Qed.
End OrderByFacts.

Section DistinctOnFacts.
Context {A K : Type} (eqb : K -> K -> bool) (key : A -> K).
Hypothesis eqb_eq : forall a b, eqb a b = true <-> a = b.

Lemma distinct_on_In r l : In r (distinct_on eqb key l) -> In r l.
Proof.
  revert r. induction l as [|x l IH]; simpl; auto.
  intros r [<-|H]; auto.
  apply filter_In in H. right. apply IH, H.
Qed.

Lemma NoDup_map_filter (p : A -> bool) l :
  NoDup (map key l) -> NoDup (map key (filter p l)).
Proof.
  induction l as [|x l IH]; simpl; auto.
  intros H. inversion H as [|? ? Hx Hl]; subst.
  destruct (p x); simpl; auto.
  constructor; auto.
  intros Hin. apply Hx. apply in_map_iff in Hin.
  destruct Hin as (y & Hy & Hin). apply filter_In in Hin.
  apply in_map_iff. exists y. tauto.
Qed.

(** One row for each key ... *)
Lemma distinct_on_keys_NoDup l : NoDup (map key (distinct_on eqb key l)).
Proof.
  induction l as [|x l IH]; simpl; [constructor|].
  constructor; [|now apply NoDup_map_filter].
  intros Hin. apply in_map_iff in Hin. destruct Hin as (y & Hy & Hin).
  apply filter_In in Hin. destruct Hin as [_ Hneq].
  apply negb_true_iff in Hneq.
  assert (eqb (key x) (key y) = true) by (apply eqb_eq; auto).
  congruence.
Qed.

(** ... and no key is lost ... *)
Lemma distinct_on_complete r l :
  In r l -> exists r', In r' (distinct_on eqb key l) /\ key r' = key r.
Proof.
  induction l as [|x l IH]; simpl; [tauto|].
  intros [->|H].
  - exists r. auto.
  - destruct (eqb (key x) (key r)) eqn:Ex.
    + exists x. split; auto. now apply eqb_eq.
    + destruct (IH H) as (r' & Hr' & Hk). exists r'. split; auto.
      right. apply filter_In. split; auto.
      rewrite Hk, Ex. reflexivity.
Qed.

(** ... and the row kept comes before every row of its key. *)
Lemma distinct_on_first (R : A -> A -> Prop) l r :
  (forall x, R x x) ->
  StronglySorted R l ->
  In r (distinct_on eqb key l) ->
  forall r', In r' l -> key r' = key r -> R r r'.
Proof.
  intros Hrefl S. revert r.
  induction S as [|x l Hl IH Hx]; simpl; [tauto|].
  rewrite Forall_forall in Hx.
  intros r [<-|Hr] r' Hr' Hk.
  - destruct Hr' as [<-|Hr']; auto.
  - apply filter_In in Hr. destruct Hr as [Hr Hneq].
    destruct Hr' as [<-|Hr']; [|eauto].
    apply negb_true_iff in Hneq.
    assert (eqb (key x) (key r) = true) by (apply eqb_eq; auto).
    congruence.
Qed.
End DistinctOnFacts.

(** * Facts about the store and the queries *)

Lemma count_nonneg {A : Type} (p : A -> bool) l : 0 <= count p l.
Proof. unfold count. lia. Qed.

Lemma count_zero {A : Type} (p : A -> bool) l :
  count p l = 0 <-> forall x, In x l -> p x = false.
Proof.
  unfold count. split.
  - intros H x Hx. destruct (p x) eqn:Ep; auto.
    assert (Hin : In x (filter p l)) by (apply filter_In; auto).
    destruct (filter p l); [destruct Hin | simpl in H; lia].
  - intros H. induction l as [|y l IH]; simpl; auto.
    rewrite (H y) by now left. apply IH. intros x Hx. apply H. now right.
Qed.

Lemma count_app {A : Type} (p : A -> bool) l1 l2 :
  count p (l1 ++ l2) = count p l1 + count p l2.
Proof. unfold count. rewrite filter_app, length_app. lia. Qed.

Lemma existsb_false {A : Type} (p : A -> bool) l :
  existsb p l = false <-> forall x, In x l -> p x = false.
Proof.
  split.
  - intros H x Hx. destruct (p x) eqn:Ep; auto.
    rewrite <- H. symmetry. apply existsb_exists. eauto.
  - intros H. destruct (existsb p l) eqn:Ee; auto.
    apply existsb_exists in Ee. destruct Ee as (x & Hx & Hp).
    rewrite (H x Hx) in Hp. discriminate.
Qed.

Lemma filter_none {A : Type} (p : A -> bool) l :
  (forall x, In x l -> p x = false) -> filter (fun x => negb (p x)) l = l.
Proof.
  induction l as [|y l IH]; simpl; auto. intros H.
  rewrite (H y) by now left. simpl. f_equal. apply IH.
  intros x Hx. apply H. now right.
Qed.

Lemma map_none {A : Type} (p : A -> bool) (g : A -> A) l :
  (forall x, In x l -> p x = false) ->
  map (fun x => if p x then g x else x) l = l.
Proof.
  induction l as [|y l IH]; simpl; auto. intros H.
  rewrite (H y) by now left. f_equal. apply IH.
  intros x Hx. apply H. now right.
Qed.

(** A property of every row, checked by running its test over the table. *)
Lemma in_forallb {A : Type} (p : A -> bool) (P : A -> Prop) l :
  (forall x, p x = true -> P x) ->
  forallb p l = true -> forall x, In x l -> P x.
Proof.
  intros HP H x Hx. apply HP. rewrite forallb_forall in H. auto.
Qed.

Lemma with_files_same db : with_files db (files db) = db.
Proof. now destruct db. Qed.

Lemma with_remote_checkpoints_same db :
  with_remote_checkpoints db (remote_checkpoints db) = db.
Proof. now destruct db. Qed.

Lemma with_directories_same db : with_directories db (directories db) = db.
Proof. now destruct db. Qed.

Section FileFacts.
Context {E : Environment}.

Lemma _file_where_spec user_id api_path f :
  _file_where user_id api_path f = true <->
  file_name f = snd (split_api_filepath api_path)
  /\ file_user_id f = user_id
  /\ file_parent_name f = fst (split_api_filepath api_path).
Proof.
  unfold _file_where. destruct (split_api_filepath api_path) as [d n].
  simpl. rewrite !andb_true_iff, !String.eqb_eq. tauto.
Qed.

Lemma first_map_limit_1 {A B : Type} (g : A -> B) (l : list A) :
  first (map g (limit (Some 1%nat) l)) = option_map g (first l).
Proof. now destruct l. Qed.

Lemma get_file_unfold db user_id api_path include_content :
  get_file db user_id api_path include_content =
  match first (order_by _file_creation_order
                 (filter (_file_where user_id api_path) (files db))) with
  | Some f => (Return (_file_fields include_content f), db)
  | None => (Raise (NoSuchFile (Some api_path)), db)
  end.
Proof.
  unfold get_file, _select_file. rewrite first_map_limit_1.
  now destruct (first _).
Qed.

Lemma before_creation_order f f' :
  before _file_creation_order f f' ->
  file_created_at f' <= file_created_at f.
Proof.
  unfold before, _file_creation_order, desc. intros H.
  now apply Z.compare_le_iff.
Qed.

(** [get_file] either returns a latest version or finds no version. *)
Lemma get_file_cases db user_id api_path include_content :
  (exists f, latest_version db user_id api_path f
             /\ get_file db user_id api_path include_content
                = (Return (_file_fields include_content f), db))
  \/ ((forall f, In f (files db) -> _file_where user_id api_path f = false)
      /\ get_file db user_id api_path include_content
         = (Raise (NoSuchFile (Some api_path)), db)).
Proof.
  rewrite get_file_unfold.
  destruct (first _) as [f|] eqn:Ef.
  - left. exists f. split; auto.
    apply (first_order_by _file_creation_order) in Ef.
    destruct Ef as [Hin Hmax]. apply filter_In in Hin.
    destruct Hin as [Hin Hw]. repeat split; auto.
    intros f' Hf' Hw'. apply before_creation_order, Hmax.
    apply filter_In. auto.
  - right. split; auto.
    apply first_order_by_None in Ef.
    intros f Hf. destruct (_file_where user_id api_path f) eqn:Ew; auto.
    assert (Hin : In f (filter (_file_where user_id api_path) (files db)))
      by (apply filter_In; auto).
    rewrite Ef in Hin. destruct Hin.
Qed.

Lemma file_dict_content include_content f :
  dict_content (_file_fields include_content f)
  = if include_content then Some (file_content f) else None.
Proof. now destruct include_content. Qed.

Lemma save_file_Return db user_id path content_ max_size_bytes db' r :
  save_file db user_id path content_ max_size_bytes = (Return r, db') ->
  files db' =
  files db ++ [mk_file (files_id_seq db) (snd (split_api_filepath path))
                 user_id (fst (split_api_filepath path)) content_
                 (now db)].
Proof.
  unfold save_file, Store.files_insert.
  destruct (check_content content_ max_size_bytes); [|discriminate].
  destruct (split_api_filepath path) as [d n]. simpl.
  destruct (negb _); [discriminate|].
  intros H. injection H as _ <-. reflexivity.
Qed.

Lemma save_all_files user_id path max_size_bytes saves :
  forall db db',
    save_all db user_id path max_size_bytes saves = Some db' ->
    exists rows,
      files db' = files db ++ rows
      /\ Forall2 (fun f s => _file_where user_id path f = true
                             /\ file_created_at f = fst s
                             /\ file_content f = snd s) rows saves.
Proof.
  induction saves as [|[t c] saves IH]; simpl; intros db db' H.
  - injection H as <-. exists []. rewrite app_nil_r. auto.
  - destruct (save_file (at_time t db) user_id path c max_size_bytes)
      as [[r|e] db1] eqn:Es; [|discriminate].
    apply save_file_Return in Es. apply IH in H.
    destruct H as (rows & Hfiles & Hrows).
    eexists (_ :: rows). split.
    + rewrite Hfiles, Es. simpl. rewrite <- app_assoc. reflexivity.
    + constructor; auto. simpl. split; auto.
      apply _file_where_spec. auto.
Qed.
End FileFacts.

Lemma Forall2_In_l {A B : Type} (R : A -> B -> Prop) l l' x :
  Forall2 R l l' -> In x l -> exists y, In y l' /\ R x y.
Proof.
  induction 1 as [|a b l l' Hab _ IH]; simpl; [tauto|].
  intros [<-|Hx]; [eauto|].
  destruct (IH Hx) as (y & Hy & Hxy). eauto.
Qed.

Section GetFile.
Context {E : Environment}.

(** C5, amended.  When the key of [api_path] has a version, [get_file]
    returns a version of that key whose creation timestamp is maximal; when it has
    none, [get_file] raises [NoSuchFile].  [file_exists] returns [True]
    exactly when [get_file] does not raise [NoSuchFile].  After contents
    have been saved one after the other, the last at a time later than
    the versions before it, [get_file] returns the last content. *)
Theorem get_file_latest_wins (db : database) (user_id api_path : string)
  (include_content : bool) :
  ((exists f, In f (files db) /\ _file_where user_id api_path f = true) ->
   exists f, latest_version db user_id api_path f
             /\ get_file db user_id api_path include_content
                = (Return (_file_fields include_content f), db))
  /\ ((forall f, In f (files db) ->
                 _file_where user_id api_path f = false) ->
      get_file db user_id api_path include_content
      = (Raise (NoSuchFile (Some api_path)), db))
  /\ (exists b, file_exists db user_id api_path = (Return b, db)
                /\ (b = true <->
                    forall include_content' p,
                      fst (get_file db user_id api_path include_content')
                      <> Raise (NoSuchFile p)))
  /\ (forall max_size_bytes saves t content_ db',
        save_all db user_id api_path max_size_bytes
          (saves ++ [(t, content_)]) = Some db' ->
        (forall f, In f (files db) ->
                   _file_where user_id api_path f = true ->
                   file_created_at f < t) ->
        (forall s, In s saves -> fst s < t) ->
        exists d, get_file db' user_id api_path true = (Return d, db')
                  /\ dict_content d = Some content_).
Proof.
  repeat split.
  - intros (f0 & Hin0 & Hw0).
    destruct (get_file_cases db user_id api_path include_content)
      as [H|[Hnone _]]; auto.
    rewrite (Hnone f0 Hin0) in Hw0. discriminate.
  - intros Hnone.
    destruct (get_file_cases db user_id api_path include_content)
      as [(f & (Hin & Hw & _) & _)|[_ H]]; auto.
    rewrite (Hnone f Hin) in Hw. discriminate.
  - unfold file_exists. rewrite get_file_unfold.
    destruct (first _) as [f|] eqn:Ef.
    + exists true. split; auto. split; auto. intros _ ic p.
      rewrite get_file_unfold, Ef. discriminate.
    + exists false. split; auto. split; [discriminate|].
      intros H. exfalso. apply (H false (Some api_path)).
      now rewrite get_file_unfold, Ef.
  - intros max_size_bytes saves t content_ db' Hsave Hold Hsaves.
    apply save_all_files in Hsave. destruct Hsave as (rows & Hfiles & Hrows).
    apply Forall2_app_inv_r in Hrows.
    destruct Hrows as (rows1 & rows2 & Hrows1 & Hrows2 & ->).
    inversion Hrows2 as [|last s l l' (Hlw & Hlt & Hlc) Hnil];
      subst. inversion Hnil; subst. simpl in Hlt, Hlc.
    destruct (get_file_cases db' user_id api_path true)
      as [(f & (Hin & Hw & Hmax) & Hget)|[Hnone _]].
    + exists (_file_fields true f). split; auto.
      rewrite file_dict_content. f_equal.
      assert (Hle : file_created_at last <= file_created_at f).
      { apply Hmax; auto. rewrite Hfiles.
        apply in_or_app. right. apply in_or_app. right. now left. }
      rewrite Hfiles in Hin. apply in_app_or in Hin.
      destruct Hin as [Hin|Hin].
      * specialize (Hold f Hin Hw). lia.
      * apply in_app_or in Hin. destruct Hin as [Hin|[<-|[]]]; auto.
        destruct (Forall2_In_l _ _ _ _ Hrows1 Hin) as (s & Hs & _ & Ht & _).
        specialize (Hsaves s Hs). lia.
    + exfalso.
      assert (Hin : In last (files db')).
      { rewrite Hfiles. apply in_or_app. right. apply in_or_app. right.
        now left. }
      rewrite (Hnone last Hin) in Hlw. discriminate.
Qed.
End GetFile.

Section RemoteCheckpoints.
Context {E : Environment}.

Lemma remote_order_same_path r r' :
  remote_path r' = remote_path r ->
  before (then_by (asc String.compare remote_path)
            (desc Z.compare remote_last_modified)) r r' ->
  remote_last_modified r' <= remote_last_modified r.
Proof.
  unfold before, then_by, asc, desc. intros ->.
  rewrite (compare_refl String.compare). apply Z.compare_le_iff.
Qed.

(** C7.  [latest_remote_checkpoints] returns at most one record for each
    path, every record returned is a snapshot of the user whose
    [last_modified] is maximal among the user's snapshots of that path,
    and every path the user has a snapshot of is returned. *)
Theorem latest_remote_checkpoints_max (db : database) (user_id : string) :
  NoDup (map dict_remote_path (latest_remote_checkpoints db user_id))
  /\ (forall d, In d (latest_remote_checkpoints db user_id) ->
        exists r, In r (remote_checkpoints db)
                  /\ remote_user_id r = user_id
                  /\ remote_id r = dict_remote_id d
                  /\ remote_path r = dict_remote_path d
                  /\ forall r', In r' (remote_checkpoints db) ->
                                remote_user_id r' = user_id ->
                                remote_path r' = remote_path r ->
                                remote_last_modified r'
                                <= remote_last_modified r)
  /\ (forall r, In r (remote_checkpoints db) ->
                remote_user_id r = user_id ->
                exists d, In d (latest_remote_checkpoints db user_id)
                          /\ dict_remote_path d = remote_path r).
Proof.
  unfold latest_remote_checkpoints.
  set (o := then_by (asc String.compare remote_path)
              (desc Z.compare remote_last_modified)).
  set (mine := filter (fun r => String.eqb (remote_user_id r) user_id)
                 (remote_checkpoints db)).
  assert (Hmine : forall r, In r (order_by o mine) <->
                            In r (remote_checkpoints db)
                            /\ remote_user_id r = user_id).
  { intros r. rewrite order_by_In. unfold mine.
    rewrite filter_In, String.eqb_eq. tauto. }
  repeat split.
  - rewrite map_map. simpl.
    apply (distinct_on_keys_NoDup String.eqb remote_path String.eqb_eq).
  - intros d Hd. apply in_map_iff in Hd. destruct Hd as (r & <- & Hr).
    exists r. simpl.
    pose proof (distinct_on_In _ _ _ _ Hr) as Hin.
    apply Hmine in Hin. destruct Hin as [Hin Hu].
    repeat split; auto.
    intros r' Hr' Hu' Hp. apply remote_order_same_path; auto.
    apply (distinct_on_first String.eqb remote_path String.eqb_eq
             (before o) (order_by o mine)); auto.
    + intros x. apply before_refl. unfold o. typeclasses eauto.
    + apply order_by_sorted. unfold o. typeclasses eauto.
    + apply Hmine. auto.
  - intros r Hr Hu.
    destruct (distinct_on_complete String.eqb remote_path String.eqb_eq
                r (order_by o mine)) as (r' & Hr' & Hk).
    { apply Hmine. auto. }
    eexists. split; [apply in_map, Hr'|]. auto.
Qed.
End RemoteCheckpoints.

Section RemoteCheckpointsNotFound.
Context {E : Environment}.

Lemma remote_checkpoints_delete_none where_ db :
  (forall r, In r (remote_checkpoints db) -> where_ r = false) ->
  Store.remote_checkpoints_delete where_ db = (Return 0, db).
Proof.
  intros H. unfold Store.remote_checkpoints_delete.
  rewrite (proj2 (count_zero _ _) H), (filter_none _ _ H).
  now rewrite with_remote_checkpoints_same.
Qed.

Lemma remote_checkpoints_update_none where_ set db :
  (forall r, In r (remote_checkpoints db) -> where_ r = false) ->
  Store.remote_checkpoints_update where_ set db = (Return 0, db).
Proof.
  intros H. unfold Store.remote_checkpoints_update.
  rewrite (proj2 (count_zero _ _) H), (map_none _ _ _ H).
  now rewrite with_remote_checkpoints_same.
Qed.

(** C10.  [delete_remote_checkpoints], [move_remote_checkpoints] and
    [purge_remote_checkpoints] always return; when no row matches they
    return and leave the store as it was.  When no row matches,
    [delete_single_remote_checkpoint] and [move_single_remote_checkpoint]
    raise [NoSuchCheckpoint]. *)
Theorem bulk_remote_checkpoints_never_not_found (db : database)
  (user_id api_path dest_api_path : string) :
  (exists db', delete_remote_checkpoints db user_id api_path
               = (Return tt, db'))
  /\ (exists db', move_remote_checkpoints db user_id api_path dest_api_path
                  = (Return tt, db'))
  /\ (exists db', purge_remote_checkpoints db user_id = (Return tt, db'))
  /\ ((forall r, In r (remote_checkpoints db) ->
                 remote_user_id r = user_id ->
                 remote_path r <> from_api_filename api_path) ->
      delete_remote_checkpoints db user_id api_path = (Return tt, db)
      /\ move_remote_checkpoints db user_id api_path dest_api_path
         = (Return tt, db))
  /\ ((forall r, In r (remote_checkpoints db) ->
                 remote_user_id r <> user_id) ->
      purge_remote_checkpoints db user_id = (Return tt, db))
  /\ (forall checkpoint_id_ n,
        py_int checkpoint_id_ = Some n ->
        (forall r, In r (remote_checkpoints db) ->
                   remote_user_id r = user_id ->
                   remote_path r = from_api_filename api_path ->
                   remote_id r <> n) ->
        delete_single_remote_checkpoint db user_id api_path checkpoint_id_
        = (Raise (NoSuchCheckpoint api_path checkpoint_id_), db)
        /\ move_single_remote_checkpoint db user_id api_path dest_api_path
             checkpoint_id_
           = (Raise (NoSuchCheckpoint api_path checkpoint_id_), db)).
Proof.
  split; [eexists; reflexivity|].
  split; [eexists; reflexivity|].
  split; [eexists; reflexivity|].
  split; [|split].
  - intros H.
    assert (Hnone : forall r, In r (remote_checkpoints db) ->
              String.eqb (remote_user_id r) user_id
              && String.eqb (remote_path r) (from_api_filename api_path)
              = false).
    { intros r Hr. apply andb_false_iff.
      destruct (String.eqb_spec (remote_user_id r) user_id) as [Hu|];
        auto.
      right. apply String.eqb_neq. auto. }
    unfold delete_remote_checkpoints, move_remote_checkpoints.
    rewrite remote_checkpoints_delete_none,
      remote_checkpoints_update_none by exact Hnone.
    auto.
  - intros H. unfold purge_remote_checkpoints.
    rewrite remote_checkpoints_delete_none; auto.
    intros r Hr. apply String.eqb_neq. auto.
  - intros checkpoint_id_ n Hint H.
    assert (Hnone : forall r, In r (remote_checkpoints db) ->
              String.eqb (remote_user_id r) user_id
              && String.eqb (remote_path r) (from_api_filename api_path)
              && (remote_id r =? n) = false).
    { intros r Hr.
      destruct (String.eqb_spec (remote_user_id r) user_id) as [Hu|];
        auto.
      destruct (String.eqb_spec (remote_path r)
                  (from_api_filename api_path)) as [Hp|]; auto.
      simpl. apply Z.eqb_neq. auto. }
    unfold delete_single_remote_checkpoint, move_single_remote_checkpoint.
    rewrite Hint.
    rewrite remote_checkpoints_delete_none,
      remote_checkpoints_update_none by exact Hnone.
    auto.
Qed.
End RemoteCheckpointsNotFound.

Section SaveFile.
Context {E : Environment}.

Lemma check_content_too_large content_ max_size_bytes :
  check_content content_ max_size_bytes = Raise FileTooLarge <->
  max_size_bytes <> UNLIMITED
  /\ Z.of_nat (String.length content_) > max_size_bytes.
Proof.
  unfold check_content.
  destruct (Z.eqb_spec max_size_bytes UNLIMITED) as [Hu|Hu]; simpl.
  - split; [discriminate | tauto].
  - destruct (Z.gtb_spec (Z.of_nat (String.length content_))
                max_size_bytes) as [Hl|Hl].
    + split; auto. intros _. split; auto. lia.
    + split; [discriminate | lia].
Qed.

Lemma check_content_raises content_ max_size_bytes e :
  check_content content_ max_size_bytes = Raise e -> e = FileTooLarge.
Proof.
  unfold check_content. destruct (_ && _); congruence.
Qed.

(** C3.  [save_file] raises [FileTooLarge] if and only if [max_size_bytes]
    is not [UNLIMITED] and the content is longer than [max_size_bytes],
    and then the store is left as it was; whenever it raises, the file
    rows are the rows there were; when it returns, the file rows are the
    rows there were followed by one new row, of this user, parent
    directory, name and content. *)
Theorem save_file_appends_or_too_large (db : database)
  (user_id path content_ : string) (max_size_bytes : Z) :
  (fst (save_file db user_id path content_ max_size_bytes)
   = Raise FileTooLarge <->
   max_size_bytes <> UNLIMITED
   /\ Z.of_nat (String.length content_) > max_size_bytes)
  /\ (fst (save_file db user_id path content_ max_size_bytes)
      = Raise FileTooLarge ->
      snd (save_file db user_id path content_ max_size_bytes) = db)
  /\ (forall e db',
        save_file db user_id path content_ max_size_bytes = (Raise e, db')
        -> files db' = files db)
  /\ (forall r db',
        save_file db user_id path content_ max_size_bytes = (Return r, db')
        -> files db' =
           files db ++ [mk_file (files_id_seq db)
                          (snd (split_api_filepath path)) user_id
                          (fst (split_api_filepath path)) content_
                          (now db)])
  /\ (check_content content_ max_size_bytes = Return tt ->
      Store.has_directory db user_id (fst (split_api_filepath path)) = true
      -> exists db',
        save_file db user_id path content_ max_size_bytes
        = (Return tt, db')).
Proof.
  split; [|split; [|split; [|split]]].
  - rewrite <- check_content_too_large.
    unfold save_file, Store.files_insert.
    destruct (check_content content_ max_size_bytes) as [[]|e] eqn:Ec.
    + destruct (split_api_filepath path) as [d n].
      destruct (negb _); simpl; split; discriminate.
    + simpl. rewrite (check_content_raises _ _ _ Ec). tauto.
  - unfold save_file, Store.files_insert.
    destruct (check_content content_ max_size_bytes) as [[]|e]; auto.
    destruct (split_api_filepath path) as [d n].
    destruct (negb _); simpl; discriminate.
  - intros e db'. unfold save_file, Store.files_insert.
    destruct (check_content content_ max_size_bytes) as [[]|e0].
    + destruct (split_api_filepath path) as [d n].
      destruct (negb _); [|discriminate].
      intros H. injection H as _ <-. reflexivity.
    + intros H. injection H as _ <-. reflexivity.
  - intros r db'. apply save_file_Return.
  - intros Hc Hd. unfold save_file, Store.files_insert. rewrite Hc.
    destruct (split_api_filepath path) as [d n]. simpl in Hd.
    rewrite Hd. simpl. eexists. reflexivity.
Qed.
End SaveFile.

Section DeleteDirectory.
Context {E : Environment}.

Lemma directories_delete_none where_ db :
  (forall d, In d (directories db) -> where_ d = false) ->
  Store.directories_delete where_ db = (Return 0, db).
Proof.
  intros H. unfold Store.directories_delete.
  assert (Hf : filter where_ (directories db) = []).
  { pose proof (proj2 (count_zero where_ (directories db)) H) as Hc.
    unfold count in Hc. destruct (filter where_ (directories db)); auto.
    simpl in Hc. lia. }
  rewrite Hf. simpl.
  rewrite (proj2 (count_zero _ _) H), (filter_none _ _ H).
  now rewrite with_directories_same.
Qed.

Lemma directories_delete_raises where_ db e db' :
  Store.directories_delete where_ db = (Raise e, db') ->
  e = IntegrityError FOREIGN_KEY_VIOLATION.
Proof.
  unfold Store.directories_delete. destruct (existsb _ _); congruence.
Qed.

(** C4.  [delete_directory] raises [NoSuchDirectory] when the delete
    matched no row.  Whatever the execution of the delete left:
    a row count of zero becomes [NoSuchDirectory], an integrity error
    with the foreign-key code becomes [DirectoryNotEmpty], an integrity
    error with any other code is raised again as it is, and
    [DirectoryNotEmpty] comes up exactly when the execution raised an
    integrity error with the foreign-key code.  On the store,
    [delete_directory] raises [DirectoryNotEmpty] exactly when the
    delete is rejected for a row that still references the directory. *)
Theorem delete_directory_errors (db : database)
  (user_id api_path : string) (executed : outcome Z) :
  ((forall d, In d (directories db) ->
              dir_user_id d = user_id ->
              dir_name d <> from_api_dirname api_path) ->
   delete_directory db user_id api_path
   = (Raise (NoSuchDirectory api_path), db))
  /\ (forall db', executed = (Return 0, db') ->
        delete_directory_after api_path executed
        = (Raise (NoSuchDirectory api_path), db'))
  /\ (forall db',
        executed = (Raise (IntegrityError FOREIGN_KEY_VIOLATION), db') ->
        delete_directory_after api_path executed
        = (Raise (DirectoryNotEmpty api_path), db'))
  /\ (forall pgcode db',
        pgcode <> FOREIGN_KEY_VIOLATION ->
        executed = (Raise (IntegrityError pgcode), db') ->
        delete_directory_after api_path executed
        = (Raise (IntegrityError pgcode), db'))
  /\ ((forall p, fst executed <> Raise (DirectoryNotEmpty p)) ->
      (exists p, fst (delete_directory_after api_path executed)
                 = Raise (DirectoryNotEmpty p)) <->
      fst executed = Raise (IntegrityError FOREIGN_KEY_VIOLATION))
  /\ (fst (delete_directory db user_id api_path)
      = Raise (DirectoryNotEmpty api_path) <->
      exists d, In d (directories db)
                /\ dir_user_id d = user_id
                /\ dir_name d = from_api_dirname api_path
                /\ Store.referenced db
                     (fun d => String.eqb (dir_user_id d) user_id
                               && String.eqb (dir_name d)
                                    (from_api_dirname api_path)) d
                   = true).
Proof.
  split; [|split; [|split; [|split; [|split]]]].
  - intros H. unfold delete_directory.
    rewrite directories_delete_none; auto.
    intros d Hd. apply andb_false_iff.
    destruct (String.eqb_spec (dir_user_id d) user_id); auto.
    right. apply String.eqb_neq. auto.
  - now intros db' ->.
  - now intros db' ->.
  - intros pgcode db' Hcode ->. simpl.
    apply String.eqb_neq in Hcode. now rewrite Hcode.
  - intros Hexec. destruct executed as [[rowcount|e] db']; simpl in *.
    + destruct (py_not rowcount); simpl;
        split; [intros [p H]| |intros [p H]|]; discriminate.
    + destruct e; simpl;
        try (split; [intros [p H]; try discriminate|discriminate]).
      * exfalso. now apply (Hexec api_path0).
      * destruct (String.eqb_spec pgcode FOREIGN_KEY_VIOLATION) as [->|Hn];
          simpl.
        -- split; eauto.
        -- split; [intros [p H]; discriminate|congruence].
  - unfold delete_directory.
    set (where_ := fun d => String.eqb (dir_user_id d) user_id
                            && String.eqb (dir_name d)
                                 (from_api_dirname api_path)).
    unfold Store.directories_delete.
    destruct (existsb _ _) eqn:Ex; simpl.
    + split; auto. intros _.
      apply existsb_exists in Ex. destruct Ex as (d & Hd & Hr).
      apply filter_In in Hd. destruct Hd as [Hd Hw].
      unfold where_ in Hw. apply andb_true_iff in Hw.
      rewrite !String.eqb_eq in Hw. exists d. tauto.
    + split.
      * destruct (py_not _); discriminate.
      * intros (d & Hd & Hu & Hn & Hr). exfalso.
        rewrite existsb_false in Ex. rewrite Ex in Hr; [discriminate|].
        apply filter_In. split; auto. unfold where_.
        apply andb_true_iff. rewrite !String.eqb_eq. auto.
Qed.
End DeleteDirectory.

Section Ensure.
Context {E : Environment}.

Lemma has_directory_count db user_id name_ :
  Store.has_directory db user_id name_ = false <->
  count (Store.directory_is user_id name_) (directories db) = 0.
Proof.
  unfold Store.has_directory. now rewrite existsb_false, count_zero.
Qed.

Lemma rindex_from_head c s i : rindex_from c (String c s) i <> None.
Proof.
  simpl. destruct (rindex_from c s (S i)); [discriminate|].
  rewrite Ascii.eqb_refl. discriminate.
Qed.

(** A name longer than the separator it starts with has a parent. *)
Lemma rindex_rooted name_ :
  String.prefix "/" name_ = true -> name_ <> "/"%string ->
  exists i, rindex_0_m1 "/" name_ = Some i.
Proof.
  intros Hp Hne. destruct name_ as [|a rest]; [discriminate Hp|].
  cbn -[Ascii.ascii_dec] in Hp.
  destruct (Ascii.ascii_dec "/" a) as [<-|]; [|discriminate Hp].
  destruct rest as [|b rest]; [congruence|].
  unfold rindex_0_m1.
  assert (Hlen : (String.length (String "/" (String b rest)) - 1
                  = S (String.length rest))%nat) by (simpl; lia).
  rewrite Hlen.
  change (substring 0 (S (String.length rest))
            (String "/" (String b rest)))
    with (String "/" (substring 0 (String.length rest) (String b rest))).
  match goal with
  | |- context [rindex_from ?c (String ?c ?s) ?i] =>
      pose proof (rindex_from_head c s i) as Hr;
      destruct (rindex_from c (String c s) i) as [j|]
  end; [eauto | congruence].
Qed.

(** Every path of [create_directory] that reaches the store inserts a
    row of this user and name. *)
Lemma create_directory_cases db user_id api_path :
  create_directory db user_id api_path = (Raise ValueError, db)
  \/ exists row,
      dir_user_id row = user_id
      /\ dir_name row = from_api_dirname api_path
      /\ forall db0, create_directory db0 user_id api_path
                     = Store.directories_insert row db0.
Proof.
  unfold create_directory.
  destruct (String.eqb (from_api_dirname api_path) "/").
  - right.
    exists (mk_directory user_id (from_api_dirname api_path) None None).
    auto.
  - destruct (rindex_0_m1 "/" (from_api_dirname api_path)) as [i|]; auto.
    right.
    exists (mk_directory user_id (from_api_dirname api_path)
              (Some user_id)
              (Some (substring 0 (i + 1) (from_api_dirname api_path)))).
    auto.
Qed.

Lemma create_directory_rooted db user_id api_path :
  String.prefix "/" (from_api_dirname api_path) = true ->
  exists row,
    dir_user_id row = user_id
    /\ dir_name row = from_api_dirname api_path
    /\ create_directory db user_id api_path
       = Store.directories_insert row db.
Proof.
  intros Hp. unfold create_directory.
  destruct (String.eqb_spec (from_api_dirname api_path) "/") as [He|Hne].
  - exists (mk_directory user_id (from_api_dirname api_path) None None).
    auto.
  - destruct (rindex_rooted _ Hp Hne) as [i ->].
    exists (mk_directory user_id (from_api_dirname api_path)
              (Some user_id)
              (Some (substring 0 (i + 1) (from_api_dirname api_path)))).
    auto.
Qed.

Lemma ensure_twice row db db1 :
  count (Store.directory_is (dir_user_id row) (dir_name row))
    (directories db) <= 1 ->
  ignore_unique_violation (Store.directories_insert row db)
  = (Return tt, db1) ->
  ignore_unique_violation (Store.directories_insert row db1)
  = (Return tt, db1)
  /\ count (Store.directory_is (dir_user_id row) (dir_name row))
       (directories db1) = 1.
Proof.
  intros Hle. unfold Store.directories_insert.
  destruct (Store.has_directory db _ _) eqn:Hd.
  - simpl. intros H. injection H as <-. rewrite Hd. simpl. split; auto.
    pose proof (count_nonneg (Store.directory_is (dir_user_id row)
                                (dir_name row)) (directories db)).
    destruct (Z.eq_dec (count (Store.directory_is (dir_user_id row)
                                 (dir_name row)) (directories db)) 0)
      as [H0|H0]; [|lia].
    apply has_directory_count in H0. congruence.
  - destruct (negb (Store.parent_present db row)); simpl; [discriminate|].
    intros H. injection H as <-.
    assert (Hself : Store.directory_is (dir_user_id row) (dir_name row) row
                    = true).
    { unfold Store.directory_is. now rewrite !String.eqb_refl. }
    assert (Hd1 : Store.has_directory
                    (with_directories db (directories db ++ [row]))
                    (dir_user_id row) (dir_name row) = true).
    { unfold Store.has_directory. simpl. rewrite existsb_app. simpl.
      rewrite Hself. now rewrite orb_true_r. }
    rewrite Hd1. simpl. split; auto.
    rewrite count_app. apply has_directory_count in Hd. rewrite Hd.
    unfold count. simpl. now rewrite Hself.
Qed.

Lemma ensure_db_user_twice db user_id db1 :
  count (String.eqb user_id) (users db) <= 1 ->
  ensure_db_user db user_id = (Return tt, db1) ->
  ensure_db_user db1 user_id = (Return tt, db1)
  /\ count (String.eqb user_id) (users db1) = 1.
Proof.
  intros Hle. unfold ensure_db_user, Store.users_insert.
  destruct (existsb (String.eqb user_id) (users db)) eqn:Hd; simpl.
  - intros H. injection H as <-. rewrite Hd. simpl. split; auto.
    pose proof (count_nonneg (String.eqb user_id) (users db)).
    destruct (Z.eq_dec (count (String.eqb user_id) (users db)) 0)
      as [H0|H0]; [|lia].
    pose proof (proj2 (existsb_false _ _) (proj1 (count_zero _ _) H0)).
    congruence.
  - intros H. injection H as <-. simpl.
    rewrite existsb_app. simpl. rewrite String.eqb_refl, orb_true_r.
    simpl. split; auto.
    rewrite count_app.
    rewrite (proj2 (count_zero _ _) (proj1 (existsb_false _ _) Hd)). unfold count. simpl. now rewrite String.eqb_refl.
Qed.

(** C8, amended.  A uniqueness violation raised inside
    [ignore_unique_violation] is swallowed.  [ensure_directory] returns
    and leaves the store as it was when the row is already there, and a
    second call after a first one that returned also returns, changes
    nothing, and leaves exactly one row; the same holds of
    [ensure_db_user].  On a duplicate, [create_directory] raises the
    store's integrity error, with the uniqueness code, as it is. *)
Theorem ensure_swallows_create_propagates (db : database)
  (user_id api_path : string) (body : outcome unit) :
  (forall db', body = (Raise (IntegrityError UNIQUE_VIOLATION), db') ->
               ignore_unique_violation body = (Return tt, db'))
  /\ (String.prefix "/" (from_api_dirname api_path) = true ->
      Store.has_directory db user_id (from_api_dirname api_path) = true ->
      ensure_directory db user_id api_path = (Return tt, db)
      /\ create_directory db user_id api_path
         = (Raise (IntegrityError UNIQUE_VIOLATION), db))
  /\ (forall db1,
        count (Store.directory_is user_id (from_api_dirname api_path))
          (directories db) <= 1 ->
        ensure_directory db user_id api_path = (Return tt, db1) ->
        ensure_directory db1 user_id api_path = (Return tt, db1)
        /\ count (Store.directory_is user_id (from_api_dirname api_path))
             (directories db1) = 1)
  /\ (In user_id (users db) ->
      ensure_db_user db user_id = (Return tt, db))
  /\ (forall db1,
        count (String.eqb user_id) (users db) <= 1 ->
        ensure_db_user db user_id = (Return tt, db1) ->
        ensure_db_user db1 user_id = (Return tt, db1)
        /\ count (String.eqb user_id) (users db1) = 1).
Proof.
  split; [|split; [|split; [|split]]].
  - now intros db' ->.
  - intros Hp Hd. unfold ensure_directory.
    destruct (create_directory_rooted db user_id api_path Hp)
      as (row & Hu & Hn & ->).
    unfold Store.directories_insert. rewrite Hu, Hn, Hd. auto.
  - intros db1 Hle. unfold ensure_directory.
    destruct (create_directory_cases db user_id api_path)
      as [->|(row & Hu & Hn & Hc)]; [discriminate|].
    rewrite !Hc, <- Hu, <- Hn in *. now apply ensure_twice.
  - intros Hin. unfold ensure_db_user, Store.users_insert.
    assert (Hex : existsb (String.eqb user_id) (users db) = true).
    { apply existsb_exists. exists user_id. split; auto.
      apply String.eqb_refl. }
    now rewrite Hex.
  - intros db1. apply ensure_db_user_twice.
Qed.
End Ensure.

Lemma NoDup_map_injective {A K : Type} (key : A -> K) l x y :
  NoDup (map key l) -> In x l -> In y l -> key x = key y -> x = y.
Proof.
  induction l as [|a l IH]; simpl; [tauto|].
  intros H Hx Hy Hk. inversion H as [|? ? Ha Hl]; subst.
  destruct Hx as [->|Hx], Hy as [->|Hy]; auto.
  - exfalso. apply Ha. rewrite Hk. now apply in_map.
  - exfalso. apply Ha. rewrite <- Hk. now apply in_map.
Qed.

Lemma Forall2_map_r {A B : Type} (R : A -> B -> Prop) (g : A -> B) l :
  (forall x, In x l -> R x (g x)) -> Forall2 R l (map g l).
Proof.
  induction l as [|a l IH]; simpl; constructor; auto.
Qed.

Section RestoreCheckpoint.
Context {E : Environment}.

Lemma touch_where user_id api_path t f :
  _file_where user_id api_path (touch t f)
  = _file_where user_id api_path f.
Proof.
  unfold _file_where. now destruct (split_api_filepath api_path).
Qed.

(** The WHERE of [restore_checkpoint]. *)
Lemma restore_where_spec db user_id api_path checkpoint_id_ f :
  In f (files db) ->
  existsb (fun c => (checkpoint_id c =? checkpoint_id_)
                    && option_Z_eqb (checkpoint_file_id c) (file_id f))
    (checkpoints db)
  && _file_where user_id api_path f = true <->
  checkpointed db user_id api_path checkpoint_id_ f.
Proof.
  intros Hin. unfold checkpointed.
  rewrite andb_true_iff, existsb_exists. split.
  - intros [(c & Hc & Hm) Hw]. repeat split; auto.
    exists c. apply andb_true_iff in Hm. destruct Hm as [Hi Hf].
    apply Z.eqb_eq in Hi. unfold option_Z_eqb in Hf.
    destruct (checkpoint_file_id c) as [i|]; [|discriminate].
    apply Z.eqb_eq in Hf. subst. auto.
  - intros (_ & Hw & c & Hc & Hi & Hf). split; auto.
    exists c. split; auto. rewrite Hi, Hf. simpl.
    now rewrite !Z.eqb_refl.
Qed.

(** C6, amended.  When checkpoint [checkpoint_id_] references a version of
    [api_path], [restore_checkpoint] returns; the file rows after it are
    the rows before it, one for one, the referenced versions with
    [created_at] set to the current time and every other row as it was,
    and the checkpoint rows are as they were; and, file ids and checkpoint
    ids being unique and the current time being later than the versions
    of [api_path], [get_file] then returns the referenced version, with
    its content.  When no version of [api_path] is referenced by the
    checkpoint, [restore_checkpoint] raises [NoSuchFile] and the store is
    as it was. *)
Theorem restore_checkpoint_promotes (db : database)
  (user_id api_path : string) (checkpoint_id_ : Z) :
  (forall f,
      checkpointed db user_id api_path checkpoint_id_ f ->
      exists db',
        restore_checkpoint db user_id api_path checkpoint_id_
        = (Return tt, db')
        /\ Forall2
             (fun g g' =>
                (checkpointed db user_id api_path checkpoint_id_ g
                 /\ g' = touch (now db) g)
                \/ (~ checkpointed db user_id api_path checkpoint_id_ g
                    /\ g' = g))
             (files db) (files db')
        /\ checkpoints db' = checkpoints db
        /\ (NoDup (map file_id (files db)) ->
            NoDup (map checkpoint_id (checkpoints db)) ->
            (forall g, In g (files db) ->
                       _file_where user_id api_path g = true ->
                       file_created_at g < now db) ->
            get_file db' user_id api_path true
            = (Return (mk_file_dict (file_name f) (now db)
                         (file_parent_name f) (Some (file_content f))),
               db')))
  /\ ((forall f, ~ checkpointed db user_id api_path checkpoint_id_ f) ->
      restore_checkpoint db user_id api_path checkpoint_id_
      = (Raise (NoSuchFile None), db)).
Proof.
  unfold restore_checkpoint, Store.files_update.
  set (where_ := fun f =>
         existsb (fun c => (checkpoint_id c =? checkpoint_id_)
                           && option_Z_eqb (checkpoint_file_id c)
                                (file_id f))
           (checkpoints db)
         && _file_where user_id api_path f).
  set (set_ := fun f => mk_file (file_id f) (file_name f) (file_user_id f)
                          (file_parent_name f) (file_content f) (now db)).
  assert (Hspec : forall f, In f (files db) ->
                    where_ f = true <->
                    checkpointed db user_id api_path checkpoint_id_ f)
    by (intros f Hf; now apply restore_where_spec).
  cbn [bind]. split.
  - intros f Hf.
    assert (Hin : In f (files db)) by apply Hf.
    assert (Hwf : where_ f = true) by (now apply Hspec).
    assert (Hcount : py_not (count where_ (files db)) = false).
    { unfold py_not. apply Z.eqb_neq. intros H0.
      rewrite (proj1 (count_zero _ _) H0 f Hin) in Hwf. discriminate. }
    rewrite Hcount. eexists. split; [reflexivity|].
    cbn [files checkpoints with_files].
    split; [|split; [reflexivity|]].
    + apply Forall2_map_r. intros g Hg. cbv beta.
      match goal with
      | |- context [if ?b then _ else _] => change b with (where_ g)
      end.
      destruct (where_ g) eqn:Eg.
      * left. split; [now apply Hspec | reflexivity].
      * right. split; auto. intros Hc. apply Hspec in Hc; auto.
        congruence.
    + intros Hfiles Hcheckpoints Hnow.
      match goal with
      | |- get_file ?d _ _ _ = _ => set (db' := d)
      end.
      assert (Hfiles' : files db'
                        = map (fun g => if where_ g then set_ g else g)
                            (files db)) by reflexivity.
      assert (Hin' : In (set_ f) (files db')).
      { rewrite Hfiles'. apply in_map_iff. exists f. now rewrite Hwf. }
      assert (Hw' : _file_where user_id api_path (set_ f) = true).
      { change (set_ f) with (touch (now db) f). rewrite touch_where.
        apply Hf. }
      destruct (get_file_cases db' user_id api_path true)
        as [(f' & (Hf' & Hkey & Hmax) & ->)|[Hnone _]].
      2: { rewrite (Hnone _ Hin') in Hw'. discriminate. }
      specialize (Hmax _ Hin' Hw'). simpl in Hmax.
      rewrite Hfiles' in Hf'. apply in_map_iff in Hf'.
      destruct Hf' as (g & Hg' & Hg).
      destruct (where_ g) eqn:Eg.
      * assert (g = f).
        { apply (NoDup_map_injective file_id (files db)); auto.
          apply Hspec in Eg; auto.
          destruct Eg as (_ & _ & c & Hc & Hci & Hcf).
          destruct Hf as (_ & _ & c0 & Hc0 & Hci0 & Hcf0).
          assert (c = c0).
          { apply (NoDup_map_injective checkpoint_id (checkpoints db));
              auto. congruence. }
          congruence. }
        subst g f'. reflexivity.
      * subst f'. exfalso.
        specialize (Hnow g Hg Hkey). lia.
  - intros Hnone.
    assert (Hall : forall f, In f (files db) -> where_ f = false).
    { intros f Hf. destruct (where_ f) eqn:Ef; auto.
      apply Hspec in Ef; auto. now apply Hnone in Ef. }
    rewrite (proj2 (count_zero _ _) Hall), (map_none _ _ _ Hall).
    simpl. now rewrite with_files_same.
Qed.
End RestoreCheckpoint.

Section CreateCheckpoint.
Context {E : Environment}.

(** Whatever the store holds, [create_checkpoint] does not raise
    [NoSuchFile]: the INSERT either returns its one row or is rejected
    by the store. *)
Lemma create_checkpoint_never_NoSuchFile db user_id api_path p :
  fst (create_checkpoint db user_id api_path) <> Raise (NoSuchFile p).
Proof.
  unfold create_checkpoint, Store.checkpoints_insert.
  cbn [checkpoint_file_id].
  destruct (first (_select_file user_id api_path file_id (Some 1%nat) db))
    as [i|].
  - destruct (existsb _ _); simpl; discriminate.
  - destruct checkpoints_file_id_nullable; simpl; discriminate.
Qed.

(** With a version to reference, [create_checkpoint] appends one
    checkpoint row that references a latest version, and returns its id
    and creation time. *)
Lemma create_checkpoint_latest db user_id api_path :
  (exists f, In f (files db) /\ _file_where user_id api_path f = true) ->
  exists f,
    latest_version db user_id api_path f
    /\ fst (create_checkpoint db user_id api_path)
       = Return (mk_checkpoint_dict (checkpoints_id_seq db) (now db))
    /\ checkpoints (snd (create_checkpoint db user_id api_path))
       = checkpoints db
         ++ [mk_checkpoint (checkpoints_id_seq db) (Some (file_id f))
               (now db)]
    /\ files (snd (create_checkpoint db user_id api_path)) = files db.
Proof.
  intros (f0 & Hin0 & Hw0).
  unfold create_checkpoint, Store.checkpoints_insert, _select_file.
  rewrite first_map_limit_1. cbn [checkpoint_file_id].
  destruct (first _) as [f|] eqn:Ef.
  - pose proof Ef as Hf.
    apply (first_order_by _file_creation_order) in Hf.
    destruct Hf as [Hin Hmax]. apply filter_In in Hin.
    destruct Hin as [Hin Hw].
    exists f. split.
    { repeat split; auto. intros f' Hf' Hw'.
      apply before_creation_order, Hmax, filter_In. auto. }
    simpl.
    assert (Hex : existsb (fun g => file_id g =? file_id f) (files db)
                  = true).
    { apply existsb_exists. exists f. split; auto. apply Z.eqb_refl. }
    rewrite Hex. simpl. auto.
  - exfalso. apply first_order_by_None in Ef.
    assert (Hin : In f0 (filter (_file_where user_id api_path) (files db)))
      by (apply filter_In; auto).
    rewrite Ef in Hin. destruct Hin.
Qed.
End CreateCheckpoint.

Section RenameFile.
Context {E : Environment}.

(** What a [rename_file] that returns has done: every file row of the
    user in the parent directory carries the new name. *)
Lemma rename_file_Return db user_id old_api_path new_api_path db' :
  rename_file db user_id old_api_path new_api_path = (Return tt, db') ->
  files db' =
  map (fun f =>
         if String.eqb (file_user_id f) user_id
            && String.eqb (file_parent_name f)
                 (fst (split_api_filepath new_api_path))
         then mk_file (file_id f) (snd (split_api_filepath new_api_path))
                (file_user_id f) (file_parent_name f) (file_content f)
                (file_created_at f)
         else f)
    (files db).
Proof.
  unfold rename_file, file_exists.
  destruct (split_api_filepath old_api_path) as [old_dir old_name].
  destruct (split_api_filepath new_api_path) as [new_dir new_name].
  destruct (negb _); [discriminate|].
  rewrite get_file_unfold.
  destruct (first _); simpl; [discriminate|].
  intros H. injection H as <-. reflexivity.
Qed.
End RenameFile.

Section FilesInDirectory.

Lemma file_key_eqb_eq k1 k2 : file_key_eqb k1 k2 = true <-> k1 = k2.
Proof.
  destruct k1 as [[u1 p1] n1], k2 as [[u2 p2] n2]. simpl.
  rewrite !andb_true_iff, !String.eqb_eq.
  split; [intros [[-> ->] ->]; auto | intros H; injection H; auto].
Qed.

Lemma files_order_same_key f f' :
  file_key f' = file_key f ->
  before (then_by (asc String.compare file_user_id)
            (then_by (asc String.compare file_parent_name)
               (then_by (asc String.compare file_name)
                  (asc Z.compare file_created_at)))) f f' ->
  file_created_at f <= file_created_at f'.
Proof.
  unfold before, then_by, asc, file_key. intros H.
  injection H as -> -> ->.
  rewrite !(compare_refl String.compare). apply Z.compare_le_iff.
Qed.

(** [files_in_directory] returns one row for each file name in the
    directory, and the row it returns for a name is a version with the
    least creation timestamp. *)
Lemma files_in_directory_oldest db user_id db_dirname :
  NoDup (map dict_file_name (files_in_directory db user_id db_dirname))
  /\ (forall d, In d (files_in_directory db user_id db_dirname) ->
        exists f, In f (files db)
                  /\ file_user_id f = user_id
                  /\ file_parent_name f = db_dirname
                  /\ d = _file_default_fields f
                  /\ forall f', In f' (files db) ->
                                file_key f' = file_key f ->
                                file_created_at f <= file_created_at f')
  /\ (forall f, In f (files db) ->
                file_user_id f = user_id ->
                file_parent_name f = db_dirname ->
                exists d, In d (files_in_directory db user_id db_dirname)
                          /\ dict_file_name d = file_name f).
Proof.
  unfold files_in_directory.
  set (o := then_by (asc String.compare file_user_id)
              (then_by (asc String.compare file_parent_name)
                 (then_by (asc String.compare file_name)
                    (asc Z.compare file_created_at)))).
  set (inside := filter (_is_in_directory
                           (fun f => Some (file_parent_name f))
                           file_user_id user_id db_dirname) (files db)).
  assert (Hinside : forall f, In f (order_by o inside) <->
                              In f (files db)
                              /\ file_user_id f = user_id
                              /\ file_parent_name f = db_dirname).
  { intros f. rewrite order_by_In. unfold inside, _is_in_directory.
    rewrite filter_In, andb_true_iff. simpl.
    rewrite !String.eqb_eq. tauto. }
  set (rows := distinct_on file_key_eqb file_key (order_by o inside)).
  assert (Hrows : forall f, In f rows ->
                    In f (files db)
                    /\ file_user_id f = user_id
                    /\ file_parent_name f = db_dirname).
  { intros f Hf. apply Hinside. eapply distinct_on_In, Hf. }
  repeat split.
  - rewrite map_map. simpl.
    apply (NoDup_map_inv (fun n => (user_id, db_dirname, n))).
    rewrite map_map.
    rewrite (map_ext_in _ file_key).
    + apply distinct_on_keys_NoDup, file_key_eqb_eq.
    + intros f Hf. destruct (Hrows f Hf) as (_ & <- & <-). reflexivity.
  - intros d Hd. apply in_map_iff in Hd. destruct Hd as (f & <- & Hf).
    exists f. destruct (Hrows f Hf) as (Hin & Hu & Hp).
    repeat split; auto.
    intros f' Hf' Hk. apply files_order_same_key; auto.
    apply (distinct_on_first file_key_eqb file_key file_key_eqb_eq
             (before o) (order_by o inside)); auto.
    + intros x. apply before_refl. unfold o. typeclasses eauto.
    + apply order_by_sorted. unfold o. typeclasses eauto.
    + apply Hinside. unfold file_key in Hk. injection Hk as -> -> _.
      auto.
  - intros f Hf Hu Hp.
    destruct (distinct_on_complete file_key_eqb file_key file_key_eqb_eq
                f (order_by o inside)) as (f' & Hf' & Hk).
    { apply Hinside. auto. }
    exists (_file_default_fields f'). split; [now apply in_map|].
    simpl. unfold file_key in Hk. now injection Hk.
Qed.
End FilesInDirectory.

(** * The keys of the store are maintained *)

Lemma NoDup_map_same_key {A K : Type} (key : A -> K) (g : A -> A) l :
  (forall x, key (g x) = key x) ->
  NoDup (map key l) -> NoDup (map key (map g l)).
Proof.
  intros Hg H. rewrite map_map. now rewrite (map_ext _ key Hg).
Qed.

Lemma NoDup_map_snoc {A : Type} (key : A -> Z) l x bound :
  NoDup (map key l) ->
  (forall y, In y l -> key y < bound) ->
  key x = bound ->
  NoDup (map key (l ++ [x])).
Proof.
  intros Hl Hb Hx. rewrite map_app. simpl.
  apply NoDup_app; auto.
  - repeat constructor. simpl. tauto.
  - intros k Hk [<-|[]]. apply in_map_iff in Hk.
    destruct Hk as (y & Hy & Hin). specialize (Hb y Hin). lia.
Qed.

Lemma count_filter_le {A : Type} (p q : A -> bool) l :
  count p (filter q l) <= count p l.
Proof.
  unfold count. induction l as [|x l IH]; simpl; [lia|].
  destruct (q x) eqn:Eq, (p x) eqn:Ep; simpl; rewrite ?Ep; simpl; lia.
Qed.

Section Invariant.
Context {E : Environment}.

Lemma well_formed_empty t : well_formed (empty_database t).
Proof.
  unfold well_formed, count. simpl.
  repeat split; try constructor; try tauto; intros; lia.
Qed.

Lemma well_formed_at_time t db : well_formed db -> well_formed (at_time t db).
Proof. now destruct db. Qed.

Lemma users_insert_well_formed id db :
  well_formed db -> well_formed (snd (Store.users_insert id db)).
Proof.
  unfold Store.users_insert.
  destruct (existsb (String.eqb id) (users db)) eqn:Hex; auto.
  intros (H1 & H2 & H3 & H4 & H5 & H6).
  unfold well_formed. simpl. repeat split; auto.
  intros user_id. rewrite count_app. unfold count at 2. simpl.
  destruct (String.eqb_spec user_id id) as [->|Hne]; simpl.
  - rewrite (proj2 (count_zero _ _) (proj1 (existsb_false _ _) Hex)). lia.
  - specialize (H6 user_id). lia.
Qed.

Lemma directories_insert_well_formed row db :
  well_formed db -> well_formed (snd (Store.directories_insert row db)).
Proof.
  unfold Store.directories_insert.
  destruct (Store.has_directory db (dir_user_id row) (dir_name row))
    eqn:Hd; auto.
  destruct (negb (Store.parent_present db row)); auto.
  intros (H1 & H2 & H3 & H4 & H5 & H6).
  unfold well_formed. simpl. repeat split; auto.
  intros user_id name_. rewrite count_app. unfold count at 2. simpl.
  unfold Store.directory_is at 2.
  destruct (String.eqb_spec (dir_user_id row) user_id) as [<-|Hu]; simpl.
  - destruct (String.eqb_spec (dir_name row) name_) as [<-|Hn]; simpl.
    + unfold Store.has_directory in Hd.
      rewrite (proj2 (count_zero _ _) (proj1 (existsb_false _ _) Hd)). lia.
    + specialize (H5 (dir_user_id row) name_). lia.
  - specialize (H5 user_id name_). lia.
Qed.

Lemma directories_delete_well_formed where_ db :
  well_formed db -> well_formed (snd (Store.directories_delete where_ db)).
Proof.
  unfold Store.directories_delete. destruct (existsb _ _); auto.
  intros (H1 & H2 & H3 & H4 & H5 & H6).
  unfold well_formed. simpl. repeat split; auto.
  intros user_id name_.
  pose proof (count_filter_le (Store.directory_is user_id name_)
                (fun d => negb (where_ d)) (directories db)).
  specialize (H5 user_id name_). lia.
Qed.

Lemma files_insert_well_formed name_ user_id parent_name_ content_ db :
  well_formed db ->
  well_formed (snd (Store.files_insert name_ user_id parent_name_ content_
                      db)).
Proof.
  unfold Store.files_insert.
  intros (H1 & H2 & H3 & H4 & H5 & H6).
  destruct (negb _); unfold well_formed; simpl; repeat split; auto.
  - intros f Hf. specialize (H2 f Hf). lia.
  - now apply NoDup_map_snoc with (bound := files_id_seq db).
  - intros f Hf. apply in_app_or in Hf. destruct Hf as [Hf|[<-|[]]].
    + specialize (H2 f Hf). lia.
    + simpl. lia.
Qed.

Lemma files_update_well_formed where_ set db :
  (forall f, file_id (set f) = file_id f) ->
  well_formed db -> well_formed (snd (Store.files_update where_ set db)).
Proof.
  intros Hset (H1 & H2 & H3 & H4 & H5 & H6).
  assert (Hid : forall f, file_id (if where_ f then set f else f)
                          = file_id f)
    by (intros f; destruct (where_ f); auto).
  unfold well_formed. simpl. repeat split; auto.
  - now apply NoDup_map_same_key.
  - intros f Hf. apply in_map_iff in Hf. destruct Hf as (g & <- & Hg).
    rewrite Hid. auto.
Qed.

Lemma files_delete_well_formed where_ db :
  well_formed db -> well_formed (snd (Store.files_delete where_ db)).
Proof.
  intros (H1 & H2 & H3 & H4 & H5 & H6).
  unfold well_formed. simpl. repeat split; auto.
  - now apply NoDup_map_filter.
  - intros f Hf. apply filter_In in Hf. apply H2, Hf.
  - now apply NoDup_map_filter.
  - intros c Hc. apply filter_In in Hc. apply H4, Hc.
Qed.

Lemma checkpoints_insert_well_formed {A : Type} subquery
  (returning : checkpoints_row -> A) db :
  well_formed db ->
  well_formed (snd (Store.checkpoints_insert subquery returning db)).
Proof.
  intros (H1 & H2 & H3 & H4 & H5 & H6).
  assert (Hkeep : well_formed (next_checkpoints_id db)).
  { unfold well_formed. simpl. repeat split; auto.
    intros c Hc. specialize (H4 c Hc). lia. }
  assert (Hadd : forall o,
            well_formed
              (next_checkpoints_id
                 (with_checkpoints db
                    (checkpoints db
                     ++ [mk_checkpoint (checkpoints_id_seq db) o
                           (now db)])))).
  { intros o. unfold well_formed. simpl. repeat split; auto.
    - now apply NoDup_map_snoc with (bound := checkpoints_id_seq db).
    - intros c Hc. apply in_app_or in Hc. destruct Hc as [Hc|[<-|[]]].
      + specialize (H4 c Hc). lia.
      + simpl. lia. }
  unfold Store.checkpoints_insert. cbn [checkpoint_file_id].
  destruct (first (subquery db)) as [i|].
  - destruct (existsb _ _); simpl; auto.
  - destruct checkpoints_file_id_nullable; simpl; auto.
Qed.

Lemma ignore_unique_violation_snd body :
  snd (ignore_unique_violation body) = snd body.
Proof.
  destruct body as [[[]|e] db']; auto.
  destruct e; auto. simpl. now destruct (String.eqb _ _).
Qed.

Lemma create_directory_well_formed db user_id api_path :
  well_formed db -> well_formed (snd (create_directory db user_id api_path)).
Proof.
  intros H. unfold create_directory.
  destruct (String.eqb _ _);
    [now apply directories_insert_well_formed|].
  destruct (rindex_0_m1 _ _); auto.
  now apply directories_insert_well_formed.
Qed.

(** Every call of [query.py] that changes the files, the checkpoints, the
    directories or the users leaves the keys of the store as they should
    be. *)
Lemma calls_keep_well_formed db user_id api_path :
  well_formed db ->
  well_formed (snd (ensure_db_user db user_id))
  /\ well_formed (snd (create_directory db user_id api_path))
  /\ well_formed (snd (ensure_directory db user_id api_path))
  /\ well_formed (snd (delete_directory db user_id api_path))
  /\ well_formed (snd (delete_file db user_id api_path))
  /\ (forall new_api_path,
        well_formed (snd (rename_file db user_id api_path new_api_path)))
  /\ (forall content_ max_size_bytes,
        well_formed (snd (save_file db user_id api_path content_
                            max_size_bytes)))
  /\ well_formed (snd (create_checkpoint db user_id api_path))
  /\ (forall checkpoint_id_,
        well_formed (snd (restore_checkpoint db user_id api_path
                            checkpoint_id_))).
Proof.
  intros H.
  refine (conj _ (conj _ (conj _ (conj _ (conj _ (conj _ (conj _
            (conj _ _)))))))).
  - unfold ensure_db_user. rewrite ignore_unique_violation_snd.
    now apply users_insert_well_formed.
  - now apply create_directory_well_formed.
  - unfold ensure_directory. rewrite ignore_unique_violation_snd.
    now apply create_directory_well_formed.
  - unfold delete_directory.
    match goal with
    | |- context [Store.directories_delete ?w db] =>
        pose proof (directories_delete_well_formed w db H) as Hd;
        destruct (Store.directories_delete w db) as [[n|e] db']
    end; simpl in *.
    + now destruct (py_not n).
    + destruct e; auto. now destruct (negb _).
  - unfold delete_file.
    pose proof (files_delete_well_formed (_file_where user_id api_path)
                  db H) as Hd.
    unfold Store.files_delete in *. cbn [bind].
    now destruct (py_not _).
  - intros new_api_path. unfold rename_file, file_exists.
    destruct (split_api_filepath api_path) as [old_dir old_name].
    destruct (split_api_filepath new_api_path) as [new_dir new_name].
    destruct (negb _); auto.
    rewrite get_file_unfold. destruct (first _); simpl; auto.
    match goal with
    | |- well_formed (with_files db (map ?g (files db))) =>
        match g with
        | (fun f => if ?w then ?s else f) =>
            exact (files_update_well_formed (fun f => w) (fun f => s) db
                     (fun f => eq_refl) H)
        end
    end.
  - intros content_ max_size_bytes. unfold save_file.
    destruct (check_content _ _); auto.
    destruct (split_api_filepath api_path) as [d n].
    now apply files_insert_well_formed.
  - unfold create_checkpoint.
    match goal with
    | |- context [Store.checkpoints_insert ?q ?r db] =>
        pose proof (checkpoints_insert_well_formed q r db H) as Hc;
        destruct (Store.checkpoints_insert q r db) as [[l|e] db']
    end; simpl in *; auto.
    destruct l as [|x [|y l]]; auto.
  - intros checkpoint_id_. unfold restore_checkpoint.
    match goal with
    | |- context [Store.files_update ?w ?s db] =>
        pose proof (files_update_well_formed w s db (fun f => eq_refl) H)
          as Hu;
        unfold Store.files_update in *
    end.
    cbn [bind]. now destruct (py_not _).
Qed.
End Invariant.

(** * Files: deleting, renaming, saving *)

Lemma filter_nil {A : Type} (p : A -> bool) l :
  (forall x, In x l -> p x = false) -> filter p l = [].
Proof.
  induction l as [|y l IH]; simpl; auto. intros H.
  rewrite (H y) by now left. apply IH. intros x Hx. apply H. now right.
Qed.

Lemma filter_all {A : Type} (p : A -> bool) l :
  (forall x, In x l -> p x = true) -> filter p l = l.
Proof.
  induction l as [|y l IH]; simpl; auto. intros H.
  rewrite (H y) by now left. f_equal. apply IH. intros x Hx. apply H.
  now right.
Qed.

Lemma count_pos {A : Type} (p : A -> bool) l x :
  In x l -> p x = true -> 0 < count p l.
Proof.
  intros Hx Hp. pose proof (count_nonneg p l).
  destruct (Z.eq_dec (count p l) 0) as [H0|]; [|lia].
  rewrite (proj1 (count_zero p l) H0 x Hx) in Hp. discriminate.
Qed.

Lemma py_not_pos n : 0 < n -> py_not n = false.
Proof. intros H. unfold py_not. apply Z.eqb_neq. lia. Qed.

Lemma with_checkpoints_same db :
  with_checkpoints db (checkpoints db) = db.
Proof. now destruct db. Qed.

Section MoreFiles.
Context {E : Environment}.

Lemma files_delete_none where_ db :
  (forall f, In f (files db) -> where_ f = false) ->
  Store.files_delete where_ db = (Return 0, db).
Proof.
  intros H. unfold Store.files_delete.
  rewrite (proj2 (count_zero _ _) H), (filter_none _ _ H), (filter_nil _ _ H).
  simpl. rewrite filter_all by reflexivity.
  rewrite with_files_same. now rewrite with_checkpoints_same.
Qed.

Lemma file_exists_false db user_id api_path :
  (forall f, In f (files db) -> _file_where user_id api_path f = false) ->
  file_exists db user_id api_path = (Return false, db).
Proof.
  intros H. unfold file_exists.
  destruct (get_file_cases db user_id api_path false)
    as [(f & (Hin & Hw & _) & _)|[_ ->]]; auto.
  rewrite (H f Hin) in Hw. discriminate.
Qed.

Lemma file_exists_true db user_id api_path f :
  In f (files db) -> _file_where user_id api_path f = true ->
  file_exists db user_id api_path = (Return true, db).
Proof.
  intros Hin Hw. unfold file_exists.
  destruct (get_file_cases db user_id api_path false)
    as [(f' & _ & ->)|[Hnone _]]; auto.
  rewrite (Hnone f Hin) in Hw. discriminate.
Qed.

(** X1.  [delete_file] raises [NoSuchFile] and leaves the store as it was
    when the path has no version.  When it has one, [delete_file] returns
    the number of versions, which is positive; afterwards the file rows
    are the rows of the other keys, in their order, [file_exists] is
    [False] and the directories are as they were. *)
Theorem delete_file_removes_every_version (db : database)
  (user_id api_path : string) :
  ((forall f, In f (files db) -> _file_where user_id api_path f = false) ->
   delete_file db user_id api_path
   = (Raise (NoSuchFile (Some api_path)), db))
  /\ (forall f0,
        In f0 (files db) -> _file_where user_id api_path f0 = true ->
        exists db',
          delete_file db user_id api_path
          = (Return (count (_file_where user_id api_path) (files db)), db')
          /\ 0 < count (_file_where user_id api_path) (files db)
          /\ files db'
             = filter (fun f => negb (_file_where user_id api_path f))
                 (files db)
          /\ (forall f, In f (files db') ->
                        _file_where user_id api_path f = false)
          /\ file_exists db' user_id api_path = (Return false, db')
          /\ directories db' = directories db).
Proof.
  split.
  - intros H. unfold delete_file. now rewrite files_delete_none.
  - intros f0 Hin Hw. unfold delete_file, Store.files_delete. cbn [bind].
    pose proof (count_pos _ _ _ Hin Hw) as Hpos.
    rewrite (py_not_pos _ Hpos).
    eexists. split; [reflexivity|]. split; [exact Hpos|].
    split; [reflexivity|].
    assert (Hgone : forall f,
              In f (filter (fun f => negb (_file_where user_id api_path f))
                      (files db)) ->
              _file_where user_id api_path f = false).
    { intros f Hf. apply filter_In in Hf. now apply negb_true_iff. }
    split; [exact Hgone|]. split; [|reflexivity].
    now apply file_exists_false.
Qed.

(** X2.  [rename_file] raises [ValueError] when the two paths are in
    different directories, and [FileExists] when they are in the same
    directory and the new path has a version (so also when the two paths
    are the same path of a file there is); in both cases the store is as
    it was.  It never raises [NoSuchFile]: when the new path has no
    version it returns, whether the old path has a version or not. *)
Theorem rename_file_rejections (db : database)
  (user_id old_api_path new_api_path : string) :
  (fst (split_api_filepath old_api_path)
   <> fst (split_api_filepath new_api_path) ->
   rename_file db user_id old_api_path new_api_path = (Raise ValueError, db))
  /\ (fst (split_api_filepath old_api_path)
      = fst (split_api_filepath new_api_path) ->
      (exists f, In f (files db)
                 /\ _file_where user_id new_api_path f = true) ->
      rename_file db user_id old_api_path new_api_path
      = (Raise (FileExists new_api_path), db))
  /\ (fst (split_api_filepath old_api_path)
      = fst (split_api_filepath new_api_path) ->
      (forall f, In f (files db) ->
                 _file_where user_id new_api_path f = false) ->
      exists db', rename_file db user_id old_api_path new_api_path
                  = (Return tt, db'))
  /\ (forall p, fst (rename_file db user_id old_api_path new_api_path)
                <> Raise (NoSuchFile p)).
Proof.
  unfold rename_file.
  destruct (split_api_filepath old_api_path) as [old_dir old_name].
  destruct (split_api_filepath new_api_path) as [new_dir new_name] eqn:En.
  simpl.
  split; [|split; [|split]].
  - intros Hne. apply String.eqb_neq in Hne. now rewrite Hne.
  - intros -> (f & Hin & Hw). rewrite String.eqb_refl. simpl.
    now rewrite (file_exists_true _ _ _ f Hin Hw).
  - intros -> Hnone. rewrite String.eqb_refl. simpl.
    rewrite (file_exists_false _ _ _ Hnone). simpl. eexists. reflexivity.
  - intros p. destruct (negb _); [discriminate|].
    unfold file_exists. rewrite get_file_unfold.
    destruct (first _); simpl; discriminate.
Qed.

(** X3.  After a [save_file] that returned, [file_exists] is [True] for
    the path and [files_in_directory] of its parent directory lists its
    name. *)
Theorem save_file_then_listed (db db' : database)
  (user_id path content_ : string) (max_size_bytes : Z) :
  save_file db user_id path content_ max_size_bytes = (Return tt, db') ->
  file_exists db' user_id path = (Return true, db')
  /\ exists d,
      In d (files_in_directory db' user_id (fst (split_api_filepath path)))
      /\ dict_file_name d = snd (split_api_filepath path)
      /\ dict_parent_name d = fst (split_api_filepath path).
Proof.
  intros Hsave. apply save_file_Return in Hsave.
  set (row := mk_file (files_id_seq db) (snd (split_api_filepath path))
                user_id (fst (split_api_filepath path)) content_ (now db))
    in Hsave.
  assert (Hin : In row (files db'))
    by (rewrite Hsave; apply in_or_app; right; now left).
  split.
  - apply (file_exists_true _ _ _ row Hin).
    apply _file_where_spec. auto.
  - destruct (files_in_directory_oldest db' user_id
                (fst (split_api_filepath path))) as (_ & Hsound & Hcomplete).
    destruct (Hcomplete row Hin eq_refl eq_refl) as (d & Hd & Hname).
    exists d. repeat split; auto.
    destruct (Hsound d Hd) as (f & _ & _ & Hp & -> & _). exact Hp.
Qed.
End MoreFiles.

(** * Directories: creating, listing, deleting *)





Section MoreDirectories.
Context {E : Environment}.

Lemma _dir_exists_has_directory db user_id db_dirname :
  _dir_exists db user_id db_dirname
  = Store.has_directory db user_id db_dirname.
Proof.
  unfold _dir_exists.
  change (fun d => String.eqb (dir_user_id d) user_id
                   && String.eqb (dir_name d) db_dirname)
    with (Store.directory_is user_id db_dirname).
  destruct (Store.has_directory db user_id db_dirname) eqn:Hd.
  - apply negb_true_iff, Z.eqb_neq. intros H0.
    apply has_directory_count in H0. congruence.
  - apply has_directory_count in Hd. now rewrite Hd.
Qed.

Lemma has_directory_exists db user_id name_ :
  Store.has_directory db user_id name_ = true <->
  exists d, In d (directories db)
            /\ dir_user_id d = user_id /\ dir_name d = name_.
Proof.
  unfold Store.has_directory, Store.directory_is.
  rewrite existsb_exists. split; intros (d & Hd & H); exists d;
    rewrite andb_true_iff, !String.eqb_eq in *; tauto.
Qed.

(** What a [create_directory] that returned has inserted. *)
Lemma create_directory_Return db user_id api_path db' :
  create_directory db user_id api_path = (Return tt, db') ->
  Store.has_directory db user_id (from_api_dirname api_path) = false
  /\ exists row,
      db' = with_directories db (directories db ++ [row])
      /\ dir_user_id row = user_id
      /\ dir_name row = from_api_dirname api_path
      /\ ((from_api_dirname api_path = "/"%string
           /\ dir_parent_name row = None)
          \/ (from_api_dirname api_path <> "/"%string
              /\ exists i,
                  rindex_0_m1 "/" (from_api_dirname api_path) = Some i
                  /\ dir_parent_name row
                     = Some (substring 0 (i + 1)
                               (from_api_dirname api_path))
                  /\ Store.has_directory db user_id
                       (substring 0 (i + 1) (from_api_dirname api_path))
                     = true)).
Proof.
  unfold create_directory, Store.directories_insert, Store.parent_present.
  cbn [dir_user_id dir_name dir_parent_user_id dir_parent_name].
  destruct (String.eqb_spec (from_api_dirname api_path) "/") as [He|Hne].
  - destruct (Store.has_directory db user_id (from_api_dirname api_path));
      [discriminate|].
    cbn [negb]. intros H. injection H as <-. split; auto.
    eexists. split; [reflexivity|]. simpl. auto.
  - destruct (rindex_0_m1 "/" (from_api_dirname api_path)) as [i|];
      [|discriminate].
    cbn [dir_user_id dir_name dir_parent_user_id dir_parent_name].
    destruct (Store.has_directory db user_id (from_api_dirname api_path));
      [discriminate|].
    destruct (Store.has_directory db user_id
                (substring 0 (i + 1) (from_api_dirname api_path)))
      eqn:Hp; cbn [negb]; [|discriminate].
    intros H. injection H as <-. split; auto.
    eexists. split; [reflexivity|]. simpl. repeat split; auto.
    right. split; auto. exists i. auto.
Qed.

(** X4.  When [create_directory] returns, the directory was not there
    before and is there afterwards: [dir_exists] was [False] and is
    [True], [get_directory] without content returns its bare name, the
    directory rows are the rows there were followed by one row of this
    user and name, and the file rows are as they were. *)
Theorem create_directory_then_exists (db db' : database)
  (user_id api_path : string) :
  create_directory db user_id api_path = (Return tt, db') ->
  dir_exists db user_id api_path = false
  /\ dir_exists db' user_id api_path = true
  /\ get_directory db' user_id api_path false
     = (Return (mk_directory_dict (from_api_dirname api_path) None None),
        db')
  /\ files db' = files db
  /\ exists row,
      directories db' = directories db ++ [row]
      /\ dir_user_id row = user_id
      /\ dir_name row = from_api_dirname api_path.
Proof.
  intros H. apply create_directory_Return in H.
  destruct H as (Hnew & row & -> & Hu & Hn & _).
  assert (Hd : Store.has_directory
                 (with_directories db (directories db ++ [row]))
                 user_id (from_api_dirname api_path) = true).
  { apply has_directory_exists. exists row. simpl. split; auto.
    apply in_or_app. right. now left. }
  unfold dir_exists, get_directory.
  rewrite !_dir_exists_has_directory, Hnew, Hd. simpl.
  repeat split; auto. exists row. auto.
Qed.


(** X6.  [delete_directory] of a directory that is there and that no file
    and no directory names as parent returns the number of rows deleted,
    which is positive; afterwards [dir_exists] is [False], the directory
    rows are the other rows, in their order, and the file rows are as
    they were. *)
Theorem delete_directory_of_an_unreferenced_directory (db : database)
  (user_id api_path : string) (d0 : directories_row) :
  In d0 (directories db) ->
  dir_user_id d0 = user_id ->
  dir_name d0 = from_api_dirname api_path ->
  (forall f, In f (files db) -> file_user_id f = user_id ->
             file_parent_name f <> from_api_dirname api_path) ->
  (forall c, In c (directories db) ->
             dir_parent_user_id c = Some user_id ->
             dir_parent_name c <> Some (from_api_dirname api_path)) ->
  exists n db',
    delete_directory db user_id api_path = (Return n, db')
    /\ 0 < n
    /\ dir_exists db' user_id api_path = false
    /\ directories db'
       = filter (fun d => negb (Store.directory_is user_id
                                  (from_api_dirname api_path) d))
           (directories db)
    /\ files db' = files db.
Proof.
  intros Hin Hu Hn Hfiles Hdirs.
  unfold delete_directory, Store.directories_delete.
  change (fun d => String.eqb (dir_user_id d) user_id
                   && String.eqb (dir_name d) (from_api_dirname api_path))
    with (Store.directory_is user_id (from_api_dirname api_path)).
  set (where_ := Store.directory_is user_id (from_api_dirname api_path)).
  assert (Hw0 : where_ d0 = true).
  { unfold where_, Store.directory_is. rewrite Hu, Hn.
    now rewrite !String.eqb_refl. }
  assert (Hfree : existsb (Store.referenced db where_)
                    (filter where_ (directories db)) = false).
  { apply existsb_false. intros d Hd. apply filter_In in Hd.
    destruct Hd as [Hd Hw]. unfold where_, Store.directory_is in Hw.
    apply andb_true_iff in Hw. rewrite !String.eqb_eq in Hw.
    destruct Hw as [Hdu Hdn]. unfold Store.referenced.
    apply orb_false_iff. split; apply existsb_false.
    - intros f Hf. apply andb_false_iff.
      destruct (String.eqb_spec (file_user_id f) (dir_user_id d)) as [Hfu|];
        auto.
      right. apply String.eqb_neq. rewrite Hdn. apply Hfiles; auto.
      congruence.
    - intros c Hc. apply andb_false_iff.
      destruct (dir_parent_user_id c) as [pu|] eqn:Epu;
        [|left; apply andb_false_iff; right; reflexivity].
      destruct (String.eqb_spec pu (dir_user_id d)) as [Hpu|Hpu].
      + right. destruct (dir_parent_name c) as [pn|] eqn:Epn; auto.
        simpl. apply String.eqb_neq. intros ->.
        apply (Hdirs c Hc); congruence.
      + left. apply andb_false_iff. right. simpl.
        now apply String.eqb_neq. }
  rewrite Hfree. simpl.
  pose proof (count_pos where_ _ _ Hin Hw0) as Hpos.
  rewrite (py_not_pos _ Hpos).
  eexists. eexists. split; [reflexivity|]. split; [exact Hpos|].
  split; [|split; reflexivity].
  unfold dir_exists. rewrite _dir_exists_has_directory.
  unfold Store.has_directory. simpl. apply existsb_false.
  intros d Hd. apply filter_In in Hd. destruct Hd as [_ Hd].
  now apply negb_true_iff.
Qed.

(** X7.  [get_directory] raises [NoSuchDirectory] exactly when the user has
    no directory row of that name, and never changes the store.  With
    content it lists depth one only: every file it lists has the
    directory as its parent, no file name is listed twice, and the
    subdirectories listed are the names of the user's rows whose parent
    name is the directory. *)
Theorem get_directory_lists_depth_one (db : database)
  (user_id api_dirname : string) (content_ : bool) :
  snd (get_directory db user_id api_dirname content_) = db
  /\ (fst (get_directory db user_id api_dirname content_)
      = Raise (NoSuchDirectory api_dirname) <->
      forall d, In d (directories db) -> dir_user_id d = user_id ->
                dir_name d <> from_api_dirname api_dirname)
  /\ (forall d,
        fst (get_directory db user_id api_dirname true) = Return d ->
        dict_name d = from_api_dirname api_dirname
        /\ exists fs ss,
            dict_files d = Some fs
            /\ dict_subdirs d = Some ss
            /\ (forall x, In x fs ->
                          dict_parent_name x = from_api_dirname api_dirname)
            /\ NoDup (map dict_file_name fs)
            /\ (forall n,
                  In n ss <->
                  exists row, In row (directories db)
                              /\ dir_user_id row = user_id
                              /\ dir_name row = n
                              /\ dir_parent_name row
                                 = Some (from_api_dirname api_dirname))).
Proof.
  unfold get_directory. rewrite _dir_exists_has_directory.
  destruct (Store.has_directory db user_id (from_api_dirname api_dirname))
    eqn:Hd; simpl.
  - split; [now destruct content_|]. split.
    + apply has_directory_exists in Hd. destruct Hd as (d & Hin & Hu & Hn).
      split; [destruct content_; discriminate|].
      intros H. exfalso. now apply (H d Hin Hu).
    + intros d H. injection H as <-. simpl. split; auto.
      eexists. eexists. split; [reflexivity|]. split; [reflexivity|].
      destruct (files_in_directory_oldest db user_id
                  (from_api_dirname api_dirname)) as (Hnodup & Hsound & _).
      split; [|split; [exact Hnodup|]].
      * intros x Hx. destruct (Hsound x Hx) as (f & _ & _ & Hp & -> & _).
        exact Hp.
      * intros n. unfold directories_in_directory, _is_in_directory.
        rewrite in_map_iff. split.
        -- intros (row & Hn & Hrow). apply filter_In in Hrow.
           destruct Hrow as [Hrow Hw]. apply andb_true_iff in Hw.
           destruct Hw as [Hp Hu]. apply String.eqb_eq in Hu.
           exists row. repeat split; auto.
           destruct (dir_parent_name row) as [pn|]; [|discriminate].
           simpl in Hp. apply String.eqb_eq in Hp. now subst.
        -- intros (row & Hrow & Hu & Hn & Hp). exists row. split; auto.
           apply filter_In. split; auto. rewrite Hp, Hu. simpl.
           now rewrite !String.eqb_refl.
  - split; auto. split; [|discriminate].
    split; auto. intros _ d Hin Hu Hn.
    assert (Store.has_directory db user_id (from_api_dirname api_dirname)
            = true); [|congruence].
    apply has_directory_exists. eauto.
Qed.
End MoreDirectories.

(** * Checkpoints: creating, listing, deleting *)

Lemma StronglySorted_weaken {A : Type} (R R' : A -> A -> Prop) l :
  (forall a b, R a b -> R' a b) ->
  StronglySorted R l -> StronglySorted R' l.
Proof.
  intros HR. induction 1 as [|a l Hl IH Ha]; constructor; auto.
  rewrite Forall_forall in *. auto.
Qed.

Section MoreCheckpoints.
Context {E : Environment}.

Lemma files_join_checkpoints_In db f c :
  In (f, c) (Store.files_join_checkpoints db) <->
  In f (files db) /\ In c (checkpoints db)
  /\ checkpoint_file_id c = Some (file_id f).
Proof.
  unfold Store.files_join_checkpoints. rewrite in_flat_map. split.
  - intros (f' & Hf' & Hin). apply in_map_iff in Hin.
    destruct Hin as (c' & Heq & Hc'). injection Heq as -> ->.
    apply filter_In in Hc'. destruct Hc' as [Hc Hm].
    repeat split; auto. unfold option_Z_eqb in Hm.
    destruct (checkpoint_file_id c) as [i|]; [|discriminate].
    apply Z.eqb_eq in Hm. now subst.
  - intros (Hf & Hc & Hm). exists f. split; auto.
    apply in_map. apply filter_In. split; auto.
    rewrite Hm. simpl. apply Z.eqb_refl.
Qed.

(** X8.  [list_checkpoints] returns the checkpoints that reference a
    version of the path, and only those; it is empty when the path has no
    version.  What it returns are the checkpoint fields of the rows of the
    join of the versions of the path with their checkpoints, each row of
    the join once, in an order in which the version of an earlier row was
    created no earlier than the version of a later row. *)
Theorem list_checkpoints_of_the_path (db : database)
  (user_id api_path : string) :
  (forall d,
      In d (list_checkpoints db user_id api_path) <->
      exists f c,
        In f (files db) /\ _file_where user_id api_path f = true
        /\ In c (checkpoints db)
        /\ checkpoint_file_id c = Some (file_id f)
        /\ d = _checkpoint_default_fields c)
  /\ (exists rows,
        list_checkpoints db user_id api_path
        = map (fun fc => _checkpoint_default_fields (snd fc)) rows
        /\ Permutation rows
             (filter (fun fc => _file_where user_id api_path (fst fc))
                (Store.files_join_checkpoints db))
        /\ (forall f c,
              In (f, c) rows <->
              In f (files db) /\ _file_where user_id api_path f = true
              /\ In c (checkpoints db)
              /\ checkpoint_file_id c = Some (file_id f))
        /\ StronglySorted
             (fun a b => file_created_at (fst b) <= file_created_at (fst a))
             rows)
  /\ ((forall f, In f (files db) ->
                 _file_where user_id api_path f = false) ->
      list_checkpoints db user_id api_path = []).
Proof.
  unfold list_checkpoints. cbn [limit].
  set (o := desc Z.compare
              (fun fc : files_row * checkpoints_row =>
                 file_created_at (fst fc))).
  set (joined := filter (fun fc => _file_where user_id api_path (fst fc))
                   (Store.files_join_checkpoints db)).
  assert (Hjoined : forall f c,
            In (f, c) joined <->
            In f (files db) /\ _file_where user_id api_path f = true
            /\ In c (checkpoints db)
            /\ checkpoint_file_id c = Some (file_id f)).
  { intros f c. unfold joined.
    rewrite filter_In, files_join_checkpoints_In. simpl. tauto. }
  split; [|split].
  - intros d. rewrite in_map_iff. split.
    + intros ([f c] & <- & Hin). apply order_by_In, Hjoined in Hin.
      exists f, c. simpl. tauto.
    + intros (f & c & Hf & Hw & Hc & Hm & ->). exists (f, c).
      split; auto. apply order_by_In, Hjoined. tauto.
  - exists (order_by o joined). split; auto.
    split; [apply order_by_perm|].
    split; [intros f c; rewrite order_by_In; apply Hjoined|].
    apply (StronglySorted_weaken (before o)).
    + intros a b. unfold before, o, desc. apply Z.compare_le_iff.
    + apply order_by_sorted. unfold o. typeclasses eauto.
  - intros Hnone. replace joined with (@nil (files_row * checkpoints_row));
      auto.
    symmetry. unfold joined. apply filter_nil. intros [f c] Hin.
    apply files_join_checkpoints_In in Hin. simpl. apply Hnone, Hin.
Qed.

(** X9.  When the path has a version, [create_checkpoint] returns the id
    drawn from the sequence and the current time, appends one checkpoint
    row that references a version of the path with maximal creation
    timestamp, leaves the file rows as they were, and
    [list_checkpoints] of the path then lists what it returned. *)
Theorem create_checkpoint_then_listed (db : database)
  (user_id api_path : string) :
  (exists f, In f (files db) /\ _file_where user_id api_path f = true) ->
  exists db' f,
    create_checkpoint db user_id api_path
    = (Return (mk_checkpoint_dict (checkpoints_id_seq db) (now db)), db')
    /\ latest_version db user_id api_path f
    /\ checkpoints db'
       = checkpoints db
         ++ [mk_checkpoint (checkpoints_id_seq db) (Some (file_id f))
               (now db)]
    /\ files db' = files db
    /\ In (mk_checkpoint_dict (checkpoints_id_seq db) (now db))
         (list_checkpoints db' user_id api_path).
Proof.
  intros Hex.
  destruct (create_checkpoint_latest db user_id api_path Hex)
    as (f & Hlatest & Hfst & Hcheckpoints & Hfiles).
  exists (snd (create_checkpoint db user_id api_path)), f.
  split; [rewrite <- Hfst; apply surjective_pairing|].
  repeat split; auto; try apply Hlatest.
  unfold list_checkpoints. cbn [limit]. apply in_map_iff.
  exists (f, mk_checkpoint (checkpoints_id_seq db) (Some (file_id f))
               (now db)).
  split; auto. apply order_by_In, filter_In. split; [|apply Hlatest].
  apply files_join_checkpoints_In. rewrite Hfiles, Hcheckpoints.
  split; [apply Hlatest|]. split; auto.
  apply in_or_app. right. now left.
Qed.

(** X10.  [create_checkpoint] never raises [NoSuchFile].  For a path
    without a version it raises the store's integrity error for the
    missing [file_id] and inserts nothing, or, where the schema lets
    [file_id] be NULL, returns and appends a checkpoint row that
    references no version. *)
Theorem create_checkpoint_of_a_path_without_version (db : database)
  (user_id api_path : string) :
  (forall p, fst (create_checkpoint db user_id api_path)
             <> Raise (NoSuchFile p))
  /\ ((forall f, In f (files db) ->
                 _file_where user_id api_path f = false) ->
      if checkpoints_file_id_nullable
      then fst (create_checkpoint db user_id api_path)
           = Return (mk_checkpoint_dict (checkpoints_id_seq db) (now db))
           /\ checkpoints (snd (create_checkpoint db user_id api_path))
              = checkpoints db
                ++ [mk_checkpoint (checkpoints_id_seq db) None (now db)]
      else fst (create_checkpoint db user_id api_path)
           = Raise (IntegrityError NOT_NULL_VIOLATION)
           /\ checkpoints (snd (create_checkpoint db user_id api_path))
              = checkpoints db
           /\ files (snd (create_checkpoint db user_id api_path))
              = files db).
Proof.
  split; [intros p; apply create_checkpoint_never_NoSuchFile|].
  intros Hnone.
  unfold create_checkpoint, Store.checkpoints_insert, _select_file.
  rewrite first_map_limit_1. cbn [checkpoint_file_id].
  rewrite (filter_nil _ _ Hnone). simpl.
  destruct checkpoints_file_id_nullable; simpl; auto.
Qed.

Lemma delete_checkpoint_where_spec db user_id api_path checkpoint_id_ c :
  existsb (fun f => String.eqb (file_user_id f) user_id
                    && String.eqb (file_name f)
                         (snd (split_api_filepath api_path))
                    && String.eqb (file_parent_name f)
                         (fst (split_api_filepath api_path))
                    && (checkpoint_id c =? checkpoint_id_)
                    && option_Z_eqb (checkpoint_file_id c) (file_id f))
    (files db) = true <->
  checkpoint_id c = checkpoint_id_
  /\ exists f, In f (files db)
               /\ _file_where user_id api_path f = true
               /\ checkpoint_file_id c = Some (file_id f).
Proof.
  rewrite existsb_exists. split.
  - intros (f & Hf & H). rewrite !andb_true_iff, !String.eqb_eq in H.
    destruct H as [[[[Hu Hn] Hp] Hi] Hm]. apply Z.eqb_eq in Hi.
    split; auto. exists f. split; auto. split.
    + apply _file_where_spec. auto.
    + unfold option_Z_eqb in Hm.
      destruct (checkpoint_file_id c) as [i|]; [|discriminate].
      apply Z.eqb_eq in Hm. now subst.
  - intros (Hi & f & Hf & Hw & Hm). exists f. split; auto.
    apply _file_where_spec in Hw. destruct Hw as (Hn & Hu & Hp).
    rewrite Hu, Hn, Hp, Hi, Hm, !String.eqb_refl. simpl.
    now rewrite !Z.eqb_refl.
Qed.

Lemma checkpoints_delete_none where_ db :
  (forall c, In c (checkpoints db) -> where_ c = false) ->
  Store.checkpoints_delete where_ db = (Return 0, db).
Proof.
  intros H. unfold Store.checkpoints_delete.
  rewrite (proj2 (count_zero _ _) H), (filter_none _ _ H).
  now rewrite with_checkpoints_same.
Qed.

Lemma restore_checkpoint_none db user_id api_path checkpoint_id_ :
  (forall f, ~ checkpointed db user_id api_path checkpoint_id_ f) ->
  restore_checkpoint db user_id api_path checkpoint_id_
  = (Raise (NoSuchFile None), db).
Proof.
  intros Hnone. unfold restore_checkpoint, Store.files_update. cbn [bind].
  match goal with
  | |- context [count ?w (files db)] =>
      assert (Hall : forall f, In f (files db) -> w f = false)
  end.
  { intros f Hf.
    match goal with |- ?b = false => destruct b eqn:Ef end; auto.
    apply restore_where_spec in Ef; auto. now apply Hnone in Ef. }
  rewrite (proj2 (count_zero _ _) Hall), (map_none _ _ _ Hall).
  simpl. now rewrite with_files_same.
Qed.

(** X11.  [delete_checkpoint] raises [NoSuchFile] and leaves the store as
    it was when the checkpoint references no version of the path.
    Otherwise it returns, the file rows are as they were, the checkpoint
    rows left are the rows there were except those with this id that
    reference a version of the path, and a [restore_checkpoint] of the
    same checkpoint then raises [NoSuchFile]. *)
Theorem delete_checkpoint_removes_the_checkpoint (db : database)
  (user_id api_path : string) (checkpoint_id_ : Z) :
  ((forall f, ~ checkpointed db user_id api_path checkpoint_id_ f) ->
   delete_checkpoint db user_id api_path checkpoint_id_
   = (Raise (NoSuchFile None), db))
  /\ (forall f,
        checkpointed db user_id api_path checkpoint_id_ f ->
        exists db',
          delete_checkpoint db user_id api_path checkpoint_id_
          = (Return tt, db')
          /\ files db' = files db
          /\ (forall c,
                In c (checkpoints db') <->
                In c (checkpoints db)
                /\ ~ (checkpoint_id c = checkpoint_id_
                      /\ exists g, In g (files db)
                                   /\ _file_where user_id api_path g = true
                                   /\ checkpoint_file_id c
                                      = Some (file_id g)))
          /\ restore_checkpoint db' user_id api_path checkpoint_id_
             = (Raise (NoSuchFile None), db')).
Proof.
  unfold delete_checkpoint.
  pose proof (delete_checkpoint_where_spec db user_id api_path
                checkpoint_id_) as Hspec.
  destruct (split_api_filepath api_path) as [directory name_] eqn:Es.
  simpl in Hspec.
  match goal with
  | |- context [Store.checkpoints_delete ?w db] => set (where_ := w) in *
  end.
  split.
  - intros Hnone.
    rewrite checkpoints_delete_none; auto.
    intros c Hc. destruct (where_ c) eqn:Ec; auto.
    apply Hspec in Ec. destruct Ec as (Hi & f & Hf & Hw & Hm).
    exfalso. apply (Hnone f). repeat split; auto. exists c. auto.
  - intros f (Hf & Hw & c & Hc & Hi & Hm).
    assert (Hwc : where_ c = true).
    { apply Hspec. split; auto. exists f. auto. }
    unfold Store.checkpoints_delete. cbn [bind].
    rewrite (py_not_pos _ (count_pos _ _ _ Hc Hwc)).
    eexists. split; [reflexivity|]. split; [reflexivity|]. split.
    + intros c'. cbn [checkpoints with_checkpoints].
      rewrite filter_In, negb_true_iff, <- Hspec.
      split; intros [H1 H2]; split; auto.
      * change (where_ c' <> true). congruence.
      * change (where_ c' <> true) in H2. now destruct (where_ c').
    + apply restore_checkpoint_none.
      intros g (Hg & Hgw & c' & Hc' & Hi' & Hm').
      cbn [checkpoints with_checkpoints files] in Hc', Hg.
      apply filter_In in Hc'. destruct Hc' as [Hc' Hneg].
      apply negb_true_iff in Hneg.
      assert (where_ c' = true); [|congruence].
      apply Hspec. split; auto. exists g. auto.
Qed.
End MoreCheckpoints.

(** * Snapshots: saving, listing, getting, deleting *)

Lemma StronglySorted_map {A B : Type} (R : B -> B -> Prop) (g : A -> B) l :
  StronglySorted (fun a b => R (g a) (g b)) l ->
  StronglySorted R (map g l).
Proof.
  induction 1 as [|a l Hl IH Ha]; simpl; constructor; auto.
  rewrite Forall_forall in *. intros y Hy. apply in_map_iff in Hy.
  destruct Hy as (x & <- & Hx). auto.
Qed.

Lemma first_map_constant {A B : Type} (g : A -> B) l x0 b :
  In x0 l -> (forall x, In x l -> g x = b) -> first (map g l) = Some b.
Proof.
  destruct l as [|x l]; simpl; [tauto|].
  intros _ H. unfold first. simpl. f_equal. apply H. now left.
Qed.

Lemma filter_filter_implied {A : Type} (p q : A -> bool) l :
  (forall x, p x = true -> q x = true) ->
  filter p (filter q l) = filter p l.
Proof.
  intros H. induction l as [|x l IH]; simpl; auto.
  destruct (q x) eqn:Eq; simpl; rewrite IH; auto.
  destruct (p x) eqn:Ep; auto. rewrite (H x Ep) in Eq. discriminate.
Qed.

Section MoreRemoteCheckpoints.
Context {E : Environment}.

Lemma snapshot_is_spec user_id db_path r :
  snapshot_is user_id db_path r = true <->
  remote_user_id r = user_id /\ remote_path r = db_path.
Proof.
  unfold snapshot_is. now rewrite andb_true_iff, !String.eqb_eq.
Qed.

Lemma snapshot_with_id_spec user_id db_path n r :
  String.eqb (remote_user_id r) user_id && String.eqb (remote_path r) db_path
  && (remote_id r =? n) = true <->
  remote_user_id r = user_id /\ remote_path r = db_path /\ remote_id r = n.
Proof.
  rewrite !andb_true_iff, !String.eqb_eq, Z.eqb_eq. tauto.
Qed.

Lemma get_remote_checkpoint_none db user_id api_path checkpoint_id_ n :
  py_int checkpoint_id_ = Some n ->
  (forall r, In r (remote_checkpoints db) ->
             remote_user_id r = user_id ->
             remote_path r = from_api_filename api_path ->
             remote_id r <> n) ->
  get_remote_checkpoint db user_id api_path checkpoint_id_
  = (Raise (NoSuchCheckpoint api_path checkpoint_id_), db).
Proof.
  intros Hint Hnone. unfold get_remote_checkpoint. rewrite Hint.
  rewrite filter_nil; auto.
  intros r Hr.
  match goal with |- ?b = false => destruct b eqn:Eb end; auto.
  apply snapshot_with_id_spec in Eb. destruct Eb as (Hu & Hp & Hn).
  now apply (Hnone r) in Hn.
Qed.

(** X12.  [list_remote_checkpoints] returns one record for each snapshot
    of the user at the path, with its id and [last_modified], and none
    else, in ascending order of [last_modified]. *)
Theorem list_remote_checkpoints_ascending (db : database)
  (user_id api_path : string) :
  (forall n t,
      In (n, t) (list_remote_checkpoints db user_id api_path) <->
      exists r, In r (remote_checkpoints db)
                /\ remote_user_id r = user_id
                /\ remote_path r = from_api_filename api_path
                /\ remote_id r = n /\ remote_last_modified r = t)
  /\ StronglySorted Z.le
       (map snd (list_remote_checkpoints db user_id api_path))
  /\ Z.of_nat (List.length (list_remote_checkpoints db user_id api_path))
     = count (fun r => String.eqb (remote_user_id r) user_id
                       && String.eqb (remote_path r)
                            (from_api_filename api_path))
         (remote_checkpoints db).
Proof.
  unfold list_remote_checkpoints.
  set (o := asc Z.compare remote_last_modified).
  set (mine := filter _ (remote_checkpoints db)).
  split; [|split].
  - intros n t. rewrite in_map_iff. split.
    + intros (r & Heq & Hr). injection Heq as <- <-.
      apply order_by_In in Hr. unfold mine in Hr. apply filter_In in Hr.
      destruct Hr as [Hr Hw]. apply snapshot_is_spec in Hw.
      exists r. tauto.
    + intros (r & Hr & Hu & Hp & <- & <-). exists r. split; auto.
      apply order_by_In. unfold mine. apply filter_In. split; auto.
      apply snapshot_is_spec. auto.
  - rewrite map_map. apply StronglySorted_map.
    apply (StronglySorted_weaken (before o)).
    + intros a b. unfold before, o, asc. simpl. apply Z.compare_le_iff.
    + apply order_by_sorted. unfold o. typeclasses eauto.
  - rewrite length_map.
    rewrite (Permutation_length (order_by_perm o mine)). reflexivity.
Qed.

(** X13.  [save_remote_checkpoint] returns the id drawn from the sequence
    and the current time and appends one snapshot row.  The ids in the
    table being below the sequence, [get_remote_checkpoint] with that id
    then returns the saved content, and [list_remote_checkpoints] lists
    the record returned. *)
Theorem save_remote_checkpoint_then_get (db : database)
  (user_id api_path content_ : string) :
  (forall r, In r (remote_checkpoints db) ->
             remote_id r < remote_checkpoints_id_seq db) ->
  exists db',
    save_remote_checkpoint db user_id api_path content_
    = (Return (Some (remote_checkpoints_id_seq db, now db)), db')
    /\ remote_checkpoints db'
       = remote_checkpoints db
         ++ [mk_remote_checkpoint (remote_checkpoints_id_seq db) user_id
               (from_api_filename api_path) content_ (now db)]
    /\ (forall checkpoint_id_,
          py_int checkpoint_id_ = Some (remote_checkpoints_id_seq db) ->
          get_remote_checkpoint db' user_id api_path checkpoint_id_
          = (Return content_, db'))
    /\ In (remote_checkpoints_id_seq db, now db)
         (list_remote_checkpoints db' user_id api_path).
Proof.
  intros Hfresh. eexists. split; [reflexivity|]. split; [reflexivity|].
  split.
  - intros checkpoint_id_ Hint. unfold get_remote_checkpoint.
    rewrite Hint. cbn [remote_checkpoints next_remote_checkpoints_id
                         with_remote_checkpoints].
    rewrite filter_app, filter_nil.
    + simpl. now rewrite !String.eqb_refl, Z.eqb_refl.
    + intros r Hr. apply andb_false_iff. right. apply Z.eqb_neq.
      specialize (Hfresh r Hr). lia.
  - unfold list_remote_checkpoints. apply in_map_iff.
    eexists (mk_remote_checkpoint _ _ _ _ _). split; [reflexivity|].
    apply order_by_In, filter_In. split.
    + simpl. apply in_or_app. right. now left.
    + simpl. now rewrite !String.eqb_refl.
Qed.

(** X14.  [delete_remote_checkpoints] returns; afterwards the snapshot rows
    are the rows there were except the user's rows at the path,
    [list_remote_checkpoints] of the path is empty and
    [get_remote_checkpoint] returns no content for it. *)
Theorem delete_remote_checkpoints_removes_every_snapshot (db : database)
  (user_id api_path : string) :
  exists db',
    delete_remote_checkpoints db user_id api_path = (Return tt, db')
    /\ (forall r,
          In r (remote_checkpoints db') <->
          In r (remote_checkpoints db)
          /\ ~ (remote_user_id r = user_id
                /\ remote_path r = from_api_filename api_path))
    /\ list_remote_checkpoints db' user_id api_path = []
    /\ (forall checkpoint_id_ content_,
          fst (get_remote_checkpoint db' user_id api_path checkpoint_id_)
          <> Return content_).
Proof.
  eexists. split; [reflexivity|].
  cbn [remote_checkpoints with_remote_checkpoints].
  assert (Hleft : forall r,
            In r (filter (fun r => negb (snapshot_is user_id
                                           (from_api_filename api_path) r))
                    (remote_checkpoints db)) <->
            In r (remote_checkpoints db)
            /\ ~ (remote_user_id r = user_id
                  /\ remote_path r = from_api_filename api_path)).
  { intros r. rewrite filter_In, negb_true_iff, <- snapshot_is_spec.
    destruct (snapshot_is _ _ r); intuition congruence. }
  split; [exact Hleft|]. split.
  - unfold list_remote_checkpoints.
    cbn [remote_checkpoints with_remote_checkpoints].
    rewrite filter_nil; auto.
    intros r Hr. apply Hleft in Hr. destruct Hr as [_ Hr].
    change (snapshot_is user_id (from_api_filename api_path) r = false).
    destruct (snapshot_is _ _ r) eqn:Es; auto.
    apply snapshot_is_spec in Es. tauto.
  - intros checkpoint_id_ content_. unfold get_remote_checkpoint.
    destruct (py_int checkpoint_id_) as [n|]; [|discriminate].
    cbn [remote_checkpoints with_remote_checkpoints].
    rewrite filter_nil; [discriminate|].
    intros r Hr. apply Hleft in Hr. destruct Hr as [_ Hr].
    match goal with |- ?b = false => destruct b eqn:Eb end; auto.
    apply (proj1 (snapshot_with_id_spec _ _ _ _)) in Eb. tauto.
Qed.

(** X15.  When the id is an integer and the user has a snapshot with that
    id at the path, [delete_single_remote_checkpoint] returns; afterwards
    the snapshot rows are the rows there were except the user's rows at
    the path with that id, and [get_remote_checkpoint] with that id
    raises [NoSuchCheckpoint]. *)
Theorem delete_single_remote_checkpoint_removes_it (db : database)
  (user_id api_path checkpoint_id_ : string) (n : Z)
  (r0 : remote_checkpoints_row) :
  py_int checkpoint_id_ = Some n ->
  In r0 (remote_checkpoints db) ->
  remote_user_id r0 = user_id ->
  remote_path r0 = from_api_filename api_path ->
  remote_id r0 = n ->
  exists db',
    delete_single_remote_checkpoint db user_id api_path checkpoint_id_
    = (Return tt, db')
    /\ (forall r,
          In r (remote_checkpoints db') <->
          In r (remote_checkpoints db)
          /\ ~ (remote_user_id r = user_id
                /\ remote_path r = from_api_filename api_path
                /\ remote_id r = n))
    /\ get_remote_checkpoint db' user_id api_path checkpoint_id_
       = (Raise (NoSuchCheckpoint api_path checkpoint_id_), db').
Proof.
  intros Hint Hin Hu Hp Hn.
  unfold delete_single_remote_checkpoint, Store.remote_checkpoints_delete.
  rewrite Hint. cbn [bind].
  match goal with
  | |- context [count ?w (remote_checkpoints db)] => set (where_ := w)
  end.
  assert (Hw0 : where_ r0 = true)
    by (apply snapshot_with_id_spec; auto).
  rewrite (py_not_pos _ (count_pos _ _ _ Hin Hw0)).
  eexists. split; [reflexivity|].
  cbn [remote_checkpoints with_remote_checkpoints].
  assert (Hleft : forall r,
            In r (filter (fun r => negb (where_ r)) (remote_checkpoints db))
            <-> In r (remote_checkpoints db)
                /\ ~ (remote_user_id r = user_id
                      /\ remote_path r = from_api_filename api_path
                      /\ remote_id r = n)).
  { intros r. rewrite filter_In, negb_true_iff.
    unfold where_. rewrite <- snapshot_with_id_spec.
    match goal with |- _ /\ ?b = false <-> _ => destruct b end;
      intuition congruence. }
  split; [exact Hleft|].
  apply (get_remote_checkpoint_none _ _ _ _ n); auto.
  cbn [remote_checkpoints with_remote_checkpoints].
  intros r Hr Hru Hrp Hrn. apply Hleft in Hr. tauto.
Qed.

(** X16.  [purge_remote_checkpoints] returns; afterwards the snapshot rows
    are the rows of the other users, [latest_remote_checkpoints] of the
    user is empty and [latest_remote_checkpoints] of every other user is
    what it was. *)
Theorem purge_remote_checkpoints_of_one_user (db : database)
  (user_id : string) :
  exists db',
    purge_remote_checkpoints db user_id = (Return tt, db')
    /\ (forall r,
          In r (remote_checkpoints db') <->
          In r (remote_checkpoints db) /\ remote_user_id r <> user_id)
    /\ latest_remote_checkpoints db' user_id = []
    /\ (forall other,
          other <> user_id ->
          latest_remote_checkpoints db' other
          = latest_remote_checkpoints db other).
Proof.
  eexists. split; [reflexivity|].
  unfold latest_remote_checkpoints.
  cbn [remote_checkpoints with_remote_checkpoints].
  split; [|split].
  - intros r. rewrite filter_In, negb_true_iff, String.eqb_neq. tauto.
  - rewrite filter_nil; auto.
    intros r Hr. apply filter_In in Hr. destruct Hr as [_ Hr].
    now apply negb_true_iff.
  - intros other Hother. rewrite filter_filter_implied; auto.
    intros r Hr. apply String.eqb_eq in Hr. apply negb_true_iff.
    apply String.eqb_neq. congruence.
Qed.
End MoreRemoteCheckpoints.

(** * Snapshots: moving *)

Lemma first_map_In {A B : Type} (g : A -> B) l b :
  first (map g l) = Some b -> exists x, In x l /\ g x = b.
Proof.
  destruct l as [|x l]; [discriminate|].
  unfold first. simpl. intros H. injection H as <-. exists x. auto.
Qed.

Section MoveRemoteCheckpoints.
Context {E : Environment}.

Lemma get_remote_checkpoint_Return db user_id api_path checkpoint_id_
  content_ db' :
  get_remote_checkpoint db user_id api_path checkpoint_id_
  = (Return content_, db') ->
  exists n r,
    py_int checkpoint_id_ = Some n
    /\ In r (remote_checkpoints db)
    /\ remote_user_id r = user_id
    /\ remote_path r = from_api_filename api_path
    /\ remote_id r = n
    /\ remote_content r = content_.
Proof.
  unfold get_remote_checkpoint.
  destruct (py_int checkpoint_id_) as [n|]; [|discriminate].
  destruct (first _) as [c|] eqn:Ef; [|discriminate].
  intros H. injection H as <- _.
  apply first_map_In in Ef. destruct Ef as (r & Hr & Hc).
  apply filter_In in Hr. destruct Hr as [Hr Hw].
  apply snapshot_with_id_spec in Hw. exists n, r. tauto.
Qed.

(** With unique ids, the snapshot of a given id decides what
    [get_remote_checkpoint] returns. *)
Lemma get_remote_checkpoint_unique db user_id api_path checkpoint_id_ n r0 :
  NoDup (map remote_id (remote_checkpoints db)) ->
  py_int checkpoint_id_ = Some n ->
  In r0 (remote_checkpoints db) ->
  remote_user_id r0 = user_id ->
  remote_path r0 = from_api_filename api_path ->
  remote_id r0 = n ->
  get_remote_checkpoint db user_id api_path checkpoint_id_
  = (Return (remote_content r0), db).
Proof.
  intros Hids Hint Hin Hu Hp Hn. unfold get_remote_checkpoint.
  rewrite Hint.
  rewrite (first_map_constant remote_content _ r0 (remote_content r0));
    auto.
  - apply filter_In. split; auto. now apply snapshot_with_id_spec.
  - intros r Hr. apply filter_In in Hr. destruct Hr as [Hr Hw].
    apply snapshot_with_id_spec in Hw. f_equal.
    apply (NoDup_map_injective remote_id (remote_checkpoints db)); auto.
    destruct Hw as (_ & _ & ->). auto.
Qed.

Lemma moved_ids where_ dest_db_path l :
  map remote_id
    (map (fun r => if where_ r : bool
                   then mk_remote_checkpoint (remote_id r) (remote_user_id r)
                          dest_db_path (remote_content r)
                          (remote_last_modified r)
                   else r) l)
  = map remote_id l.
Proof.
  rewrite map_map. apply map_ext. intros r. now destruct (where_ r).
Qed.

(** X17.  [move_remote_checkpoints] returns; afterwards every snapshot row
    that is not the user's at the source path is as it was, every record
    that [list_remote_checkpoints] listed at the source path is listed at
    the destination path, the source path lists nothing when it differs
    from the destination path, and, the ids being unique,
    [get_remote_checkpoint] returns at the destination path the content it
    returned at the source path. *)
Theorem move_remote_checkpoints_moves_every_snapshot (db : database)
  (user_id src_api_path dest_api_path : string) :
  exists db',
    move_remote_checkpoints db user_id src_api_path dest_api_path
    = (Return tt, db')
    /\ (forall r, In r (remote_checkpoints db) ->
                  ~ (remote_user_id r = user_id
                     /\ remote_path r = from_api_filename src_api_path) ->
                  In r (remote_checkpoints db'))
    /\ (forall record,
          In record (list_remote_checkpoints db user_id src_api_path) ->
          In record (list_remote_checkpoints db' user_id dest_api_path))
    /\ (from_api_filename src_api_path <> from_api_filename dest_api_path ->
        list_remote_checkpoints db' user_id src_api_path = [])
    /\ (NoDup (map remote_id (remote_checkpoints db)) ->
        forall checkpoint_id_ content_,
          get_remote_checkpoint db user_id src_api_path checkpoint_id_
          = (Return content_, db) ->
          get_remote_checkpoint db' user_id dest_api_path checkpoint_id_
          = (Return content_, db')).
Proof.
  eexists. split; [reflexivity|].
  cbn [remote_checkpoints with_remote_checkpoints].
  change (fun r => String.eqb (remote_user_id r) user_id
                   && String.eqb (remote_path r)
                        (from_api_filename src_api_path))
    with (snapshot_is user_id (from_api_filename src_api_path)).
  set (where_ := snapshot_is user_id (from_api_filename src_api_path)).
  set (move := fun r => if where_ r
                        then mk_remote_checkpoint (remote_id r)
                               (remote_user_id r)
                               (from_api_filename dest_api_path)
                               (remote_content r) (remote_last_modified r)
                        else r).
  assert (Hmoved : forall r, where_ r = true ->
                     remote_user_id (move r) = user_id
                     /\ remote_path (move r) = from_api_filename dest_api_path
                     /\ remote_id (move r) = remote_id r
                     /\ remote_content (move r) = remote_content r
                     /\ remote_last_modified (move r)
                        = remote_last_modified r).
  { intros r Hw. unfold move. rewrite Hw. simpl.
    apply snapshot_is_spec in Hw. tauto. }
  repeat match goal with
  | |- context [map ?g (remote_checkpoints db)] =>
      lazymatch g with
      | move => fail
      | remote_id => fail
      | _ => change (map g (remote_checkpoints db))
               with (map move (remote_checkpoints db))
      end
  end.
  split; [|split; [|split]].
  - intros r Hr Hnot. apply in_map_iff. exists r. split; auto.
    unfold move. destruct (where_ r) eqn:Ew; auto.
    apply snapshot_is_spec in Ew. tauto.
  - intros [n t] Hrec. unfold list_remote_checkpoints in *.
    cbn [remote_checkpoints with_remote_checkpoints].
    apply in_map_iff in Hrec. destruct Hrec as (r & Heq & Hr).
    apply order_by_In, filter_In in Hr. destruct Hr as [Hr Hw].
    destruct (Hmoved r Hw) as (Hu & Hp & Hi & _ & Ht).
    apply in_map_iff. exists (move r). split.
    + unfold _remote_checkpoint_default_fields in *. now rewrite Hi, Ht.
    + apply order_by_In, filter_In. split; [now apply in_map|].
      apply snapshot_is_spec. auto.
  - intros Hne. unfold list_remote_checkpoints.
    cbn [remote_checkpoints with_remote_checkpoints].
    rewrite filter_nil; auto.
    intros x Hx. apply in_map_iff in Hx. destruct Hx as (r & <- & Hr).
    fold where_. unfold move. destruct (where_ r) eqn:Ew; auto.
    unfold where_, snapshot_is. simpl. apply andb_false_iff. right.
    apply String.eqb_neq. congruence.
  - intros Hids checkpoint_id_ content_ Hget.
    apply get_remote_checkpoint_Return in Hget.
    destruct Hget as (n & r & Hint & Hr & Hu & Hp & Hn & <-).
    assert (Hw : where_ r = true) by (apply snapshot_is_spec; auto).
    destruct (Hmoved r Hw) as (Hu' & Hp' & Hi' & Hc' & _).
    rewrite <- Hc'.
    apply (get_remote_checkpoint_unique _ _ _ _ n); auto.
    + cbn [remote_checkpoints with_remote_checkpoints].
      unfold move. now rewrite moved_ids.
    + cbn [remote_checkpoints with_remote_checkpoints]. now apply in_map.
    + congruence.
Qed.

(** X18.  When the id is an integer and the user has a snapshot with that
    id at the source path, [move_single_remote_checkpoint] returns;
    afterwards every snapshot row with another id is as it was, and, the
    ids being unique, [get_remote_checkpoint] with that id returns the
    content of the snapshot at the destination path and raises
    [NoSuchCheckpoint] at the source path when the two paths differ. *)
Theorem move_single_remote_checkpoint_moves_it (db : database)
  (user_id src_api_path dest_api_path checkpoint_id_ : string) (n : Z)
  (r0 : remote_checkpoints_row) :
  py_int checkpoint_id_ = Some n ->
  In r0 (remote_checkpoints db) ->
  remote_user_id r0 = user_id ->
  remote_path r0 = from_api_filename src_api_path ->
  remote_id r0 = n ->
  exists db',
    move_single_remote_checkpoint db user_id src_api_path dest_api_path
      checkpoint_id_
    = (Return tt, db')
    /\ (forall r, In r (remote_checkpoints db) -> remote_id r <> n ->
                  In r (remote_checkpoints db'))
    /\ (NoDup (map remote_id (remote_checkpoints db)) ->
        get_remote_checkpoint db' user_id dest_api_path checkpoint_id_
        = (Return (remote_content r0), db')
        /\ (from_api_filename src_api_path
            <> from_api_filename dest_api_path ->
            get_remote_checkpoint db' user_id src_api_path checkpoint_id_
            = (Raise (NoSuchCheckpoint src_api_path checkpoint_id_), db'))).
Proof.
  intros Hint Hin Hu Hp Hn.
  unfold move_single_remote_checkpoint, Store.remote_checkpoints_update.
  rewrite Hint. cbn [bind].
  match goal with
  | |- context [count ?w (remote_checkpoints db)] => set (where_ := w)
  end.
  assert (Hw0 : where_ r0 = true) by (apply snapshot_with_id_spec; auto).
  rewrite (py_not_pos _ (count_pos _ _ _ Hin Hw0)).
  eexists. split; [reflexivity|].
  cbn [remote_checkpoints with_remote_checkpoints].
  set (move := fun r => if where_ r
                        then mk_remote_checkpoint (remote_id r)
                               (remote_user_id r)
                               (from_api_filename dest_api_path)
                               (remote_content r) (remote_last_modified r)
                        else r).
  repeat match goal with
  | |- context [map ?g (remote_checkpoints db)] =>
      lazymatch g with
      | move => fail
      | remote_id => fail
      | _ => change (map g (remote_checkpoints db))
               with (map move (remote_checkpoints db))
      end
  end.
  split.
  - intros r Hr Hne. apply in_map_iff. exists r. split; auto.
    unfold move. destruct (where_ r) eqn:Ew; auto.
    apply snapshot_with_id_spec in Ew. tauto.
  - intros Hids.
    assert (Hids' : NoDup (map remote_id (map move (remote_checkpoints db))))
      by (unfold move; now rewrite moved_ids).
    split.
    + replace (remote_content r0) with (remote_content (move r0))
        by (unfold move; now rewrite Hw0).
      assert (Hm0 : move r0
                    = mk_remote_checkpoint (remote_id r0) (remote_user_id r0)
                        (from_api_filename dest_api_path)
                        (remote_content r0) (remote_last_modified r0))
        by (unfold move; now rewrite Hw0).
      apply (get_remote_checkpoint_unique _ _ _ _ n).
      * exact Hids'.
      * exact Hint.
      * cbn [remote_checkpoints with_remote_checkpoints].
        now apply (in_map move).
      * now rewrite Hm0.
      * now rewrite Hm0.
      * now rewrite Hm0.
    + intros Hne. apply (get_remote_checkpoint_none _ _ _ _ n); auto.
      cbn [remote_checkpoints with_remote_checkpoints].
      intros x Hx Hxu Hxp Hxn. apply in_map_iff in Hx.
      destruct Hx as (r & <- & Hr).
      assert (r = r0).
      { apply (NoDup_map_injective remote_id (remote_checkpoints db)); auto.
        transitivity (remote_id (move r)); [|congruence].
        unfold move. now destruct (where_ r). }
      subst r. unfold move in Hxp. rewrite Hw0 in Hxp. simpl in Hxp.
      congruence.
Qed.
End MoveRemoteCheckpoints.

(** * Purging a user *)

Section PurgeUser.
Context {E : Environment}.

(** X19.  When no directory of another user names a directory of the user
    as parent and the user has no snapshot, [purge_user] returns;
    afterwards the file rows, the directory rows and the users are those
    of the other users, and the snapshot rows are as they were.  When the
    user has a snapshot and is in the table of users, [purge_user] raises
    the store's integrity error and the user is still there: it deletes
    no snapshot, and a user with snapshots is not deleted. *)
Theorem purge_user_removes_the_user (db : database) (user_id : string) :
  (forall d, In d (directories db) -> dir_user_id d <> user_id ->
             dir_parent_user_id d <> Some user_id) ->
  ((forall r, In r (remote_checkpoints db) ->
              remote_user_id r <> user_id) ->
   exists db',
     purge_user db user_id = (Return tt, db')
     /\ (forall f, In f (files db') <->
                   In f (files db) /\ file_user_id f <> user_id)
     /\ (forall d, In d (directories db') <->
                   In d (directories db) /\ dir_user_id d <> user_id)
     /\ (forall u, In u (users db') <-> In u (users db) /\ u <> user_id)
     /\ remote_checkpoints db' = remote_checkpoints db)
  /\ (forall r, In r (remote_checkpoints db) ->
                remote_user_id r = user_id ->
                In user_id (users db) ->
                exists db',
                  purge_user db user_id
                  = (Raise (IntegrityError FOREIGN_KEY_VIOLATION), db')
                  /\ users db' = users db
                  /\ remote_checkpoints db' = remote_checkpoints db).
Proof.
  intros Hforeign. unfold purge_user, Store.files_delete. cbn [bind].
  set (db1 := with_checkpoints _ _).
  assert (Hfiles1 : forall f, In f (files db1) <->
                              In f (files db) /\ file_user_id f <> user_id).
  { intros f. unfold db1. cbn [files with_checkpoints with_files].
    now rewrite filter_In, negb_true_iff, String.eqb_neq. }
  unfold Store.directories_delete.
  set (where_ := fun d => String.eqb (dir_user_id d) user_id).
  assert (Hfree : existsb (Store.referenced db1 where_)
                    (filter where_ (directories db1)) = false).
  { apply existsb_false. intros d Hd. apply filter_In in Hd.
    destruct Hd as [Hd Hw]. unfold where_ in Hw. apply String.eqb_eq in Hw.
    unfold Store.referenced. apply orb_false_iff.
    split; apply existsb_false.
    - intros f Hf. apply Hfiles1 in Hf. destruct Hf as [_ Hf].
      apply andb_false_iff. left. apply String.eqb_neq. congruence.
    - intros c Hc. unfold where_.
      destruct (String.eqb_spec (dir_user_id c) user_id) as [|Hcu]; auto.
      simpl. apply andb_false_iff. left.
      destruct (dir_parent_user_id c) as [pu|] eqn:Epu; auto.
      simpl. apply String.eqb_neq. intros ->.
      apply (Hforeign c Hc Hcu). congruence. }
  rewrite Hfree. cbn [bind].
  set (db2 := with_directories db1 _).
  assert (Hdirs2 : forall d, In d (directories db2) <->
                             In d (directories db)
                             /\ dir_user_id d <> user_id).
  { intros d. unfold db2, where_. cbn [directories with_directories].
    now rewrite filter_In, negb_true_iff, String.eqb_neq. }
  unfold Store.users_delete.
  split.
  - intros Hsnapshots.
    assert (Hnone : existsb (Store.has_rows db2)
                      (filter (fun id => String.eqb id user_id) (users db2))
                    = false).
    { apply existsb_false. intros u Hu. apply filter_In in Hu.
      destruct Hu as [_ Hu]. apply String.eqb_eq in Hu. subst u.
      unfold Store.has_rows. rewrite !orb_false_iff.
      repeat split; apply existsb_false.
      - intros d Hd. apply Hdirs2 in Hd. now apply String.eqb_neq.
      - intros f Hf. apply Hfiles1 in Hf. now apply String.eqb_neq.
      - intros r Hr. apply String.eqb_neq. now apply Hsnapshots. }
    rewrite Hnone. cbn [bind].
    eexists. split; [reflexivity|].
    cbn [files directories users remote_checkpoints with_users].
    split; [exact Hfiles1|]. split; [exact Hdirs2|]. split; [|reflexivity].
    intros u. now rewrite filter_In, negb_true_iff, String.eqb_neq.
  - intros r Hr Hru Hin.
    assert (Hsome : existsb (Store.has_rows db2)
                      (filter (fun id => String.eqb id user_id) (users db2))
                    = true).
    { apply existsb_exists. exists user_id. split.
      - apply filter_In. split; [exact Hin | apply String.eqb_refl].
      - unfold Store.has_rows. apply orb_true_iff. right.
        apply existsb_exists. exists r. split; [exact Hr|].
        now apply String.eqb_eq. }
    rewrite Hsome. cbn [bind]. eexists. split; [reflexivity|]. auto.
Qed.
End PurgeUser.

(** * Every reachable store has its keys *)

Lemma bind_invariant {A B : Type} (P : database -> Prop) (c : outcome A)
  (k : A -> database -> outcome B) :
  P (snd c) -> (forall a d, P d -> P (snd (k a d))) -> P (snd (bind c k)).
Proof.
  destruct c as [[a|e] d]; simpl; auto.
Qed.

Lemma remote_part_same db db' :
  remote_checkpoints db' = remote_checkpoints db ->
  remote_checkpoints_id_seq db' = remote_checkpoints_id_seq db ->
  remote_well_formed db -> remote_well_formed db'.
Proof. unfold remote_well_formed. now intros -> ->. Qed.

Lemma main_part_same db db' :
  files db' = files db -> checkpoints db' = checkpoints db ->
  directories db' = directories db -> users db' = users db ->
  files_id_seq db' = files_id_seq db ->
  checkpoints_id_seq db' = checkpoints_id_seq db ->
  well_formed db -> well_formed db'.
Proof. unfold well_formed. now intros -> -> -> -> -> ->. Qed.

Section ReachableStores.
Context {E : Environment}.

Ltac same_remote :=
  match goal with
  | H : remote_well_formed ?db |- remote_well_formed _ =>
      apply (remote_part_same db); [| |exact H];
      repeat match goal with
        | |- context [if ?b then _ else _] => destruct b
        | |- context [match ?x with Some _ => _ | None => _ end] =>
            destruct x
        end; reflexivity
  end.

Ltac same_main :=
  match goal with
  | H : well_formed ?db |- well_formed _ =>
      apply (main_part_same db); [| | | | | |exact H];
      repeat match goal with
        | |- context [if ?b then _ else _] => destruct b
        end; reflexivity
  end.

Lemma users_insert_keys id db :
  keys_ok db -> keys_ok (snd (Store.users_insert id db)).
Proof.
  intros [H1 H2]. split; [now apply users_insert_well_formed|].
  unfold Store.users_insert. same_remote.
Qed.

Lemma users_delete_keys where_ db :
  keys_ok db -> keys_ok (snd (Store.users_delete where_ db)).
Proof.
  intros [H1 H2]. split; [|unfold Store.users_delete; same_remote].
  unfold Store.users_delete. destruct (existsb _ _); [exact H1|].
  destruct H1 as (F1 & F2 & F3 & F4 & F5 & F6).
  unfold well_formed. simpl. repeat split; auto.
  intros user_id.
  pose proof (count_filter_le (String.eqb user_id)
                (fun u => negb (where_ u)) (users db)).
  specialize (F6 user_id). lia.
Qed.

Lemma directories_insert_keys row db :
  keys_ok db -> keys_ok (snd (Store.directories_insert row db)).
Proof.
  intros [H1 H2]. split; [now apply directories_insert_well_formed|].
  unfold Store.directories_insert. same_remote.
Qed.

Lemma directories_delete_keys where_ db :
  keys_ok db -> keys_ok (snd (Store.directories_delete where_ db)).
Proof.
  intros [H1 H2]. split; [now apply directories_delete_well_formed|].
  unfold Store.directories_delete. same_remote.
Qed.

Lemma files_insert_keys name_ user_id parent_name_ content_ db :
  keys_ok db ->
  keys_ok (snd (Store.files_insert name_ user_id parent_name_ content_ db)).
Proof.
  intros [H1 H2]. split; [now apply files_insert_well_formed|].
  unfold Store.files_insert. same_remote.
Qed.

Lemma files_update_keys where_ set db :
  (forall f, file_id (set f) = file_id f) ->
  keys_ok db -> keys_ok (snd (Store.files_update where_ set db)).
Proof.
  intros Hset [H1 H2]. split; [now apply files_update_well_formed|].
  unfold Store.files_update. same_remote.
Qed.

Lemma files_delete_keys where_ db :
  keys_ok db -> keys_ok (snd (Store.files_delete where_ db)).
Proof.
  intros [H1 H2]. split; [now apply files_delete_well_formed|].
  unfold Store.files_delete. same_remote.
Qed.

Lemma checkpoints_insert_keys {A : Type} subquery
  (returning : checkpoints_row -> A) db :
  keys_ok db ->
  keys_ok (snd (Store.checkpoints_insert subquery returning db)).
Proof.
  intros [H1 H2]. split; [now apply checkpoints_insert_well_formed|].
  unfold Store.checkpoints_insert. cbn [checkpoint_file_id]. same_remote.
Qed.

Lemma checkpoints_delete_keys where_ db :
  keys_ok db -> keys_ok (snd (Store.checkpoints_delete where_ db)).
Proof.
  intros [H1 H2]. split; [|unfold Store.checkpoints_delete; same_remote].
  destruct H1 as (F1 & F2 & F3 & F4 & F5 & F6).
  unfold well_formed. simpl. repeat split; auto.
  - now apply NoDup_map_filter.
  - intros c Hc. apply filter_In in Hc. apply F4, Hc.
Qed.

Lemma remote_checkpoints_insert_keys {A : Type} user_id path content_
  (returning : remote_checkpoints_row -> A) db :
  keys_ok db ->
  keys_ok (snd (Store.remote_checkpoints_insert user_id path content_
                  returning db)).
Proof.
  intros [H1 [R1 R2]]. split; [unfold Store.remote_checkpoints_insert;
                               same_main|].
  unfold remote_well_formed. simpl. split.
  - now apply NoDup_map_snoc with (bound := remote_checkpoints_id_seq db).
  - intros r Hr. apply in_app_or in Hr. destruct Hr as [Hr|[<-|[]]].
    + specialize (R2 r Hr). lia.
    + simpl. lia.
Qed.

Lemma remote_checkpoints_delete_keys where_ db :
  keys_ok db -> keys_ok (snd (Store.remote_checkpoints_delete where_ db)).
Proof.
  intros [H1 [R1 R2]]. split; [unfold Store.remote_checkpoints_delete;
                               same_main|].
  unfold remote_well_formed. simpl. split.
  - now apply NoDup_map_filter.
  - intros r Hr. apply filter_In in Hr. apply R2, Hr.
Qed.

Lemma remote_checkpoints_update_keys where_ set db :
  (forall r, remote_id (set r) = remote_id r) ->
  keys_ok db ->
  keys_ok (snd (Store.remote_checkpoints_update where_ set db)).
Proof.
  intros Hset [H1 [R1 R2]]. split; [unfold Store.remote_checkpoints_update;
                                    same_main|].
  assert (Hid : forall r, remote_id (if where_ r then set r else r)
                          = remote_id r)
    by (intros r; destruct (where_ r); auto).
  unfold remote_well_formed. simpl. split.
  - now apply NoDup_map_same_key.
  - intros r Hr. apply in_map_iff in Hr. destruct Hr as (x & <- & Hx).
    rewrite Hid. auto.
Qed.

Lemma ignore_unique_violation_keys body :
  keys_ok (snd body) -> keys_ok (snd (ignore_unique_violation body)).
Proof. now rewrite ignore_unique_violation_snd. Qed.

Lemma if_keys {A : Type} (b : bool) (x y : outcome A) :
  keys_ok (snd x) -> keys_ok (snd y) -> keys_ok (snd (if b then x else y)).
Proof. now destruct b. Qed.

Lemma create_directory_keys db user_id api_path :
  keys_ok db -> keys_ok (snd (create_directory db user_id api_path)).
Proof.
  intros H. unfold create_directory.
  destruct (String.eqb _ _); [now apply directories_insert_keys|].
  destruct (rindex_0_m1 _ _); auto. now apply directories_insert_keys.
Qed.

Lemma call_keeps_keys db db' : call db db' -> keys_ok db -> keys_ok db'.
Proof.
  intros Hcall H. destruct Hcall.
  - destruct H as [H1 H2]. split; [now apply well_formed_at_time|].
    now destruct db.
  - apply ignore_unique_violation_keys. now apply users_insert_keys.
  - unfold purge_user.
    apply bind_invariant; [now apply files_delete_keys|]. intros _ d1 H1.
    apply bind_invariant; [now apply directories_delete_keys|].
    intros _ d2 H2.
    apply bind_invariant; [now apply users_delete_keys|]. auto.
  - now apply create_directory_keys.
  - apply ignore_unique_violation_keys. now apply create_directory_keys.
  - unfold delete_directory.
    match goal with
    | |- context [Store.directories_delete ?w db] =>
        pose proof (directories_delete_keys w db H) as Hd;
        destruct (Store.directories_delete w db) as [[n|e] d]
    end; simpl in *.
    + now destruct (py_not n).
    + destruct e; auto. now destruct (negb _).
  - unfold delete_file.
    apply bind_invariant; [now apply files_delete_keys|].
    intros n d Hd. now apply if_keys.
  - unfold rename_file, file_exists.
    destruct (split_api_filepath old_api_path) as [old_dir old_name].
    destruct (split_api_filepath new_api_path) as [new_dir new_name].
    apply if_keys; auto.
    rewrite get_file_unfold. destruct (first _); simpl; auto.
    match goal with
    | |- keys_ok (with_files db (map (fun f => if @?w f then @?s f else f)
                                   (files db))) =>
        exact (files_update_keys w s db (fun f => eq_refl) H)
    end.
  - unfold save_file. destruct (check_content _ _); auto.
    destruct (split_api_filepath path) as [d n].
    now apply files_insert_keys.
  - unfold create_checkpoint.
    apply bind_invariant; [now apply checkpoints_insert_keys|].
    intros l d Hd. now destruct l as [|x [|y l]].
  - unfold restore_checkpoint.
    apply bind_invariant;
      [now apply files_update_keys; [intros f; reflexivity|]|].
    intros n d Hd. now apply if_keys.
  - unfold delete_checkpoint.
    destruct (split_api_filepath api_path) as [directory name_].
    apply bind_invariant; [now apply checkpoints_delete_keys|].
    intros n d Hd. now apply if_keys.
  - unfold delete_single_remote_checkpoint.
    destruct (py_int checkpoint_id_); auto.
    apply bind_invariant; [now apply remote_checkpoints_delete_keys|].
    intros n d Hd. now apply if_keys.
  - unfold delete_remote_checkpoints.
    apply bind_invariant; [now apply remote_checkpoints_delete_keys|].
    auto.
  - unfold move_single_remote_checkpoint.
    destruct (py_int checkpoint_id_); auto.
    apply bind_invariant;
      [apply remote_checkpoints_update_keys; [intros r; reflexivity|auto]|].
    intros n d Hd. now apply if_keys.
  - unfold move_remote_checkpoints.
    apply bind_invariant;
      [apply remote_checkpoints_update_keys; [intros r; reflexivity|auto]|].
    auto.
  - unfold save_remote_checkpoint.
    now apply remote_checkpoints_insert_keys.
  - unfold purge_remote_checkpoints.
    apply bind_invariant; [now apply remote_checkpoints_delete_keys|].
    auto.
Qed.

(** X20.  In every store that calls of [query.py] build from the empty
    store, whether they return or raise and whatever the clock does
    between them, the ids of the file rows, of the checkpoint rows and of
    the snapshot rows are unique and below their sequences, and a user and
    a directory of a user are stored once. *)
Theorem reachable_stores_have_their_keys (db : database) :
  reachable db -> well_formed db /\ remote_well_formed db.
Proof.
  induction 1 as [t|db db' _ IH Hcall].
  - split; [apply well_formed_empty|].
    unfold remote_well_formed. simpl. split; [constructor | tauto].
  - exact (call_keeps_keys db db' Hcall IH).
Qed.
End ReachableStores.

(** * Listing the files of a directory *)

Section ListingFiles.
Context {E : Environment}.

(** X21.  [files_in_directory] lists every file name of the user in the
    directory once, lists only files whose parent is the directory, and
    the row it returns for a name carries the least creation timestamp of
    the versions of that file. *)
Theorem files_in_directory_one_row_per_name (db : database)
  (user_id db_dirname : string) :
  NoDup (map dict_file_name (files_in_directory db user_id db_dirname))
  /\ (forall d, In d (files_in_directory db user_id db_dirname) ->
        dict_parent_name d = db_dirname
        /\ dict_content d = None
        /\ exists f, In f (files db)
                     /\ file_user_id f = user_id
                     /\ file_parent_name f = db_dirname
                     /\ file_name f = dict_file_name d
                     /\ file_created_at f = dict_created_at d
                     /\ forall f', In f' (files db) ->
                                   file_user_id f' = user_id ->
                                   file_parent_name f' = db_dirname ->
                                   file_name f' = file_name f ->
                                   dict_created_at d <= file_created_at f')
  /\ (forall f, In f (files db) ->
                file_user_id f = user_id ->
                file_parent_name f = db_dirname ->
                exists d, In d (files_in_directory db user_id db_dirname)
                          /\ dict_file_name d = file_name f).
Proof.
  destruct (files_in_directory_oldest db user_id db_dirname)
    as (Hnodup & Hsound & Hcomplete).
  split; [exact Hnodup|]. split; [|exact Hcomplete].
  intros d Hd. destruct (Hsound d Hd) as (f & Hf & Hu & Hp & -> & Hmin).
  simpl. repeat split; auto. exists f. repeat split; auto.
  intros f' Hf' Hu' Hp' Hn'. apply Hmin; auto.
  unfold file_key. congruence.
Qed.
End ListingFiles.

(** * The example store *)

Section OnTheExampleStore.
#[local] Existing Instance Example.strict.
Local Open Scope string_scope.

Import Example.

(** C1.  On the store [two_files], which holds two versions of
    [a/b.txt] and one of [a/c.txt], [rename_file] from [a/b.txt] to
    [a/d.txt] returns, and then every file row of the directory is named
    [d.txt], the row of [a/c.txt] with the others. *)
Theorem rename_file_renames_the_whole_directory :
  map (fun f => (file_id f, file_name f)) (files two_files)
  = [(1, "b.txt"); (2, "b.txt"); (3, "c.txt")]
  /\ fst (rename_file two_files "u" "a/b.txt" "a/d.txt") = Return tt
  /\ map (fun f => (file_id f, file_name f))
       (files (snd (rename_file two_files "u" "a/b.txt" "a/d.txt")))
     = [(1, "d.txt"); (2, "d.txt"); (3, "d.txt")].
Proof. vm_compute. repeat split. Qed.

(** C2.  On the store [two_versions], where [a/b.txt] was saved at time 1
    and again at time 2, [files_in_directory] returns for [b.txt] the
    version created at time 1, while [get_file] returns the version
    created at time 2. *)
Theorem files_in_directory_returns_the_oldest_version :
  files_in_directory two_versions "u" "/a/"
  = [mk_file_dict "b.txt" 1 "/a/" None]
  /\ fst (get_file two_versions "u" "a/b.txt" false)
     = Return (mk_file_dict "b.txt" 2 "/a/" None).
Proof. vm_compute. repeat split. Qed.

(** C9.  On the store [home], where [a/b.txt] has no version,
    [create_checkpoint] raises the store's integrity error for the NULL
    [file_id] and inserts no checkpoint row; where the schema lets
    [file_id] be NULL it returns a checkpoint and inserts a row that
    references no version.  In neither case does it raise
    [NoSuchFile]. *)
Theorem create_checkpoint_without_a_version :
  files home = []
  /\ fst (create_checkpoint home "u" "a/b.txt")
     = Raise (IntegrityError NOT_NULL_VIOLATION)
  /\ checkpoints (snd (create_checkpoint home "u" "a/b.txt")) = []
  /\ fst (@create_checkpoint lax (@home lax) "u" "a/b.txt")
     = Return (mk_checkpoint_dict 1 0)
  /\ checkpoints (snd (@create_checkpoint lax (@home lax) "u" "a/b.txt"))
     = [mk_checkpoint 1 None 0].
Proof. vm_compute. repeat split. Qed.

(** C8, as stated, fails: on the store [home], where the directory [/a/]
    exists, [create_directory] for [a] raises the integrity error with
    the uniqueness code and not a domain error for a duplicate. *)
Lemma create_directory_duplicate_is_not_already_exists :
  fst (create_directory home "u" "a")
  = Raise (IntegrityError UNIQUE_VIOLATION)
  /\ ~ (exists e, fst (create_directory home "u" "a") = Raise e
                  /\ already_exists e).
Proof.
  split; [vm_compute; reflexivity|].
  intros (e & He & p & ->). vm_compute in He. discriminate He.
Qed.

(** C5, as stated, fails: on the store [saved_twice], where [v1] and then
    [v2] were saved to [a/b.txt] while the clock read 1, the two versions
    carry the same creation timestamp and [get_file] returns [v1], not
    the content saved last. *)
Lemma get_file_after_two_saves_at_one_time :
  save_all home "u" "a/b.txt" 0 [(1, "v1"); (1, "v2")]
  = Some SameTime.saved_twice
  /\ map (fun f => (file_content f, file_created_at f))
       (files SameTime.saved_twice)
     = [("v1", 1); ("v2", 1)]
  /\ fst (get_file SameTime.saved_twice "u" "a/b.txt" true)
     = Return (mk_file_dict "b.txt" 1 "/a/" (Some "v1"))
  /\ ~ (exists d, fst (get_file SameTime.saved_twice "u" "a/b.txt" true)
                  = Return d
                  /\ dict_content d = Some "v2").
Proof.
  split; [vm_compute; reflexivity|].
  split; [vm_compute; reflexivity|].
  split; [vm_compute; reflexivity|].
  intros (d & Hd & Hc). vm_compute in Hd. injection Hd as <-.
  discriminate Hc.
Qed.

(** C6, as stated, fails: on the store [restored_once], checkpoint 2
    references the version of [a/b.txt] with content [v2], the ids are
    unique, and the clock reads 3, the creation timestamp that the
    restored first version carries.  [restore_checkpoint] of checkpoint 2
    returns, and [get_file] then returns [v1], not the checkpointed
    content. *)
Lemma restore_checkpoint_at_a_time_already_taken :
  checkpointed SameTime.restored_once "u" "a/b.txt" 2
    (mk_file 2 "b.txt" "u" "/a/" "v2" 2)
  /\ map (fun f => (file_id f, file_content f, file_created_at f))
       (files SameTime.restored_once)
     = [(1, "v1", 3); (2, "v2", 2)]
  /\ now SameTime.restored_once = 3
  /\ fst (restore_checkpoint SameTime.restored_once "u" "a/b.txt" 2)
     = Return tt
  /\ map (fun f => (file_id f, file_content f, file_created_at f))
       (files (snd (restore_checkpoint SameTime.restored_once "u"
                      "a/b.txt" 2)))
     = [(1, "v1", 3); (2, "v2", 3)]
  /\ fst (get_file
            (snd (restore_checkpoint SameTime.restored_once "u" "a/b.txt"
                    2))
            "u" "a/b.txt" true)
     = Return (mk_file_dict "b.txt" 3 "/a/" (Some "v1")).
Proof.
  split.
  - split; [vm_compute; right; left; reflexivity|].
    split; [vm_compute; reflexivity|].
    exists (mk_checkpoint 2 (Some 2) 2).
    vm_compute. repeat split. right. left. reflexivity.
  - vm_compute. repeat split.
Qed.

Lemma ensure_swallows_create_propagates_witness :
  ensure_directory home "u" "a" = (Return tt, home)
  /\ create_directory home "u" "a"
     = (Raise (IntegrityError UNIQUE_VIOLATION), home).
Proof.
  apply (proj1 (proj2 (ensure_swallows_create_propagates home "u" "a"
                         (Return tt, home)))); vm_compute; reflexivity.
Defined.

Lemma save_file_appends_or_too_large_witness :
  fst (save_file home "u" "a/b.txt" "four" 3) = Raise FileTooLarge.
Proof.
  apply (proj2 (proj1 (save_file_appends_or_too_large home "u" "a/b.txt"
                         "four" 3))).
  split; vm_compute; [discriminate | reflexivity].
Defined.

Lemma delete_directory_errors_witness :
  fst (delete_directory two_versions "u" "a")
  = Raise (DirectoryNotEmpty "a").
Proof.
  apply (proj2 (proj2 (proj2 (proj2 (proj2
           (delete_directory_errors two_versions "u" "a"
              (Return 0, two_versions))))))).
  exists (mk_directory "u" "/a/" (Some "u") (Some "/")).
  vm_compute. repeat split. right. left. reflexivity.
Defined.

Lemma get_file_latest_wins_witness :
  exists d, get_file two_versions "u" "a/b.txt" true
            = (Return d, two_versions)
            /\ dict_content d = Some "v2".
Proof.
  apply (proj2 (proj2 (proj2 (get_file_latest_wins home "u" "a/b.txt"
                                true))) 0 [(1, "v1")] 2 "v2").
  - vm_compute. reflexivity.
  - apply (in_forallb
             (fun f => negb (_file_where "u" "a/b.txt" f)
                       || (file_created_at f <? 2)%Z)
             (fun f => _file_where "u" "a/b.txt" f = true ->
                       file_created_at f < 2)).
    + intros f Hf Hw. rewrite Hw in Hf. now apply Z.ltb_lt.
    + vm_compute. reflexivity.
  - apply (in_forallb (fun s => (fst s <? 2)%Z) (fun s => fst s < 2)).
    + intros s. apply Z.ltb_lt.
    + vm_compute. reflexivity.
Defined.

Lemma restore_checkpoint_promotes_witness :
  exists db',
    restore_checkpoint checkpointed_then_saved "u" "a/b.txt" 1
    = (Return tt, db')
    /\ get_file db' "u" "a/b.txt" true
       = (Return (mk_file_dict "b.txt" 5 "/a/" (Some "v2")), db').
Proof.
  destruct (proj1 (restore_checkpoint_promotes checkpointed_then_saved
                     "u" "a/b.txt" 1)
              (mk_file 2 "b.txt" "u" "/a/" "v2" 2))
    as (db' & Hrestore & _ & _ & Hget).
  - split; [vm_compute; right; left; reflexivity|].
    split; [vm_compute; reflexivity|].
    exists (mk_checkpoint 1 (Some 2) 3).
    vm_compute. repeat split. left. reflexivity.
  - exists db'. split; [exact Hrestore|]. apply Hget.
    + vm_compute. repeat constructor; simpl; intuition discriminate.
    + vm_compute. repeat constructor; simpl; intuition discriminate.
    + apply (in_forallb
               (fun g => negb (_file_where "u" "a/b.txt" g)
                         || (file_created_at g <? 5)%Z)
               (fun g => _file_where "u" "a/b.txt" g = true ->
                         file_created_at g < now checkpointed_then_saved)).
      * intros g Hg Hw. rewrite Hw in Hg.
        change (now checkpointed_then_saved) with 5. now apply Z.ltb_lt.
      * vm_compute. reflexivity.
Defined.

Lemma latest_remote_checkpoints_max_witness :
  exists r, In r (remote_checkpoints snapshots)
            /\ remote_user_id r = "u"
            /\ remote_id r = 3
            /\ remote_path r = "/a/b.txt"
            /\ forall r', In r' (remote_checkpoints snapshots) ->
                          remote_user_id r' = "u" ->
                          remote_path r' = remote_path r ->
                          remote_last_modified r'
                          <= remote_last_modified r.
Proof.
  apply (proj1 (proj2 (latest_remote_checkpoints_max snapshots "u"))
           (mk_remote_checkpoint_dict 3 "/a/b.txt")).
  vm_compute. left. reflexivity.
Defined.

Lemma bulk_remote_checkpoints_never_not_found_witness :
  delete_single_remote_checkpoint snapshots "u" "a/b.txt" "99"
  = (Raise (NoSuchCheckpoint "a/b.txt" "99"), snapshots)
  /\ move_single_remote_checkpoint snapshots "u" "a/b.txt" "a/d.txt" "99"
     = (Raise (NoSuchCheckpoint "a/b.txt" "99"), snapshots).
Proof.
  apply (proj2 (proj2 (proj2 (proj2 (proj2
           (bulk_remote_checkpoints_never_not_found snapshots "u"
              "a/b.txt" "a/d.txt"))))) "99" 99).
  - vm_compute. reflexivity.
  - apply (in_forallb (fun r => negb (remote_id r =? 99)%Z)
             (fun r => remote_user_id r = "u" ->
                       remote_path r = from_api_filename "a/b.txt" ->
                       remote_id r <> 99)).
    + intros r Hr _ _. apply Z.eqb_neq. now apply negb_true_iff.
    + vm_compute. reflexivity.
Defined.
End OnTheExampleStore.

(** * More of the example store *)

Section MoreOfTheExampleStore.
#[local] Existing Instance Example.strict.
Local Open Scope string_scope.

Import Example.

Lemma save_file_then_listed_witness :
  file_exists (snd (save_file (at_time 1 home) "u" "a/b.txt" "v1" 0)) "u"
    "a/b.txt"
  = (Return true, snd (save_file (at_time 1 home) "u" "a/b.txt" "v1" 0)).
Proof.
  assert (Hsave : save_file (at_time 1 home) "u" "a/b.txt" "v1" 0
                  = (Return tt,
                     snd (save_file (at_time 1 home) "u" "a/b.txt" "v1" 0)))
    by (vm_compute; reflexivity).
  apply (proj1 (save_file_then_listed _ _ _ _ _ _ Hsave)).
Defined.

Lemma create_directory_then_exists_witness :
  dir_exists home "u" "a/b" = false
  /\ dir_exists (snd (create_directory home "u" "a/b")) "u" "a/b" = true.
Proof.
  destruct (create_directory_then_exists home
              (snd (create_directory home "u" "a/b")) "u" "a/b")
    as (Hbefore & Hafter & _).
  - vm_compute. reflexivity.
  - split; [exact Hbefore | exact Hafter].
Defined.


Lemma delete_directory_of_an_unreferenced_directory_witness :
  exists n db',
    delete_directory home "u" "a" = (Return n, db')
    /\ 0 < n
    /\ dir_exists db' "u" "a" = false.
Proof.
  destruct (delete_directory_of_an_unreferenced_directory home "u" "a"
              (mk_directory "u" "/a/" (Some "u") (Some "/")))
    as (n & db' & Hdelete & Hn & Hgone & _).
  - vm_compute. right. left. reflexivity.
  - reflexivity.
  - vm_compute. reflexivity.
  - apply (in_forallb (fun _ => false)
             (fun f => file_user_id f = "u" ->
                       file_parent_name f <> from_api_dirname "a")).
    + discriminate.
    + vm_compute. reflexivity.
  - apply (in_forallb
             (fun c => negb (option_eqb (dir_parent_name c) "/a/"))
             (fun c => dir_parent_user_id c = Some "u" ->
                       dir_parent_name c <> Some (from_api_dirname "a"))).
    + intros c Hc _ Heq. rewrite Heq in Hc. vm_compute in Hc.
      discriminate Hc.
    + vm_compute. reflexivity.
  - exists n, db'. auto.
Defined.

Lemma create_checkpoint_then_listed_witness :
  exists db',
    create_checkpoint (at_time 3 two_versions) "u" "a/b.txt"
    = (Return (mk_checkpoint_dict 1 3), db')
    /\ In (mk_checkpoint_dict 1 3) (list_checkpoints db' "u" "a/b.txt").
Proof.
  destruct (create_checkpoint_then_listed (at_time 3 two_versions) "u"
              "a/b.txt")
    as (db' & f & Hcreate & _ & _ & _ & Hlisted).
  - exists (mk_file 2 "b.txt" "u" "/a/" "v2" 2).
    vm_compute. split; [right; left|]; reflexivity.
  - exists db'. split; [exact Hcreate | exact Hlisted].
Defined.

Lemma save_remote_checkpoint_then_get_witness :
  exists db',
    save_remote_checkpoint snapshots "u" "a/b.txt" "s4"
    = (Return (Some (4, 3)), db')
    /\ get_remote_checkpoint db' "u" "a/b.txt" "4" = (Return "s4", db').
Proof.
  destruct (save_remote_checkpoint_then_get snapshots "u" "a/b.txt" "s4")
    as (db' & Hsave & _ & Hget & _).
  - apply (in_forallb (fun r => (remote_id r <? 4)%Z)
             (fun r => remote_id r < remote_checkpoints_id_seq snapshots)).
    + intros r. apply Z.ltb_lt.
    + vm_compute. reflexivity.
  - exists db'. split; [exact Hsave|]. apply Hget.
    vm_compute. reflexivity.
Defined.

Lemma delete_single_remote_checkpoint_removes_it_witness :
  exists db',
    delete_single_remote_checkpoint snapshots "u" "a/b.txt" "1"
    = (Return tt, db')
    /\ get_remote_checkpoint db' "u" "a/b.txt" "1"
       = (Raise (NoSuchCheckpoint "a/b.txt" "1"), db').
Proof.
  destruct (delete_single_remote_checkpoint_removes_it snapshots "u"
              "a/b.txt" "1" 1
              (mk_remote_checkpoint 1 "u" "/a/b.txt" "s1" 1))
    as (db' & Hdelete & _ & Hget).
  - vm_compute. reflexivity.
  - vm_compute. left. reflexivity.
  - reflexivity.
  - vm_compute. reflexivity.
  - reflexivity.
  - exists db'. split; [exact Hdelete | exact Hget].
Defined.

Lemma move_single_remote_checkpoint_moves_it_witness :
  exists db',
    move_single_remote_checkpoint snapshots "u" "a/b.txt" "a/d.txt" "1"
    = (Return tt, db')
    /\ get_remote_checkpoint db' "u" "a/d.txt" "1" = (Return "s1", db').
Proof.
  destruct (move_single_remote_checkpoint_moves_it snapshots "u" "a/b.txt"
              "a/d.txt" "1" 1
              (mk_remote_checkpoint 1 "u" "/a/b.txt" "s1" 1))
    as (db' & Hmove & _ & Hget).
  - vm_compute. reflexivity.
  - vm_compute. left. reflexivity.
  - reflexivity.
  - vm_compute. reflexivity.
  - reflexivity.
  - exists db'. split; [exact Hmove|]. apply Hget.
    vm_compute. repeat constructor; simpl; intuition discriminate.
Defined.

Lemma purge_user_removes_the_user_witness :
  (exists db',
     purge_user two_files "u" = (Return tt, db')
     /\ (forall f, In f (files db') <->
                   In f (files two_files) /\ file_user_id f <> "u"))
  /\ (exists db',
        purge_user snapshots "u"
        = (Raise (IntegrityError FOREIGN_KEY_VIOLATION), db')
        /\ users db' = users snapshots
        /\ remote_checkpoints db' = remote_checkpoints snapshots).
Proof.
  assert (Hown : forall db,
            forallb (fun d => String.eqb (dir_user_id d) "u")
              (directories db) = true ->
            forall d, In d (directories db) -> dir_user_id d <> "u" ->
                      dir_parent_user_id d <> Some "u").
  { intros db Hall.
    apply (in_forallb (fun d => String.eqb (dir_user_id d) "u")
             (fun d => dir_user_id d <> "u" ->
                       dir_parent_user_id d <> Some "u")
             (directories db)); [|exact Hall].
    intros d Hd Hne. apply String.eqb_eq in Hd. contradiction. }
  assert (Hfiles2 : forallb (fun d => String.eqb (dir_user_id d) "u")
                      (directories two_files) = true)
    by (vm_compute; reflexivity).
  assert (Hsnapshots : forallb (fun d => String.eqb (dir_user_id d) "u")
                         (directories snapshots) = true)
    by (vm_compute; reflexivity).
  split.
  - destruct (proj1 (purge_user_removes_the_user two_files "u"
                       (Hown two_files Hfiles2)))
      as (db' & Hpurge & Hfiles & _).
    + apply (in_forallb (fun _ => false)
               (fun r => remote_user_id r <> "u")).
      * discriminate.
      * vm_compute. reflexivity.
    + exists db'. split; [exact Hpurge | exact Hfiles].
  - apply (proj2 (purge_user_removes_the_user snapshots "u"
                    (Hown snapshots Hsnapshots))
             (mk_remote_checkpoint 1 "u" "/a/b.txt" "s1" 1)).
    + vm_compute. left. reflexivity.
    + reflexivity.
    + vm_compute. left. reflexivity.
Defined.

Lemma reachable_stores_have_their_keys_witness :
  well_formed home /\ remote_well_formed home.
Proof.
  apply reachable_stores_have_their_keys.
  unfold home, then_. cbv zeta.
  eapply reachable_call; [|apply call_create_directory].
  eapply reachable_call; [|apply call_create_directory].
  eapply reachable_call; [|apply call_ensure_db_user].
  apply reachable_empty.
Defined.
End MoreOfTheExampleStore.
